(** * PCF daily diff: a shallow embedding of [pcf_downloader.py]

    The development follows the pipeline of [PCFDownloader]: the table
    extractor ([parse_pcf_excel]), the delta engine ([compare_pcf_data]),
    the report writer ([save_comparison_result]) and the driver
    ([process], [main]).

    Python values are modelled as the interpreter has them:
    - [int] is unbounded, so it is [Z];
    - [float] is IEEE 754 binary64, taken from the standard library's
      [SpecFloat] with [prec = 53] and [emax = 1024];
    - [str] is a sequence of Unicode code points, so it is [list N];
    - a [dict] keyed by [str] is a [gmap], a [set] a [gset];
    - an exception is an error value of the [result] monad. *)

From Stdlib Require Import ZArith NArith List Bool Lia Sorted Permutation.
From Stdlib Require Import Ascii String SpecFloat.
From stdpp Require Import gmap list sorting.

Local Open Scope Z_scope.

(** ** Exceptions *)

Inductive exn : Set :=
  | ValueError
  | KeyError
  | IndexError
  | OverflowError
  | ZeroDivisionError
  | RuntimeException
  | IllegalCharacterError.

Inductive result (A : Type) : Type :=
  | OK (a : A)
  | Raise (e : exn).
Arguments OK {A} a.
Arguments Raise {A} e.

#[global] Instance result_ret : MRet result := fun A a => OK a.
#[global] Instance result_bind : MBind result := fun A B k r =>
  match r with
  | OK a => k a
  | Raise e => Raise e
  end.

(** [for x in xs: ys.append(f(x))], stopping at the first exception. *)
Fixpoint for_each {A B : Type} (f : A -> result B) (xs : list A)
  : result (list B) :=
  match xs with
  | [] => OK []
  | x :: xs' => y ← f x; ys ← for_each f xs'; OK (y :: ys)
  end.

(** ** Python floats *)

Module PyFloat.

Definition prec : Z := 53.
Definition emax : Z := 1024.

Definition float : Set := spec_float.

(** An integer as an exact (not normalised) binary number. *)
Definition exact_int (z : Z) : float :=
  match z with
  | Z0 => S754_zero false
  | Zpos p => S754_finite false p 0
  | Zneg p => S754_finite true p 0
  end.

Definition is_inf (x : float) : bool :=
  match x with S754_infinity _ => true | _ => false end.

Definition is_nan (x : float) : bool :=
  match x with S754_nan => true | _ => false end.

(** [a / b] on two ints: the correctly rounded quotient of the exact
    integers, [ZeroDivisionError] on a zero divisor and [OverflowError]
    when the rounded quotient does not fit a double. *)
Definition int_truediv (a b : Z) : result float :=
  if b =? 0 then Raise ZeroDivisionError
  else
    let q := SFdiv prec emax (exact_int a) (exact_int b) in
    if is_inf q then Raise OverflowError else OK q.

Definition mul (x y : float) : float := SFmul prec emax x y.
Definition sub (x y : float) : float := SFsub prec emax x y.
Definition eqb (x y : float) : bool := SFeqb x y.
Definition ltb (x y : float) : bool := SFltb x y.

(** [float(n)] for an int that fits. *)
Definition of_int (z : Z) : float := binary_normalize prec emax z 0 false.

Definition zero : float := S754_zero false.
Definition inf : float := S754_infinity false.
Definition hundred : float := Eval vm_compute in of_int 100.

(** Round half to even of [a / b], for [0 <= a] and [0 < b]. *)
Definition div_half_even (a b : Z) : Z :=
  let q := a / b in
  let r := a mod b in
  match 2 * r ?= b with
  | Lt => q
  | Gt => q + 1
  | Eq => if Z.even q then q else q + 1
  end.

(** [round(x, 2)]: the exact value of [x] is rounded half-even to a
    multiple of 1/100, and that decimal is read back as the nearest
    double (the dtoa / strtod round trip of [float.__round__]). *)
Definition round2 (x : float) : float :=
  match x with
  | S754_finite s m e =>
      let n :=
        match e with
        | Zneg k => div_half_even (Zpos m * 100) (2 ^ Zpos k)
        | _ => Zpos m * 100 * 2 ^ e
        end in
      match n with
      | Zpos p =>
          SFdiv prec emax (S754_finite s p 0) (exact_int 100)
      | _ => S754_zero s
      end
  | _ => x
  end.

End PyFloat.

Import PyFloat.

(** ** Python strings *)

Definition char : Set := N.
Definition str : Set := list char.

(** A text of Basic Latin characters. *)
Definition py (s : String.string) : str :=
  N_of_ascii <$> list_ascii_of_string s.
Arguments py s%_string.

(** The two labels of the share-change column: "新增" (new position)
    and "清倉" (position closed out). *)
Definition label_new : str := [0x65B0; 0x589E]%N.
Definition label_liquidated : str := [0x6E05; 0x5009]%N.

(** ** Delta engine: [compare_pcf_data] *)

(** One row of a holdings frame: the columns 股票代號, 股票名稱, 股數
    and 持股權重. *)
Record Holding : Set := mkHolding {
  h_code : str;
  h_name : str;
  h_shares : Z;
  h_weight : float
}.

(** The share-change column holds either a float or a label. *)
Inductive display : Set :=
  | DFloat (x : float)
  | DStr (s : str).

(** One row of the comparison frame, columns in the order of the dict
    literal of [comparison_data.append]. *)
Record ComparisonRow : Set := mkRow {
  r_code : str;
  r_name : str;
  r_shares : Z;
  r_weight : float;
  r_prev_shares : Z;
  r_prev_weight : float;
  r_shares_delta : Z;
  r_shares_delta_pct : display;
  r_weight_delta_pct : float
}.

(** [d[row[code]] = {...}] over [iterrows()]: later rows overwrite. *)
Definition build_dict (df : list Holding) : gmap str Holding :=
  foldl (fun d row => <[h_code row := row]> d) ∅ df.

(** The percentage before display, lines 391-395. *)
Definition shares_change_of (current_shares prev_shares : Z) : result float :=
  if negb (prev_shares =? 0) then
    q ← int_truediv (current_shares - prev_shares) prev_shares;
    OK (mul q hundred)
  else
    OK (if 0 <? current_shares then inf else zero).

(** The displayed percentage and the absolute change, lines 399-408. *)
Definition display_of (shares_change : float) (current_shares prev_shares : Z)
  : display * Z :=
  if eqb shares_change inf then
    (DStr label_new, current_shares)
  else if eqb shares_change zero && (current_shares =? 0)
          && (0 <? prev_shares) then
    (DStr label_liquidated, - prev_shares)
  else
    (DFloat (round2 shares_change), current_shares - prev_shares).

(** The body of the loop over [all_stock_codes], lines 370-420. *)
Definition compare_code (current_dict prev_dict : gmap str Holding)
    (stock_code : str) : result ComparisonRow :=
  cur ← match current_dict !! stock_code with
         | Some h => OK (h_shares h, h_weight h, h_name h)
         | None =>
             match prev_dict !! stock_code with
             | Some p => OK (0, zero, h_name p)
             | None => Raise KeyError
             end
         end;
  let '(current_shares, current_weight, stock_name) := cur in
  let '(prev_shares, prev_weight) :=
    match prev_dict !! stock_code with
    | Some p => (h_shares p, h_weight p)
    | None => (0, zero)
    end in
  shares_change ← shares_change_of current_shares prev_shares;
  let weight_change := sub current_weight prev_weight in
  let '(shares_change_display, shares_absolute_change) :=
    display_of shares_change current_shares prev_shares in
  OK {| r_code := stock_code;
        r_name := stock_name;
        r_shares := current_shares;
        r_weight := current_weight;
        r_prev_shares := prev_shares;
        r_prev_weight := prev_weight;
        r_shares_delta := shares_absolute_change;
        r_shares_delta_pct := shares_change_display;
        r_weight_delta_pct := round2 weight_change |}.

(** Shares and weight of a code in a table, with the defaults the loop
    uses for a code the table does not list. *)
Definition shares_in (d : gmap str Holding) (c : str) : Z :=
  match d !! c with Some h => h_shares h | None => 0 end.

Definition weight_in (d : gmap str Holding) (c : str) : float :=
  match d !! c with Some h => h_weight h | None => zero end.

(** *** [sort_values] on the two weight columns, both descending *)

(** Order of one descending key; pandas puts NaN last whatever the
    direction. [Lt] means "comes first". *)
Definition cmp_desc (x y : float) : comparison :=
  match is_nan x, is_nan y with
  | true, true => Eq
  | true, false => Gt
  | false, true => Lt
  | false, false =>
      match SFcompare x y with
      | Some c => CompOpp c
      | None => Eq
      end
  end.

Definition cmp_rows (a b : ComparisonRow) : comparison :=
  match cmp_desc (r_weight a) (r_weight b) with
  | Eq => cmp_desc (r_prev_weight a) (r_prev_weight b)
  | c => c
  end.

Definition row_leb (a b : ComparisonRow) : bool :=
  match cmp_rows a b with Gt => false | _ => true end.

(** A sort on several keys is a stable lexicographic sort: a row goes in
    front of the first row that does not come strictly before it. *)
Fixpoint insert_row (x : ComparisonRow) (l : list ComparisonRow)
  : list ComparisonRow :=
  match l with
  | [] => [x]
  | y :: l' => if row_leb x y then x :: y :: l' else y :: insert_row x l'
  end.

Definition stable_sort (l : list ComparisonRow) : list ComparisonRow :=
  foldr insert_row [] l.

(** [pd.DataFrame(comparison_data).sort_values([...])]: a frame built
    from an empty list has no columns, and sorting it by a column label
    raises [KeyError]. *)
Definition sort_values (comparison_data : list ComparisonRow)
  : result (list ComparisonRow) :=
  match comparison_data with
  | [] => Raise KeyError
  | _ => OK (stable_sort comparison_data)
  end.

Section DeltaEngine.

(** Iteration order of a Python [set]: some enumeration of its
    elements, each once. *)
Variable set_iter : gset str -> list str.
Hypothesis set_iter_perm : forall s, set_iter s ≡ₚ elements s.

Definition all_stock_codes (current_df previous_df : list Holding)
  : gset str :=
  dom (build_dict current_df) ∪ dom (build_dict previous_df).

Definition comparison_data (current_df previous_df : list Holding)
  : result (list ComparisonRow) :=
  for_each (compare_code (build_dict current_df) (build_dict previous_df))
           (set_iter (all_stock_codes current_df previous_df)).

Definition compare_pcf_data (current_df previous_df : list Holding)
  : result (list ComparisonRow) :=
  rows ← comparison_data current_df previous_df;
  sort_values rows.

End DeltaEngine.

(** *** The sort order as a lexicographic order on integer tuples *)

(** Lexicographic comparison of integer tuples. *)
Fixpoint lex_cmp (k1 k2 : list Z) : comparison :=
  match k1, k2 with
  | [], [] => Eq
  | [], _ :: _ => Lt
  | _ :: _, [] => Gt
  | a :: k1', b :: k2' =>
      match a ?= b with
      | Eq => lex_cmp k1' k2'
      | c => c
      end
  end.

(** A float as a tuple whose lexicographic order is the order of the
    values, NaN below everything (hence last when descending). *)
Definition float_key (x : float) : list Z :=
  match x with
  | S754_nan => [-3; 0; 0]
  | S754_infinity true => [-2; 0; 0]
  | S754_finite true m e => [-1; - e; Zneg m]
  | S754_zero _ => [0; 0; 0]
  | S754_finite false m e => [1; e; Zpos m]
  | S754_infinity false => [2; 0; 0]
  end.

Definition row_key (r : ComparisonRow) : list Z :=
  float_key (r_weight r) ++ float_key (r_prev_weight r).

(** [a] may stand before [b] in the sorted frame. *)
Definition row_before (a b : ComparisonRow) : Prop := row_leb a b = true.

(** [a] and [b] agree on both sort keys. *)
Definition same_keys (a b : ComparisonRow) : bool :=
  match cmp_rows a b with Eq => true | _ => false end.

(** *** The sort order in the words of the specification *)

(** [x] comes strictly before [y] in a descending column (NaN last). *)
Definition before_desc (x y : float) : Prop :=
  (is_nan x = false /\ is_nan y = true) \/ ltb y x = true.

(** [x] and [y] are the same sort key. *)
Definition equal_key (x y : float) : Prop :=
  (is_nan x = true /\ is_nan y = true) \/ eqb x y = true.

(** Descending by current weight, ties broken descending by previous
    weight. *)
Definition weights_descending (a b : ComparisonRow) : Prop :=
  before_desc (r_weight a) (r_weight b) \/
  (equal_key (r_weight a) (r_weight b) /\
   (before_desc (r_prev_weight a) (r_prev_weight b) \/
    equal_key (r_prev_weight a) (r_prev_weight b))).

(** [-1.0] and [-100.0]. *)
Definition minus_one : float := Eval vm_compute in of_int (-1).
Definition minus_hundred : float := Eval vm_compute in of_int (-100).

(** *** Example tables *)

(** [n / d] as a float, for writing decimal weights. *)
Definition decimal (n d : Z) : float :=
  SFdiv prec emax (exact_int n) (exact_int d).

(** The codes 2330, 2317, 2303 and 2412. *)
Definition code_2330 : str := [50; 51; 51; 48]%N.
Definition code_2317 : str := [50; 51; 49; 55]%N.
Definition code_2303 : str := [50; 51; 48; 51]%N.
Definition code_2412 : str := [50; 52; 49; 50]%N.

Definition example_current : list Holding :=
  [ mkHolding code_2330 [84; 83; 77; 67]%N 1000 (decimal 55 10);
    mkHolding code_2317 [72; 72]%N 150 (decimal 20 10);
    mkHolding code_2303 [85; 77; 67]%N 300 (decimal 20 10) ].

Definition example_previous : list Holding :=
  [ mkHolding code_2317 [72; 72]%N 100 (decimal 20 10);
    mkHolding code_2303 [85; 77; 67]%N 300 (decimal 20 10);
    mkHolding code_2412 [67; 72; 84]%N 500 (decimal 15 10) ].

(** A table that lists 1e307 shares of a code, and one that lists a
    single share of it. *)
Definition huge_current : list Holding :=
  [ mkHolding code_2330 [84; 83; 77; 67]%N (10 ^ 307) (decimal 55 10) ].

Definition huge_previous : list Holding :=
  [ mkHolding code_2330 [84; 83; 77; 67]%N 1 (decimal 55 10) ].

(** The frame of the example tables, codes in the order 2317, 2303,
    2412, 2330 when the loop runs. *)
Definition example_frame : list ComparisonRow :=
  [ mkRow code_2330 [84; 83; 77; 67]%N 1000 (decimal 55 10) 0 zero
          1000 (DStr label_new) (decimal 55 10);
    mkRow code_2317 [72; 72]%N 150 (decimal 20 10) 100 (decimal 20 10)
          50 (DFloat (of_int 50)) zero;
    mkRow code_2303 [85; 77; 67]%N 300 (decimal 20 10) 300 (decimal 20 10)
          0 (DFloat zero) zero;
    mkRow code_2412 [67; 72; 84]%N 0 zero 500 (decimal 15 10)
          (-500) (DFloat minus_hundred) (SFopp (decimal 15 10)) ].

Definition huge_frame : list ComparisonRow :=
  [ mkRow code_2330 [84; 83; 77; 67]%N (10 ^ 307) (decimal 55 10)
          1 (decimal 55 10) (10 ^ 307) (DStr label_new) zero ].

(** ** Text operations *)

(** [c.isspace()], the characters [str.strip()] removes. *)
Definition py_isspace (c : char) : bool :=
  ((9 <=? c) && (c <=? 13) || (28 <=? c) && (c <=? 32)
   || (c =? 0x85) || (c =? 0xA0) || (c =? 0x1680)
   || (0x2000 <=? c) && (c <=? 0x200A)
   || (c =? 0x2028) || (c =? 0x2029) || (c =? 0x202F)
   || (c =? 0x205F) || (c =? 0x3000))%N.

Fixpoint lstrip (s : str) : str :=
  match s with
  | c :: s' => if py_isspace c then lstrip s' else s
  | [] => []
  end.

(** [s.strip()] *)
Definition strip (s : str) : str :=
  reverse (lstrip (reverse (lstrip s))).

Fixpoint startswith (s p : str) : bool :=
  match p, s with
  | [], _ => true
  | a :: p', b :: s' => (a =? b)%N && startswith s' p'
  | _ :: _, [] => false
  end.

(** [needle in hay] *)
Fixpoint contains (needle hay : str) : bool :=
  startswith hay needle ||
  match hay with
  | [] => false
  | _ :: hay' => contains needle hay'
  end.

(** [s.replace(c, '')] for a one-character [c]. *)
Definition remove_char (c : char) (s : str) : str :=
  List.filter (fun x => negb (x =? c)%N) s.

(** [s.endswith(c)] for a one-character [c]. *)
Definition endswith_char (c : char) (s : str) : bool :=
  match last s with
  | Some x => (x =? c)%N
  | None => false
  end.

Definition comma : char := 44%N.
Definition percent : char := 37%N.
Definition newline : char := 10%N.

(** The markers "股票代號" (header), "現金" (cash) and "合計" (totals);
    the defaults "0" and "0%" of a blank shares or weight cell. *)
Definition header_marker : str := [0x80A1; 0x7968; 0x4EE3; 0x865F]%N.
Definition cash_marker : str := [0x73FE; 0x91D1]%N.
Definition total_marker : str := [0x5408; 0x8A08]%N.
Definition text_0 : str := [48]%N.
Definition text_0_percent : str := [48; 37]%N.

(** ** Table extractor: [parse_pcf_excel] *)

(** A cell of the frame read by [pd.read_excel(..., header=None)], as
    the extractor sees it: [None] when [pd.notna] is false, [Some s] with
    [s = str(cell)] otherwise. *)
Definition cell : Set := option str.

Definition notna (c : cell) : bool :=
  match c with Some _ => true | None => false end.

Definition str_of (c : cell) : str :=
  match c with Some s => s | None => [] end.

(** A frame has a number of columns and rows of cells; a row shorter than
    the frame is filled with blank cells, as the reader does. *)
Record DataFrame : Set := mkFrame {
  df_width : nat;
  df_rows : list (list cell)
}.

(** [df.iloc[i].values] for a row of the frame. *)
Definition values_of (df : DataFrame) (row : list cell) : list cell :=
  take (df_width df) (row ++ replicate (df_width df) None).

Definition iloc (df : DataFrame) (i : nat) : result (list cell) :=
  match df_rows df !! i with
  | Some row => OK (values_of df row)
  | None => Raise IndexError
  end.

(** [row_values[k]] *)
Definition item (row_values : list cell) (k : nat) : result cell :=
  match row_values !! k with
  | Some c => OK c
  | None => Raise IndexError
  end.

(** [any(marker in str(cell) for cell in row if pd.notna(cell))] *)
Definition has_header (row_values : list cell) : bool :=
  existsb (fun c => notna c && contains header_marker (str_of c)) row_values.

(** The loop over [df.iterrows()] with its [break], lines 270-274. *)
Fixpoint find_header (df : DataFrame) (i : nat) (rows : list (list cell))
  : option nat :=
  match rows with
  | [] => None
  | row :: rest =>
      if has_header (values_of df row) then Some i
      else find_header df (S i) rest
  end.

(** [str(row_values[0]).strip() if pd.notna(row_values[0]) else ""] *)
Definition first_col_of (c : cell) : str :=
  if notna c then strip (str_of c) else [].

Module Sheet.

Section TableExtractor.

(** The character classes of the interpreter's Unicode tables, and its
    conversions of text to numbers:
    - [re_digit c]: [c] matches the pattern [\d];
    - [isdigit_char c]: [c.isdigit()];
    - [py_int s] and [py_float s]: [int(s)] and [float(s)]. *)
Variable re_digit : char -> bool.
Variable isdigit_char : char -> bool.
Variable py_int : str -> result Z.
Variable py_float : str -> result float.

(** [re.match(r'^\d{4}$', s)]: four digits, then the end of the text or
    a newline that ends it. *)
Definition re_match_code (s : str) : bool :=
  match s with
  | [a; b; c; d] => re_digit a && re_digit b && re_digit c && re_digit d
  | [a; b; c; d; e] =>
      re_digit a && re_digit b && re_digit c && re_digit d
      && (e =? newline)%N
  | _ => false
  end.

(** The test of lines 288-291 that ends the list of stocks. *)
Definition is_terminal (first_col : str) : bool :=
  match first_col with [] => true | _ => false end
  || contains cash_marker first_col
  || contains total_marker first_col
  || negb (re_match_code first_col).

(** The loop over [range(stock_header_row + 1, len(df))] with its
    [break], lines 283-293. *)
Fixpoint find_end (df : DataFrame) (idxs : list nat) : result (option nat) :=
  match idxs with
  | [] => OK None
  | i :: rest =>
      row_values ← iloc df i;
      c0 ← item row_values 0;
      if is_terminal (first_col_of c0) then OK (Some i)
      else find_end df rest
  end.

(** [s.isdigit()] *)
Definition isdigit (s : str) : bool :=
  match s with [] => false | _ => forallb isdigit_char s end.

(** Lines 312-313. *)
Definition shares_of (shares_str : str) : result Z :=
  if isdigit (remove_char comma shares_str)
  then py_int (remove_char comma shares_str)
  else OK 0.

(** Lines 315-316. *)
Definition weight_of (weight_str : str) : result float :=
  if endswith_char percent weight_str
  then py_float (remove_char percent weight_str)
  else OK zero.

(** The body of the extraction loop, lines 304-323: [None] when the row
    is passed over. *)
Definition parse_row (row_values : list cell) : result (option Holding) :=
  if (4 <=? length row_values)%nat then
    c0 ← item row_values 0;
    if notna c0 then
      c1 ← item row_values 1;
      c2 ← item row_values 2;
      c3 ← item row_values 3;
      let stock_code := strip (str_of c0) in
      let stock_name := if notna c1 then strip (str_of c1) else [] in
      let shares_str := if notna c2 then strip (str_of c2) else text_0 in
      let weight_str :=
        if notna c3 then strip (str_of c3) else text_0_percent in
      shares ← shares_of shares_str;
      weight ← weight_of weight_str;
      OK (Some (mkHolding stock_code stock_name shares weight))
    else OK None
  else OK None.

(** The loop over [range(stock_header_row + 1, stock_end_row)]. *)
Fixpoint extract_rows (df : DataFrame) (idxs : list nat)
  : result (list Holding) :=
  match idxs with
  | [] => OK []
  | i :: rest =>
      row_values ← iloc df i;
      h ← parse_row row_values;
      stock_data ← extract_rows df rest;
      OK (match h with Some x => x :: stock_data | None => stock_data end)
  end.

(** [range(a, b)] *)
Definition py_range (a b : nat) : list nat := seq a (b - a).

Definition parse_pcf_excel (df : DataFrame) : result (list Holding) :=
  match find_header df 0 (df_rows df) with
  | None => Raise ValueError
  | Some stock_header_row =>
      found ← find_end df
                (py_range (stock_header_row + 1) (length (df_rows df)));
      let stock_end_row :=
        match found with
        | Some i => i
        | None => length (df_rows df)
        end in
      extract_rows df (py_range (stock_header_row + 1) stock_end_row)
  end.

(** *** The extractor in the words of the specification *)

(** Row [i] of the frame holds the header marker in one of its cells. *)
Definition header_row (df : DataFrame) (i : nat) : Prop :=
  exists row,
    df_rows df !! i = Some row /\ has_header (values_of df row) = true.

(** [h] is the first row that holds the header marker. *)
Definition first_header (df : DataFrame) (h : nat) : Prop :=
  header_row df h /\ forall i, (i < h)%nat -> ~ header_row df i.

(** The text of the first cell of row [i], trimmed, blank for a blank
    cell. *)
Definition first_col (df : DataFrame) (i : nat) : option str :=
  match df_rows df !! i with
  | Some row =>
      match values_of df row !! 0%nat with
      | Some c0 => Some (first_col_of c0)
      | None => None
      end
  | None => None
  end.

(** A text ends the table when it is blank, holds the cash marker, holds
    the totals marker, or fails the four-digit pattern. *)
Definition terminal_text (s : str) : Prop :=
  s = [] \/ contains cash_marker s = true \/ contains total_marker s = true
  \/ re_match_code s = false.

Definition terminal_row (df : DataFrame) (i : nat) : Prop :=
  exists s, first_col df i = Some s /\ terminal_text s.

(** [t] is the first terminal row after the header row [h], or the number
    of rows when there is none. *)
Definition run_end (df : DataFrame) (h t : nat) : Prop :=
  (h < t <= length (df_rows df))%nat /\
  (forall i, (h < i < t)%nat -> ~ terminal_row df i) /\
  ((t < length (df_rows df))%nat -> terminal_row df t).

(** The rows [a, b) of the frame. *)
Definition rows_between (df : DataFrame) (a b : nat) : list (list cell) :=
  take (b - a) (drop a (df_rows df)).

(** The holdings of a list of rows, the rows that are passed over left
    out. *)
Definition holdings_of (df : DataFrame) (rows : list (list cell))
  : result (list Holding) :=
  match for_each (fun row => parse_row (values_of df row)) rows with
  | OK hs => OK (omap id hs)
  | Raise e => Raise e
  end.

(** The trimmed text of a cell, [d] for a blank cell. *)
Definition text_or (d : str) (c : cell) : str :=
  match c with Some s => strip s | None => d end.

(** The gate of line 305: the row has four cells or more (as many as the
    frame has columns, blank or not) and its first cell is not blank. *)
Definition passes_gate (row_values : list cell) : Prop :=
  (4 <= length row_values)%nat /\
  exists s, row_values !! 0%nat = Some (Some s).

(** The number of cells of a row that are not blank. *)
Definition populated (row_values : list cell) : nat :=
  length (List.filter notna row_values).

(** The weight of a text when only the percent sign that ends it is
    taken off. *)
Definition weight_without_last_percent (weight_str : str) : result float :=
  if endswith_char percent weight_str
  then py_float (removelast weight_str)
  else OK zero.

End TableExtractor.

End Sheet.

Import Sheet.

(** *** The conversions on plain decimal text *)

Definition ascii_digit (c : char) : bool := ((48 <=? c) && (c <=? 57))%N.

(** [int(s)] on a text of the digits 0 to 9. *)
Definition ascii_int (s : str) : result Z :=
  match s with
  | [] => Raise ValueError
  | _ =>
      if forallb ascii_digit s
      then OK (fold_left (fun n c => 10 * n + (Z.of_N c - 48)) s 0)
      else Raise ValueError
  end.

(** The text before the first full stop, and the text after it. *)
Fixpoint split_at_dot (s : str) : str * option str :=
  match s with
  | [] => ([], None)
  | c :: s' =>
      if (c =? 46)%N then ([], Some s')
      else let '(whole, frac) := split_at_dot s' in (c :: whole, frac)
  end.

(** [float(s)] on a text of the shape [digits], [digits.] or
    [digits.digits]. *)
Definition ascii_float (s : str) : result float :=
  let '(whole, frac) := split_at_dot s in
  match frac with
  | None | Some [] => n ← ascii_int whole; OK (of_int n)
  | Some f =>
      n ← ascii_int (whole ++ f);
      OK (decimal n (10 ^ Z.of_nat (length f)))
  end.

(** *** An example sheet *)

(** Header marker in row 3, six stocks in rows 4 to 9, the totals marker
    in row 10. *)
Definition example_sheet : DataFrame :=
  mkFrame 4
    [ [Some (py "PCF")];
      [Some (py "Fund"); Some (py "49YTW")];
      [];
      [Some header_marker; Some (py "name"); Some (py "shares");
       Some (py "weight")];
      [Some (py "2330"); Some (py " TSMC "); Some (py "1,000");
       Some (py "5.5%")];
      [Some (py "2317"); Some (py "HH"); Some (py "150"); Some (py "2%")];
      [Some (py "2303"); Some (py "UMC"); Some (py "300"); Some (py "2.0%")];
      [Some (py "2412"); None; Some (py "n/a"); Some (py "1.5")];
      [Some (py " 2454 "); Some (py "MTK"); None; None];
      [Some (py "2881"); Some (py "FB"); Some (py "12,345,678");
       Some (py "0.25%")];
      [Some total_marker; None; Some (py "99"); Some (py "100%")];
      [Some (py "2882"); Some (py "late"); Some (py "7"); Some (py "1%")] ].

(** The table of the example sheet. *)
Definition example_table : list Holding :=
  [ mkHolding (py "2330") (py "TSMC") 1000 (decimal 55 10);
    mkHolding (py "2317") (py "HH") 150 (of_int 2);
    mkHolding (py "2303") (py "UMC") 300 (decimal 20 10);
    mkHolding (py "2412") [] 0 zero;
    mkHolding (py "2454") (py "MTK") 0 zero;
    mkHolding (py "2881") (py "FB") 12345678 (decimal 25 100) ].

(** A row with one cell that is not blank, in a frame of four columns. *)
Definition sparse_row : list cell := [Some (py "2330"); None; None; None].

(** A full row. *)
Definition full_row : list cell :=
  [Some (py "2330"); Some (py " TSMC "); Some (py "1,000");
   Some (py "5.5%")].

(** [terminal_row] as a test. *)
Definition terminal_rowb (re_digit : char -> bool) (df : DataFrame)
    (i : nat) : bool :=
  match first_col df i with
  | Some s => is_terminal re_digit s
  | None => false
  end.

(** [header_row] as a test. *)
Definition header_rowb (df : DataFrame) (i : nat) : bool :=
  match df_rows df !! i with
  | Some row => has_header (values_of df row)
  | None => false
  end.

(** ** Report writer: [save_comparison_result] *)

(** The value of a cell of the saved workbook, as [load_workbook] reads
    it back. *)
Inductive xl_value : Set :=
  | XNone
  | XStr (s : str)
  | XInt (z : Z)
  | XFloat (x : float).

(** The three fills, yellow [FFFF00], light green [90EE90] and pink
    [FFB6C1]. *)
Inductive PatternFill : Set :=
  | new_stock_fill
  | negative_change_fill
  | high_change_fill.

(** A sheet: the values by row and column, and the fill of the cells
    that have one, keyed by (row, column), both counted from 1. *)
Record Worksheet : Type := mkSheet {
  ws_values : list (list xl_value);
  ws_fills : gmap (nat * nat) PatternFill
}.

(** The columns of the comparison frame. *)
Definition col_code : str := [0x80A1; 0x7968; 0x4EE3; 0x865F]%N.
Definition col_name : str := [0x80A1; 0x7968; 0x540D; 0x7A31]%N.
Definition col_shares : str := [0x80A1; 0x6578]%N.
Definition col_weight : str := [0x6301; 0x80A1; 0x6B0A; 0x91CD]%N.
Definition col_prev_shares : str := [0x524D; 0x65E5; 0x80A1; 0x6578]%N.
Definition col_prev_weight : str :=
  [0x524D; 0x65E5; 0x6301; 0x80A1; 0x6B0A; 0x91CD]%N.
Definition col_shares_delta : str := [0x80A1; 0x6578; 0x8B8A; 0x5316]%N.
Definition col_shares_delta_pct : str :=
  [0x80A1; 0x6578; 0x8B8A; 0x5316; 0x28; 0x25; 0x29]%N.
Definition col_weight_delta_pct : str :=
  [0x6301; 0x80A1; 0x6B0A; 0x91CD; 0x8B8A; 0x5316; 0x28; 0x25; 0x29]%N.

Definition column_names : list str :=
  [ col_code; col_name; col_shares; col_weight; col_prev_shares;
    col_prev_weight; col_shares_delta; col_shares_delta_pct;
    col_weight_delta_pct ].

(** *** Numbers in the workbook

    The workbook keeps a number as the text ["%.16g" % value], and
    [load_workbook] reads that text back as an [int] when it holds
    neither a point nor an exponent, as a [float] otherwise. So a number
    comes back rounded to 16 significant digits, and a whole number
    under [10 ^ 16] comes back as an [int]. *)

(** [floor (log10 q)] for [1 <= q]. *)
Fixpoint log10_floor (fuel : nat) (q : Z) : Z :=
  match fuel with
  | O => 0
  | S fuel' => if q <? 10 then 0 else 1 + log10_floor fuel' (q / 10)
  end.

(** The least [j >= start] with [den <= num * 10 ^ j]. *)
Fixpoint first_place (fuel : nat) (num den j : Z) : Z :=
  match fuel with
  | O => j
  | S fuel' =>
      if den <=? num * 10 ^ j then j else first_place fuel' num den (j + 1)
  end.

(** [floor (log10 (num / den))] for [0 < num] and [0 < den]. *)
Definition decimal_exponent (num den : Z) : Z :=
  if den <=? num
  then log10_floor (S (Z.to_nat (Z.log2 (num / den)))) (num / den)
  else - first_place (S (Z.to_nat (Z.log2 den))) num den 1.

(** [num / den] rounded half-even to 16 significant digits: the digits
    [N] and the exponent [k] of [N * 10 ^ k]. *)
Definition round16 (num den : Z) : Z * Z :=
  let k := decimal_exponent num den - 15 in
  (if 0 <=? k then div_half_even num (den * 10 ^ k)
   else div_half_even (num * 10 ^ (- k)) den,
   k).

Definition signed (s : bool) (z : Z) : Z := if s then - z else z.

(** The text of [N * 10 ^ k] read back: it has neither a point nor an
    exponent when the number is whole and under [10 ^ 16]; otherwise it
    is read by [float], which rounds to the nearest double. *)
Definition read_decimal (s : bool) (N k : Z) : xl_value :=
  if (k =? 0) && (N <? 10 ^ 16) then XInt (signed s N)
  else if (k <? 0) && (N mod 10 ^ (- k) =? 0)
  then XInt (signed s (N / 10 ^ (- k)))
  else XFloat (if 0 <=? k
               then binary_normalize prec emax (signed s (N * 10 ^ k)) 0 s
               else SFdiv prec emax (exact_int (signed s N))
                                   (exact_int (10 ^ (- k)))).

(** A float written by [to_excel] and read back: the text "inf" or
    "-inf" for an infinity, a blank cell for NaN, else the number of its
    16 digits. *)
Definition xl_of_float (x : float) : xl_value :=
  match x with
  | S754_nan => XNone
  | S754_infinity false => XStr (py "inf")
  | S754_infinity true => XStr (py "-inf")
  | S754_zero _ => XInt 0
  | S754_finite s m e =>
      let '(N, k) :=
        match e with
        | Zneg p => round16 (Zpos m) (2 ^ Zpos p)
        | _ => round16 (Zpos m * 2 ^ e) 1
        end in
      read_decimal s N k
  end.

(** [float(a)] for an int [0 < a], as an integer: [a] rounded half-even
    to 53 bits. *)
Definition nearest_double (a : Z) : Z :=
  let s := Z.log2 a + 1 - prec in
  if s <=? 0 then a else div_half_even a (2 ^ s) * 2 ^ s.

(** An int written and read back: formatting it converts it to a float
    first, which raises when the int is beyond the floats. *)
Definition xl_of_int (z : Z) : result xl_value :=
  match z with
  | Z0 => OK (XInt 0)
  | _ =>
      let n := nearest_double (Z.abs z) in
      if 2 ^ emax <=? n then Raise OverflowError
      else let '(N, k) := round16 n 1 in OK (read_decimal (z <? 0) N k)
  end.

(** [worksheet.cell(row=row, column=column).value] *)
Definition cell_value (ws : Worksheet) (row column : nat) : xl_value :=
  match ws_values ws !! (row - 1)%nat with
  | Some r =>
      match r !! (column - 1)%nat with
      | Some v => v
      | None => XNone
      end
  | None => XNone
  end.

Fixpoint str_eqb (s t : str) : bool :=
  match s, t with
  | [], [] => true
  | a :: s', b :: t' => (a =? b)%N && str_eqb s' t'
  | _, _ => false
  end.

(** [value == name] for a text [name]. *)
Definition is_text (v : xl_value) (name : str) : bool :=
  match v with
  | XStr s => str_eqb s name
  | _ => false
  end.

(** [headers.index(name) + 1 if name in headers else None] *)
Fixpoint column_of (name : str) (headers : list xl_value) : option nat :=
  match headers with
  | [] => None
  | v :: rest =>
      if is_text v name then Some 1%nat
      else S <$> column_of name rest
  end.

(** [isinstance(v, (int, float))] *)
Definition is_number (v : xl_value) : bool :=
  match v with
  | XInt _ | XFloat _ => true
  | _ => false
  end.

Definition thirty : float := Eval vm_compute in of_int 30.

(** [v < 0] and [v > 30] on a number. *)
Definition below_zero (v : xl_value) : bool :=
  match v with
  | XInt z => z <? 0
  | XFloat x => ltb x zero
  | _ => false
  end.

Definition above_30 (v : xl_value) : bool :=
  match v with
  | XInt z => 30 <? z
  | XFloat x => ltb thirty x
  | _ => false
  end.

(** The fill chosen for a row, lines 465-492. *)
Definition row_fill_of (ws : Worksheet)
    (change_pct_col share_change_col : option nat) (row : nat)
  : option PatternFill :=
  if match change_pct_col with
     | Some c => is_text (cell_value ws row c) label_new
     | None => false
     end
  then Some new_stock_fill
  else
    let share_change_value :=
      match share_change_col with
      | Some c => cell_value ws row c
      | None => XNone
      end in
    let change_pct_value :=
      match change_pct_col with
      | Some c => cell_value ws row c
      | None => XNone
      end in
    if is_number share_change_value && below_zero share_change_value
    then Some negative_change_fill
    else if is_number change_pct_value && above_30 change_pct_value
    then Some high_change_fill
    else None.

(** [worksheet.cell(row=row, column=col).fill = row_fill] *)
Definition set_fill (ws : Worksheet) (row col : nat) (f : PatternFill)
  : Worksheet :=
  mkSheet (ws_values ws) (<[(row, col) := f]> (ws_fills ws)).

(** The loop over [range(1, len(headers) + 1)], lines 495-497. *)
Definition fill_row (ws : Worksheet) (row ncols : nat) (f : PatternFill)
  : Worksheet :=
  foldl (fun w col => set_fill w row col f) ws (py_range 1 (ncols + 1)).

(** [[cell.value for cell in worksheet[1]]] *)
Definition headers_of (ws : Worksheet) : list xl_value :=
  match ws_values ws with
  | r :: _ => r
  | [] => [XNone]
  end.

(** The loop over [range(2, len(comparison_df) + 2)], lines 464-497. *)
Definition highlight_rows (ws : Worksheet) (nrows : nat) : Worksheet :=
  let headers := headers_of ws in
  let change_pct_col := column_of col_shares_delta_pct headers in
  let share_change_col := column_of col_shares_delta headers in
  foldl (fun w row =>
           match row_fill_of w change_pct_col share_change_col row with
           | Some f => fill_row w row (length headers) f
           | None => w
           end)
        ws (py_range 2 (nrows + 2)).

Module Workbook.

Section Writer.

(** What the workbook does with a text of the frame: it refuses some
    texts with an exception, and [load_workbook] reads the others back,
    not always as they were written. *)
Variable store_text : str -> result xl_value.

Definition xl_of_display (d : display) : result xl_value :=
  match d with
  | DStr s => store_text s
  | DFloat x => OK (xl_of_float x)
  end.

(** One row of the frame as a row of the sheet. *)
Definition sheet_row (r : ComparisonRow) : result (list xl_value) :=
  code ← store_text (r_code r);
  name ← store_text (r_name r);
  shares ← xl_of_int (r_shares r);
  prev_shares ← xl_of_int (r_prev_shares r);
  shares_delta ← xl_of_int (r_shares_delta r);
  shares_delta_pct ← xl_of_display (r_shares_delta_pct r);
  OK [ code; name; shares; xl_of_float (r_weight r); prev_shares;
       xl_of_float (r_prev_weight r); shares_delta; shares_delta_pct;
       xl_of_float (r_weight_delta_pct r) ].

(** The three cells of a row that hold ints. *)
Definition int_cells (r : ComparisonRow) : result unit :=
  _ ← xl_of_int (r_shares r);
  _ ← xl_of_int (r_prev_shares r);
  _ ← xl_of_int (r_shares_delta r);
  OK tt.

(** [with pd.ExcelWriter(...) as writer: comparison_df.to_excel(writer,
    index=False)] and [load_workbook], lines 443-448. The cells are
    bound column by column, and a text the workbook refuses ends the
    binding; leaving the [with] block then saves the cells bound so far,
    and there an int beyond the floats raises [OverflowError]. The texts
    of the two first columns come before every int; the third column of
    texts, the share changes, comes after the three columns of ints. A
    frame without rows or columns gives an empty sheet. *)
Definition to_excel (df : list ComparisonRow) : result Worksheet :=
  match df with
  | [] => OK (mkSheet [] ∅)
  | _ =>
      _ ← for_each (fun r => store_text (r_code r)) df;
      _ ← for_each (fun r => store_text (r_name r)) df;
      match for_each (fun r => xl_of_display (r_shares_delta_pct r)) df with
      | Raise e => _ ← for_each int_cells df; Raise e
      | OK _ =>
          rows ← for_each sheet_row df;
          OK (mkSheet ((XStr <$> column_names) :: rows) ∅)
      end
  end.

(** The workbook that [save_comparison_result] saves; it raises when the
    first save does. *)
Definition save_comparison_result (comparison_df : list ComparisonRow)
  : result Worksheet :=
  ws ← to_excel comparison_df;
  OK (highlight_rows ws (length comparison_df)).

(** A cell of a row cannot be written: the workbook refuses one of its
    texts, or one of its ints is beyond the floats. *)
Definition refused (r : ComparisonRow) (e : exn) : Prop :=
  store_text (r_code r) = Raise e \/
  store_text (r_name r) = Raise e \/
  xl_of_display (r_shares_delta_pct r) = Raise e \/
  (e = OverflowError /\
   (xl_of_int (r_shares r) = Raise OverflowError \/
    xl_of_int (r_prev_shares r) = Raise OverflowError \/
    xl_of_int (r_shares_delta r) = Raise OverflowError)).

End Writer.

End Workbook.

Import Workbook.

(** ["output/PCF_Comparison_{fund_code}_{date.replace('-', '')}.xlsx"] *)
Definition output_filepath (date fund_code : str) : str :=
  py "output/PCF_Comparison_" ++ fund_code ++ py "_"
  ++ remove_char 45%N date ++ py ".xlsx".

(** *** The highlight rules in the words of the specification *)

(** The cell shows the new-position label. *)
Definition shows_new (v : xl_value) : Prop := v = XStr label_new.

(** The cell holds a number below zero, a number above 30. *)
Definition number_below_zero (v : xl_value) : Prop :=
  match v with
  | XInt z => z < 0
  | XFloat x => SFcompare x (S754_zero false) = Some Lt
  | _ => False
  end.

Definition number_above_30 (v : xl_value) : Prop :=
  match v with
  | XInt z => 30 < z
  | XFloat x => SFcompare x (of_int 30) = Some Gt
  | _ => False
  end.

(** First match wins: the new-position label in the percentage cell,
    else a number below zero in the absolute-change cell, else a number
    above 30 in the percentage cell, else no fill. *)
Inductive chosen_fill (pct delta : xl_value) : option PatternFill -> Prop :=
  | choose_new :
      shows_new pct -> chosen_fill pct delta (Some new_stock_fill)
  | choose_negative :
      ~ shows_new pct -> number_below_zero delta ->
      chosen_fill pct delta (Some negative_change_fill)
  | choose_high :
      ~ shows_new pct -> ~ number_below_zero delta -> number_above_30 pct ->
      chosen_fill pct delta (Some high_change_fill)
  | choose_none :
      ~ shows_new pct -> ~ number_below_zero delta -> ~ number_above_30 pct ->
      chosen_fill pct delta None.

(** A workbook that keeps every text as it is. *)
Definition plain_text (s : str) : result xl_value := OK (XStr s).

(** A row that cannot come out of the delta engine: the new-position
    label with a negative absolute change. *)
Definition odd_new_row : ComparisonRow :=
  mkRow code_2330 [84; 83; 77; 67]%N 10 (decimal 55 10) 0 zero
        (-5) (DStr label_new) (decimal 55 10).

(** A new position of [10 ^ 400] shares, and a row whose percentage is
    the double next above 30. *)
Definition huge_new_row : ComparisonRow :=
  mkRow code_2330 [84; 83; 77; 67]%N (10 ^ 400) (decimal 55 10) 0 zero
        (10 ^ 400) (DStr label_new) (decimal 55 10).

Definition just_above_30 : float :=
  S754_finite false 8444249301319681 (-48).

Definition barely_high_row : ComparisonRow :=
  mkRow code_2330 [84; 83; 77; 67]%N 13 (decimal 55 10) 10 (decimal 55 10)
        3 (DFloat just_above_30) zero.

(** ** Driver: [process] and [main] *)

(** *** Dates *)

(** A date is its proleptic Gregorian ordinal, day 1 being Monday
    0001-01-01, the first day a [datetime] can hold. *)
Definition weekday (d : Z) : Z := (d + 6) mod 7.

(** [d - timedelta(days=1)] *)
Definition minus_one_day (d : Z) : result Z :=
  if d - 1 <? 1 then Raise OverflowError else OK (d - 1).

(** [while prev_day.weekday() >= 5: prev_day -= timedelta(days=1)], the
    [fuel] bounding the number of turns. *)
Fixpoint back_to_weekday (fuel : nat) (prev_day : Z) : result Z :=
  if 5 <=? weekday prev_day then
    match fuel with
    | O => Raise RuntimeException
    | S fuel' => p ← minus_one_day prev_day; back_to_weekday fuel' p
    end
  else OK prev_day.

(** *** The network *)

Definition bytes : Set := list N.

(** What [session.get] does: it raises, or it returns a response with a
    status and a body. *)
Inductive http_outcome : Set :=
  | RequestFailed
  | Response (status_ok : bool) (content : bytes).

Definition base_url : str :=
  py "https://www.ezmoney.com.tw/ETF/Transaction/PCFExcelNPOI".

Definition url_of (fund_code roc_date : str) : str :=
  base_url ++ py "?fundCode=" ++ fund_code ++ py "&date=" ++ roc_date
  ++ py "&specificDate=true".

(** *** Effects *)

(** The lines [process], [main] and the backward search print; the
    diagnostics of the other methods are left out. *)
Inductive line : Type :=
  | L_date (date roc_date : str)
  | L_search_start
  | L_attempt (n : nat) (prev_date roc_prev_date : str)
  | L_exhausted
  | L_warn_no_previous
  | L_parse_start
  | L_compare_start
  | L_failed (e : exn)
  | L_result_header
  | L_result_file (path : str)
  | L_result_none
  | L_error (e : exn).

(** [WriteFile] is the report saved at its path; [WriteFailed] is what
    is left at the path when the writer raises: a file that is not the
    report. *)
Inductive event : Type :=
  | MakeDirs (path : str)
  | Print (l : line)
  | WriteFile (path : str) (ws : Worksheet)
  | WriteFailed (path : str).

(** A computation gives a value or raises, and leaves the events it
    caused up to then. *)
Definition io (A : Type) : Type := (result A * list event)%type.

Definition io_ret {A : Type} (a : A) : io A := (OK a, []).

Definition io_raise {A : Type} (e : exn) : io A := (Raise e, []).

Definition io_bind {A B : Type} (m : io A) (k : A -> io B) : io B :=
  match m with
  | (OK a, log) => let '(r, log') := k a in (r, log ++ log')
  | (Raise e, log) => (Raise e, log)
  end.

Definition io_lift {A : Type} (r : result A) : io A := (r, []).

Definition emit (ev : event) : io unit := (OK tt, [ev]).

(** [try: body except Exception as e: handler(e)] *)
Definition try_except {A : Type} (body : io A) (handler : exn -> io A)
  : io A :=
  match body with
  | (OK a, log) => (OK a, log)
  | (Raise e, log) => let '(r, log') := handler e in (r, log ++ log')
  end.

(** The writer at work: the report is saved, or the writer raises and
    leaves a file behind. *)
Definition save (path : str) (r : result Worksheet) : io unit :=
  match r with
  | OK ws => emit (WriteFile path ws)
  | Raise e => (Raise e, [WriteFailed path])
  end.

Notation "x <- m ;; k" := (io_bind m (fun x => k))
  (at level 100, m at next level, right associativity).
Notation "m ;;; k" := (io_bind m (fun _ => k))
  (at level 100, right associativity).

Definition is_write (ev : event) : bool :=
  match ev with WriteFile _ _ | WriteFailed _ => true | _ => false end.

(** No file is written. *)
Definition quiet (log : list event) : Prop :=
  Forall (fun ev => is_write ev = false) log.

Module Pipeline.

Section Driver.

(** The calendar of the interpreter: [strptime s] is
    [datetime.strptime(s, "%Y-%m-%d")], [strftime d] is
    [d.strftime("%Y-%m-%d")], and [roc_text d] is the text
    [f"{d.year - 1911:03d}/{d.month:02d}/{d.day:02d}"]. *)
Variable strptime : str -> result Z.
Variable strftime : Z -> str.
Variable roc_text : Z -> str.

(** The server, and [pd.read_excel(io.BytesIO(content), header=None)]. *)
Variable session_get : str -> http_outcome.
Variable read_excel : bytes -> result DataFrame.

(** The tables of the interpreter and the order of its sets, as in the
    extractor and the delta engine. *)
Variable re_digit : char -> bool.
Variable isdigit_char : char -> bool.
Variable py_int : str -> result Z.
Variable py_float : str -> result float.
Variable set_iter : gset str -> list str.

(** The workbook's handling of the texts of the frame, as in the report
    writer. *)
Variable store_text : str -> result xl_value.

(** [print_comparison_summary], which prints and may raise. *)
Variable print_comparison_summary : list ComparisonRow -> result unit.

Definition date_to_roc_format (date_str : str) : result str :=
  date_obj ← strptime date_str; OK (roc_text date_obj).

Definition get_previous_business_day (date_str : str) : result str :=
  date_obj ← strptime date_str;
  prev_day ← minus_one_day date_obj;
  prev_day ← back_to_weekday 2 prev_day;
  OK (strftime prev_day).

(** Every exception is caught, a failed status raises, and a body under
    1000 bytes is turned down. *)
Definition download_pcf_excel (fund_code roc_date : str) : option bytes :=
  match session_get (url_of fund_code roc_date) with
  | RequestFailed => None
  | Response status_ok content =>
      if negb status_ok then None
      else if (length content <? 1000)%nat then None
      else Some content
  end.

(** The loop over [range(max_attempts)], lines 123-137. *)
Fixpoint search_back (fund_code : str) (attempts : list nat)
    (current_date : str) : io (option bytes) :=
  match attempts with
  | [] => emit (Print L_exhausted) ;;; io_ret None
  | attempt :: rest =>
      prev_date <- io_lift (get_previous_business_day current_date) ;;
      roc_prev_date <- io_lift (date_to_roc_format prev_date) ;;
      emit (Print (L_attempt (attempt + 1) prev_date roc_prev_date)) ;;;
      match download_pcf_excel fund_code roc_prev_date with
      | Some excel_content => io_ret (Some excel_content)
      | None => search_back fund_code rest prev_date
      end
  end.

Definition max_attempts : nat := 10.

Definition find_and_download_previous_day (fund_code date_str : str)
  : io (option bytes) :=
  search_back fund_code (py_range 0 max_attempts) date_str.

Definition parse_file (excel_content : bytes) : result (list Holding) :=
  df ← read_excel excel_content;
  parse_pcf_excel re_digit isdigit_char py_int py_float df.

(** Steps 4 to 7 of [process], the body of its [try]. *)
Definition analyse (current prev : bytes) (date fund_code : str)
  : io (option str) :=
  current_df <- io_lift (parse_file current) ;;
  previous_df <- io_lift (parse_file prev) ;;
  emit (Print L_compare_start) ;;;
  comparison_df <-
    io_lift (compare_pcf_data set_iter current_df previous_df) ;;
  save (output_filepath date fund_code)
       (save_comparison_result store_text comparison_df) ;;;
  io_lift (print_comparison_summary comparison_df) ;;;
  io_ret (Some (output_filepath date fund_code)).

Definition process (date fund_code : str) : io (option str) :=
  emit (MakeDirs (py "output")) ;;;
  roc_date <- io_lift (date_to_roc_format date) ;;
  emit (Print (L_date date roc_date)) ;;;
  match download_pcf_excel fund_code roc_date with
  | None => io_raise RuntimeException
  | Some current_excel_content =>
      emit (Print L_search_start) ;;;
      prev <- find_and_download_previous_day fund_code date ;;
      match prev with
      | None => emit (Print L_warn_no_previous) ;;; io_ret None
      | Some prev_excel_content =>
          emit (Print L_parse_start) ;;;
          try_except
            (analyse current_excel_content prev_excel_content
                     date fund_code)
            (fun e => emit (Print (L_failed e)) ;;; io_ret None)
      end
  end.

(** [main] with the two arguments read: the exit code of the process and
    the events it caused. *)
Definition main (date fund_code : str) : Z * list event :=
  match
    (comparison_file <- process date fund_code ;;
     emit (Print L_result_header) ;;;
     match comparison_file with
     | Some path => emit (Print (L_result_file path))
     | None => emit (Print L_result_none)
     end)
  with
  | (OK _, log) => (0, log)
  | (Raise e, log) => (1, log ++ [Print (L_error e)])
  end.

(** *** The backward search in the words of the specification *)

(** The next [n] attempts fail: each candidate is the business day
    before the previous candidate, and its file is not retrieved. *)
Fixpoint attempts_fail (fund_code : str) (n : nat) (current_date : str)
  : Prop :=
  match n with
  | O => True
  | S n' =>
      exists prev_date roc_prev_date,
        get_previous_business_day current_date = OK prev_date /\
        date_to_roc_format prev_date = OK roc_prev_date /\
        download_pcf_excel fund_code roc_prev_date = None /\
        attempts_fail fund_code n' prev_date
  end.

End Driver.

End Pipeline.

Import Pipeline.

(** *** A calendar and a server for the examples *)

(** A date is written as the one character whose code point is its
    ordinal. *)
Definition toy_strptime (s : str) : result Z :=
  match s with
  | [n] => OK (Z.of_N n)
  | _ => Raise ValueError
  end.

Definition toy_strftime (d : Z) : str := [Z.to_N d].

(** Thursday 2024-03-14 has the ordinal 738959. *)
Definition day_738959 : str := [738959%N].

Definition fund_49YTW : str := py "49YTW".

Definition big_body : bytes := replicate 1000 0%N.

(** A server that has no file at all, and one that only has the file of
    day 738959. *)
Definition server_down (url : str) : http_outcome := RequestFailed.

Definition server_one_day (url : str) : http_outcome :=
  if str_eqb url (url_of fund_49YTW day_738959) then Response true big_body
  else Response true [].

Definition no_frame (content : bytes) : result DataFrame := Raise ValueError.

Definition no_summary (df : list ComparisonRow) : result unit := OK tt.

(** ** Further definitions *)

(** The business day before day [d]: Friday for a Monday and for a
    Sunday, the day before for any other day. *)
Definition nearest_weekday_before (d : Z) : Z :=
  if weekday d =? 0 then d - 3
  else if weekday d =? 6 then d - 2
  else d - 1.

(** Monday 2024-03-11 has the ordinal 738956. *)
Definition day_738956 : str := [738956%N].

(** *** The backward search, day by day *)

Module Backward.

Section Calendar.

Variable strptime : str -> result Z.
Variable strftime : Z -> str.

(** [get_previous_business_day] applied [n] times, as the loop of
    [find_and_download_previous_day] applies it to its own result. *)
Fixpoint business_days_back (n : nat) (date : str) : result str :=
  match n with
  | O => OK date
  | S n' =>
      prev_date ← get_previous_business_day strptime strftime date;
      business_days_back n' prev_date
  end.

End Calendar.

End Backward.

Import Backward.

(** The files an event list writes. *)
Definition writes (log : list event) : list event :=
  List.filter is_write log.

(** The numbers of the attempt lines, in the order printed. *)
Definition attempt_numbers (log : list event) : list nat :=
  omap (fun ev => match ev with
                  | Print (L_attempt n _ _) => Some n
                  | _ => None
                  end) log.

(** *** Servers, readers and summaries for the examples *)

(** A server that has a file for every day. *)
Definition server_up (url : str) : http_outcome := Response true big_body.

(** A reader that finds the example sheet in every file. *)
Definition sheet_reader (content : bytes) : result DataFrame :=
  OK example_sheet.

(** A summary that fails. *)
Definition failing_summary (df : list ComparisonRow) : result unit :=
  Raise ValueError.

(** A server that only has the file of Monday 738956. *)
Definition server_monday (url : str) : http_outcome :=
  if str_eqb url (url_of fund_49YTW day_738956) then Response true big_body
  else Response true [].

(** What [process] and [main] print once the body of the [try] of
    [process] has ended with [r]. *)
Definition closing_lines (r : result (option str)) : list event :=
  match r with
  | OK (Some path) => [Print L_result_header; Print (L_result_file path)]
  | OK None => [Print L_result_header; Print L_result_none]
  | Raise e => [Print (L_failed e); Print L_result_header;
                Print L_result_none]
  end.

(** The comparison of the example table with itself. *)
Definition steady_frame : list ComparisonRow :=
  Eval vm_compute in
    match compare_pcf_data elements example_table example_table with
    | OK t => t
    | Raise _ => []
    end.

(** The report of that comparison in a workbook that keeps every text. *)
Definition steady_report : Worksheet :=
  Eval vm_compute in
    match save_comparison_result plain_text steady_frame with
    | OK ws => ws
    | Raise _ => mkSheet [] ∅
    end.

(** The report of the example frame in such a workbook. *)
Definition example_report : Worksheet :=
  Eval vm_compute in
    match save_comparison_result plain_text example_frame with
    | OK ws => ws
    | Raise _ => mkSheet [] ∅
    end.

(** A sheet whose one stock has [10 ^ 309] shares, a number no float
    holds, and a reader that finds that sheet in every file. *)
Definition huge_shares : str := 49%N :: replicate 309 48%N.

Definition huge_sheet : DataFrame :=
  mkFrame 4
    [ [Some header_marker; Some (py "name"); Some (py "shares");
       Some (py "weight")];
      [Some (py "2330"); Some (py "TSMC"); Some huge_shares;
       Some (py "5.5%")] ].

Definition huge_reader (content : bytes) : result DataFrame :=
  OK huge_sheet.

(** Today's table with one new position of [10 ^ 400] shares. *)
Definition opened_huge : list Holding :=
  [mkHolding code_2330 [84; 83; 77; 67]%N (10 ^ 400) (decimal 55 10)].

(** *** The days a [datetime] writes and reads back *)

(** [strftime] writes the year without leading zeros and [strptime]
    reads a year of four digits: the days the two agree on are those of
    the years 1000 to 9999, from the ordinal of 1000-01-01 to the one of
    9999-12-31, the last day of a [datetime]. *)
Definition day_1000_01_01 : Z := 364878.
Definition day_9999_12_31 : Z := 3652059.

(** *** The delta engine, row by row *)

(** The name the loop gives a code, lines 371-379: the one of today's
    table when it lists the code, else the one of the previous table. *)
Definition name_in (current_dict prev_dict : gmap str Holding)
    (stock_code : str) : str :=
  match current_dict !! stock_code with
  | Some h => h_name h
  | None =>
      match prev_dict !! stock_code with
      | Some p => h_name p
      | None => []
      end
  end.

(** A float that is neither an infinity nor NaN. *)
Definition is_finite (x : float) : bool :=
  match x with
  | S754_zero _ | S754_finite _ _ _ => true
  | _ => false
  end.

(** Today's table with a second, later row for the code 2330. *)
Definition later_2330 : Holding :=
  mkHolding code_2330 (py "TSMC-2") 2000 (decimal 60 10).

Definition doubled_current : list Holding :=
  example_current ++ [later_2330].

Definition doubled_frame : list ComparisonRow :=
  Eval vm_compute in
    match compare_pcf_data elements doubled_current example_previous with
    | OK t => t
    | Raise _ => []
    end.

(** The set of codes iterated from its last element to its first. *)
Definition elements_backwards (s : gset str) : list str :=
  reverse (elements s).

(** *** Sheets for the examples *)

(** A sheet whose one stock has a weight that is not a number. *)
Definition bad_weight_sheet : DataFrame :=
  mkFrame 4
    [ [Some header_marker; Some (py "name"); Some (py "shares");
       Some (py "weight")];
      [Some (py "2330"); Some (py "TSMC"); Some (py "1,000");
       Some (py "n/a%")] ].

(** A sheet of three columns. *)
Definition narrow_sheet : DataFrame :=
  mkFrame 3
    [ [Some header_marker; Some (py "name"); Some (py "shares")];
      [Some (py "2330"); Some (py "TSMC"); Some (py "1,000")] ].

(** The example sheet cut after the row of the totals marker. *)
Definition cut_sheet : DataFrame :=
  mkFrame 4 (take 11 (df_rows example_sheet)).

(** *** Floats by sign *)

(** A float with the sign bit set, or NaN: never [+inf]. *)
Definition negative_or_nan (x : float) : Prop :=
  match x with
  | S754_zero s | S754_infinity s | S754_finite s _ _ => s = true
  | S754_nan => True
  end.

(** The share-change cell is the new-position label or a number. *)
Definition label_or_number (d : display) : Prop :=
  match d with
  | DStr s => s = label_new
  | DFloat x => is_nan x = false
  end.

(** *** The counters of [print_comparison_summary], lines 199-216 *)

(** [value == label] on a cell of the share-change column. *)
Definition is_label (label : str) (d : display) : bool :=
  match d with
  | DStr s => str_eqb s label
  | DFloat _ => false
  end.

(** [comparison_df[comparison_df['股數變化(%)'] == label]] *)
Definition rows_labelled (label : str) (comparison_df : list ComparisonRow)
  : list ComparisonRow :=
  List.filter (fun r => is_label label (r_shares_delta_pct r)) comparison_df.

(** The rows whose share change is neither of the two labels, lines
    206-209. *)
Definition numeric_changes (comparison_df : list ComparisonRow)
  : list ComparisonRow :=
  List.filter (fun r => negb (is_label label_new (r_shares_delta_pct r))
                        && negb (is_label label_liquidated
                                          (r_shares_delta_pct r)))
              comparison_df.

(** The six numbers the summary prints first. *)
Record Counters : Set := mkCounters {
  total_stocks : nat;
  new_stocks : nat;
  sold_stocks : nat;
  increased_stocks : nat;
  decreased_stocks : nat;
  unchanged_stocks : nat
}.

Module Summary.

Section Counting.

(** [pd.to_numeric] on a text of the share-change column. *)
Variable to_numeric_text : str -> result float.

Definition to_numeric (d : display) : result float :=
  match d with
  | DFloat x => OK x
  | DStr s => to_numeric_text s
  end.

(** [len(rows[test(pd.to_numeric(rows['股數變化(%)']))])] *)
Definition count_where (test : float -> bool) (rows : list ComparisonRow)
  : result nat :=
  xs ← for_each (fun r => to_numeric (r_shares_delta_pct r)) rows;
  OK (length (List.filter test xs)).

(** Lines 199-216; a frame without rows has no columns, and the first
    column lookup raises [KeyError]. *)
Definition summary_counters (comparison_df : list ComparisonRow)
  : result Counters :=
  match comparison_df with
  | [] => Raise KeyError
  | _ =>
      let total := length comparison_df in
      let new := length (rows_labelled label_new comparison_df) in
      let sold := length (rows_labelled label_liquidated comparison_df) in
      let numeric := numeric_changes comparison_df in
      if (0 <? length numeric)%nat then
        increased ← count_where (fun x => ltb zero x) numeric;
        decreased ← count_where (fun x => ltb x zero) numeric;
        unchanged ← count_where (fun x => eqb x zero) numeric;
        OK (mkCounters total new sold increased decreased unchanged)
      else OK (mkCounters total new sold 0 0 0)
  end.

End Counting.

End Summary.

Import Summary.

(** No text of the share-change column is a number. *)
Definition no_numeric_text (s : str) : result float := Raise ValueError.

(** A sheet whose first row after the header holds a code of five
    digits. *)
Definition five_digit_sheet : DataFrame :=
  mkFrame 4
    [ [Some header_marker; Some (py "name"); Some (py "shares");
       Some (py "weight")];
      [Some (py "00878"); Some (py "ETF"); Some (py "1,000");
       Some (py "5%")];
      [Some (py "2330"); Some (py "TSMC"); Some (py "1,000");
       Some (py "5.5%")] ].

(** A reader that finds that sheet in every file. *)
Definition five_digit_reader (content : bytes) : result DataFrame :=
  OK five_digit_sheet.

(** ** Facts about the monad and the loops *)

Lemma for_each_OK {A B : Type} (f : A -> result B) xs ys :
  for_each f xs = OK ys -> Forall2 (fun x y => f x = OK y) xs ys.
Proof.
  revert ys. induction xs as [|x xs IH]; intros ys H; simpl in H.
  - injection H as <-. constructor.
  - destruct (f x) as [y|e] eqn:Hx; simpl in H; [|discriminate].
    destruct (for_each f xs) as [ys'|e] eqn:Hxs; simpl in H; [|discriminate].
    injection H as <-. constructor; auto.
Qed.

Lemma for_each_Raise {A B : Type} (f : A -> result B) xs e :
  for_each f xs = Raise e -> exists x, x ∈ xs /\ f x = Raise e.
Proof.
  induction xs as [|x xs IH]; simpl; [discriminate|].
  destruct (f x) as [y|e'] eqn:Hx; simpl.
  - destruct (for_each f xs) as [ys'|e''] eqn:Hxs; simpl; [discriminate|].
    intros [= ->]. destruct IH as (x' & Hin & Hx'); [reflexivity|].
    exists x'. split; [apply elem_of_cons; by right|done].
  - intros [= ->]. exists x. split; [apply elem_of_cons; by left|done].
Qed.

Lemma for_each_total {A B : Type} (f : A -> result B) xs :
  (forall x, x ∈ xs -> exists y, f x = OK y) ->
  exists ys, for_each f xs = OK ys.
Proof.
  induction xs as [|x xs IH]; intros H; simpl; [by eexists|].
  destruct (H x) as [y ->]; [apply elem_of_cons; by left|]. simpl.
  destruct IH as [ys ->].
  - intros x' Hx'. apply H. apply elem_of_cons. by right.
  - simpl. by eexists.
Qed.

(** ** Facts about [build_dict] *)

Lemma build_dict_snoc df row :
  build_dict (df ++ [row]) = <[h_code row := row]> (build_dict df).
Proof. unfold build_dict. by rewrite foldl_app. Qed.

Lemma dom_build_dict df :
  dom (build_dict df) = (list_to_set (h_code <$> df) : gset str).
Proof.
  induction df as [|row df IH] using rev_ind.
  - unfold build_dict. simpl. apply dom_empty_L.
  - rewrite build_dict_snoc, dom_insert_L, IH, fmap_app, list_to_set_app_L.
    simpl. rewrite (union_empty_r_L {[h_code row]}). apply union_comm_L.
Qed.

Lemma elem_of_dom_build_dict df c :
  c ∈ dom (build_dict df) <-> c ∈ h_code <$> df.
Proof. rewrite dom_build_dict. by rewrite elem_of_list_to_set. Qed.

(** Last write wins: the entry of a code is the last row that has it. *)
Lemma build_dict_last_wins df row rest :
  h_code row ∉ h_code <$> rest ->
  build_dict (df ++ row :: rest) !! h_code row = Some row.
Proof.
  induction rest as [|r rest IH] using rev_ind; intros Hnot.
  - rewrite build_dict_snoc. apply lookup_insert_eq.
  - replace (df ++ row :: rest ++ [r]) with ((df ++ row :: rest) ++ [r])
      by (by rewrite <- app_assoc).
    rewrite build_dict_snoc.
    rewrite fmap_app, elem_of_app in Hnot. simpl in Hnot.
    rewrite lookup_insert_ne.
    + apply IH. tauto.
    + intros Heq. apply Hnot. right. rewrite Heq. apply list_elem_of_singleton. done.
Qed.

Lemma build_dict_lookup_code df c h :
  build_dict df !! c = Some h -> h_code h = c /\ h ∈ df.
Proof.
  revert h. induction df as [|row df IH] using rev_ind; intros h.
  - unfold build_dict. simpl. by rewrite lookup_empty.
  - rewrite build_dict_snoc. destruct (decide (h_code row = c)) as [<-|Hne].
    + rewrite lookup_insert_eq. intros [= <-]. split; [done|].
      apply elem_of_app. right. by apply list_elem_of_singleton.
    + rewrite lookup_insert_ne by done. intros H. apply IH in H as [? ?].
      split; [done|]. apply elem_of_app. by left.
Qed.

(** ** The order used by [sort_values] *)

Lemma lex_cmp_antisym k1 k2 : lex_cmp k2 k1 = CompOpp (lex_cmp k1 k2).
Proof.
  revert k2. induction k1 as [|a k1 IH]; intros [|b k2]; simpl; try done.
  rewrite (Z.compare_antisym a b). destruct (a ?= b); simpl; auto.
Qed.

Lemma lex_cmp_eq k1 k2 : lex_cmp k1 k2 = Eq <-> k1 = k2.
Proof.
  revert k2. induction k1 as [|a k1 IH]; intros [|b k2]; simpl; try done.
  destruct (Z.compare_spec a b) as [->|?|?].
  - rewrite IH. split; [by intros ->|by intros [= ->]].
  - split; [done|]. intros [= -> _]. lia.
  - split; [done|]. intros [= -> _]. lia.
Qed.

Lemma lex_cmp_refl k : lex_cmp k k = Eq.
Proof. by apply lex_cmp_eq. Qed.

Lemma lex_cmp_le_trans k1 k2 k3 :
  lex_cmp k1 k2 <> Gt -> lex_cmp k2 k3 <> Gt -> lex_cmp k1 k3 <> Gt.
Proof.
  revert k2 k3.
  induction k1 as [|a k1 IH]; intros [|b k2] [|c k3]; simpl; try done.
  destruct (Z.compare_spec a b), (Z.compare_spec b c),
    (Z.compare_spec a c); subst; try done; try lia; eauto.
Qed.

Lemma lex_cmp_app k1 k2 k1' k2' :
  length k1 = length k2 ->
  lex_cmp (k1 ++ k1') (k2 ++ k2') =
    match lex_cmp k1 k2 with
    | Eq => lex_cmp k1' k2'
    | c => c
    end.
Proof.
  revert k2. induction k1 as [|a k1 IH]; intros [|b k2]; simpl; try done.
  intros [= Hlen]. destruct (a ?= b); auto.
Qed.

Lemma float_key_length x : length (float_key x) = 3%nat.
Proof. by destruct x as [[]|[]| |[] ? ?]. Qed.

Lemma cmp_desc_key x y : cmp_desc x y = lex_cmp (float_key y) (float_key x).
Proof.
  destruct x as [[]|[]| |[] m1 e1], y as [[]|[]| |[] m2 e2];
    try reflexivity; unfold cmp_desc; simpl.
  - rewrite Z.compare_opp, (Z.compare_antisym e2 e1).
    change (Pos.compare_cont Eq m1 m2) with (m1 ?= m2)%positive.
    rewrite (Pos.compare_antisym m2 m1).
    destruct (e2 ?= e1); simpl; try done. by destruct (m2 ?= m1)%positive.
  - rewrite (Z.compare_antisym e1 e2).
    change (Pos.compare_cont Eq m1 m2) with (m1 ?= m2)%positive.
    rewrite (Pos.compare_antisym m1 m2).
    destruct (e1 ?= e2); simpl; try done. by destruct (m1 ?= m2)%positive.
Qed.

Lemma cmp_rows_key a b : cmp_rows a b = lex_cmp (row_key b) (row_key a).
Proof.
  unfold cmp_rows, row_key.
  rewrite lex_cmp_app by (by rewrite !float_key_length).
  by rewrite !cmp_desc_key.
Qed.

Lemma row_before_iff a b : row_before a b <-> cmp_rows a b <> Gt.
Proof. unfold row_before, row_leb. by destruct (cmp_rows a b). Qed.

Lemma row_before_trans a b c :
  row_before a b -> row_before b c -> row_before a c.
Proof.
  rewrite !row_before_iff, !cmp_rows_key. intros H1 H2.
  by apply (lex_cmp_le_trans (row_key c) (row_key b) (row_key a)).
Qed.

Lemma row_leb_total a b : row_leb a b = false -> row_before b a.
Proof.
  unfold row_before, row_leb. rewrite !cmp_rows_key.
  rewrite (lex_cmp_antisym (row_key b) (row_key a)).
  by destruct (lex_cmp (row_key b) (row_key a)).
Qed.

Lemma same_keys_iff a b : same_keys a b = true <-> row_key a = row_key b.
Proof.
  unfold same_keys. rewrite cmp_rows_key.
  destruct (lex_cmp (row_key b) (row_key a)) eqn:H.
  - apply lex_cmp_eq in H. by split.
  - split; [done|]. intros Heq. rewrite Heq, lex_cmp_refl in H. done.
  - split; [done|]. intros Heq. rewrite Heq, lex_cmp_refl in H. done.
Qed.

Lemma same_keys_not_leb x y a :
  row_leb x y = false -> same_keys a x = true -> same_keys a y = true ->
  False.
Proof.
  rewrite !same_keys_iff. unfold row_leb. rewrite cmp_rows_key.
  intros H Hx Hy. rewrite <- Hx, <- Hy, lex_cmp_refl in H. done.
Qed.

(** ** Facts about the stable sort *)

Lemma insert_row_perm x l : insert_row x l ≡ₚ x :: l.
Proof.
  induction l as [|y l IH]; simpl; [done|].
  destruct (row_leb x y); [done|].
  rewrite IH. apply Permutation_swap.
Qed.

Lemma stable_sort_perm l : stable_sort l ≡ₚ l.
Proof.
  induction l as [|x l IH]; simpl; [done|].
  rewrite insert_row_perm. by rewrite IH.
Qed.

Lemma insert_row_sorted x l :
  StronglySorted row_before l -> StronglySorted row_before (insert_row x l).
Proof.
  induction l as [|y l IH]; simpl; intros Hs.
  - repeat constructor.
  - apply StronglySorted_inv in Hs as [Hl Hy].
    destruct (row_leb x y) eqn:Hxy.
    + constructor; [by constructor|].
      constructor; [done|].
      eapply Forall_impl; [exact Hy|].
      intros z Hz. by apply row_before_trans with y.
    + constructor; [by apply IH|].
      rewrite insert_row_perm. constructor; [|done].
      by apply row_leb_total.
Qed.

Lemma stable_sort_sorted l : StronglySorted row_before (stable_sort l).
Proof.
  induction l as [|x l IH]; simpl; [constructor|].
  by apply insert_row_sorted.
Qed.

Lemma insert_row_filter a x l :
  filter (fun b => same_keys a b = true) (insert_row x l) =
  filter (fun b => same_keys a b = true) (x :: l).
Proof.
  induction l as [|y l IH]; simpl; [done|].
  destruct (row_leb x y) eqn:Hxy; [done|].
  rewrite filter_cons, IH, !filter_cons.
  destruct (decide (same_keys a y = true)) as [Hy|Hy];
    destruct (decide (same_keys a x = true)) as [Hx|Hx]; try done.
  destruct (same_keys_not_leb x y a Hxy Hx Hy).
Qed.

(** Rows that agree on both keys keep their relative order. *)
Lemma stable_sort_stable a l :
  filter (fun b => same_keys a b = true) (stable_sort l) =
  filter (fun b => same_keys a b = true) l.
Proof.
  induction l as [|x l IH]; simpl; [done|].
  rewrite insert_row_filter, !filter_cons, IH. done.
Qed.

(** ** Facts about one row of the comparison *)

#[local] Arguments shares_change_of : simpl never.
#[local] Arguments display_of : simpl never.

Lemma compare_code_inv cd pd c row :
  compare_code cd pd c = OK row ->
  r_code row = c /\
  r_shares row = shares_in cd c /\
  r_weight row = weight_in cd c /\
  r_prev_shares row = shares_in pd c /\
  r_prev_weight row = weight_in pd c /\
  exists sc,
    shares_change_of (shares_in cd c) (shares_in pd c) = OK sc /\
    (r_shares_delta_pct row, r_shares_delta row) =
      display_of sc (shares_in cd c) (shares_in pd c).
Proof.
  unfold compare_code, shares_in, weight_in.
  destruct (cd !! c) as [h|], (pd !! c) as [p|]; simpl;
    intros Hrow; try discriminate; cbv beta iota zeta in Hrow.
  all: try (match type of Hrow with
            | context [shares_change_of ?a ?b] =>
                destruct (shares_change_of a b) as [sc|e] eqn:Hsc;
                simpl in Hrow
            end; [|discriminate]).
  all: match type of Hrow with
       | context [display_of ?s ?a ?b] =>
           destruct (display_of s a b) as [d z] eqn:Hd
       end.
  all: injection Hrow as <-; simpl; repeat split; try done.
  all: eexists; split; [first [eassumption|reflexivity]|]; by rewrite Hd.
Qed.

Lemma compare_code_ok cd pd c sc :
  c ∈ dom cd ∪ dom pd ->
  shares_change_of (shares_in cd c) (shares_in pd c) = OK sc ->
  exists row, compare_code cd pd c = OK row.
Proof.
  rewrite elem_of_union, !elem_of_dom.
  unfold compare_code, shares_in.
  destruct (cd !! c) as [h|], (pd !! c) as [p|]; cbn;
    intros [[? ?]|[? ?]]; try discriminate; intros ->; cbn.
  all: match goal with
       | |- context [display_of ?s ?a ?b] => destruct (display_of s a b)
       end; by eexists.
Qed.

Lemma int_truediv_error a b e :
  int_truediv a b = Raise e ->
  (b = 0 /\ e = ZeroDivisionError) \/ e = OverflowError.
Proof.
  unfold int_truediv. destruct (Z.eqb_spec b 0) as [->|_].
  - intros [= <-]. by left.
  - destruct (is_inf _); [|discriminate]. intros [= <-]. by right.
Qed.

Lemma shares_change_of_error c p e :
  shares_change_of c p = Raise e -> e = OverflowError /\ p <> 0.
Proof.
  unfold shares_change_of. destruct (Z.eqb_spec p 0) as [->|Hp]; simpl;
    [discriminate|].
  destruct (int_truediv (c - p) p) as [q|e'] eqn:Hq; simpl; [discriminate|].
  intros [= <-]. apply int_truediv_error in Hq as [[? _]|?]; [lia|done].
Qed.

Lemma compare_code_error cd pd c e :
  c ∈ dom cd ∪ dom pd ->
  compare_code cd pd c = Raise e ->
  e = OverflowError /\
  shares_change_of (shares_in cd c) (shares_in pd c) = Raise OverflowError.
Proof.
  intros Hin Hraise.
  destruct (shares_change_of (shares_in cd c) (shares_in pd c))
    as [sc|e'] eqn:Hsc.
  - destruct (compare_code_ok cd pd c sc Hin Hsc) as [row Hrow]. congruence.
  - pose proof (shares_change_of_error _ _ _ Hsc) as [-> _].
    split; [|done]. revert Hraise Hin.
    rewrite elem_of_union, !elem_of_dom. revert Hsc.
    unfold compare_code, shares_in.
    destruct (cd !! c) as [h|], (pd !! c) as [p|]; cbn;
      intros Hsc Hraise Hin.
    1-3: rewrite Hsc in Hraise; cbn in Hraise; congruence.
    destruct Hin as [[? ?]|[? ?]]; discriminate.
Qed.

(** ** The sort order agrees with the IEEE comparison *)

Lemma SFcompare_key x y :
  is_nan x = false -> is_nan y = false ->
  SFcompare x y = Some (lex_cmp (float_key x) (float_key y)).
Proof.
  destruct x as [[]|[]| |[] m1 e1], y as [[]|[]| |[] m2 e2];
    try reflexivity; try discriminate; intros _ _; simpl.
  - rewrite Z.compare_opp.
    change (Pos.compare_cont Eq m1 m2) with (m1 ?= m2)%positive.
    rewrite (Z.compare_antisym e1 e2).
    destruct (e1 ?= e2); simpl; try done. by destruct (m1 ?= m2)%positive.
  - change (Pos.compare_cont Eq m1 m2) with (m1 ?= m2)%positive.
    destruct (e1 ?= e2); simpl; try done. by destruct (m1 ?= m2)%positive.
Qed.

Lemma cmp_desc_Lt x y : cmp_desc x y = Lt <-> before_desc x y.
Proof.
  unfold before_desc, ltb, SFltb. rewrite cmp_desc_key.
  destruct (is_nan x) eqn:Hx, (is_nan y) eqn:Hy.
  - destruct x, y; try discriminate. simpl. intuition congruence.
  - destruct x; try discriminate.
    destruct y as [[]|[]| |[] ? ?]; simpl; intuition congruence.
  - destruct y; try discriminate.
    destruct x as [[]|[]| |[] ? ?]; simpl; intuition congruence.
  - rewrite (SFcompare_key y x Hy Hx).
    destruct (lex_cmp (float_key y) (float_key x)); simpl;
      intuition congruence.
Qed.

Lemma cmp_desc_Eq x y : cmp_desc x y = Eq <-> equal_key x y.
Proof.
  unfold equal_key, eqb, SFeqb. rewrite cmp_desc_key.
  destruct (is_nan x) eqn:Hx, (is_nan y) eqn:Hy.
  - destruct x, y; try discriminate. simpl. intuition congruence.
  - destruct x; try discriminate.
    destruct y as [[]|[]| |[] ? ?]; simpl; intuition congruence.
  - destruct y; try discriminate.
    destruct x as [[]|[]| |[] ? ?]; simpl; intuition congruence.
  - rewrite (SFcompare_key x y Hx Hy), (lex_cmp_antisym (float_key y)).
    destruct (lex_cmp (float_key y) (float_key x)); simpl;
      intuition congruence.
Qed.

Lemma row_before_words a b : row_before a b <-> weights_descending a b.
Proof.
  rewrite row_before_iff. unfold weights_descending, cmp_rows.
  rewrite <- !cmp_desc_Lt, <- !cmp_desc_Eq.
  destruct (cmp_desc (r_weight a) (r_weight b));
    destruct (cmp_desc (r_prev_weight a) (r_prev_weight b)); intuition congruence.
Qed.

Lemma stable_sort_descending l :
  StronglySorted weights_descending (stable_sort l).
Proof.
  pose proof (stable_sort_sorted l) as H.
  induction H as [|x l' Hl IH Hx]; constructor; [done|].
  eapply Forall_impl; [exact Hx|]. intros y Hy. by apply row_before_words.
Qed.

(** ** The comparison frame *)

Section DeltaEngineFacts.

Variable set_iter : gset str -> list str.
Hypothesis set_iter_perm : forall s, set_iter s ≡ₚ elements s.

Lemma all_stock_codes_union cur prev :
  all_stock_codes cur prev =
  list_to_set (h_code <$> cur) ∪ list_to_set (h_code <$> prev).
Proof. unfold all_stock_codes. by rewrite !dom_build_dict. Qed.

Lemma elem_of_set_iter s c : c ∈ set_iter s <-> c ∈ s.
Proof. by rewrite (set_iter_perm s), elem_of_elements. Qed.

Lemma NoDup_set_iter s : NoDup (set_iter s).
Proof. rewrite (set_iter_perm s). apply NoDup_elements. Qed.

Lemma length_set_iter s : length (set_iter s) = size s.
Proof. by rewrite (set_iter_perm s). Qed.

Lemma comparison_data_rows cur prev rows :
  comparison_data set_iter cur prev = OK rows ->
  Forall2 (fun c row => compare_code (build_dict cur) (build_dict prev) c
                        = OK row)
          (set_iter (all_stock_codes cur prev)) rows.
Proof. apply for_each_OK. Qed.

Lemma comparison_data_codes cur prev rows :
  comparison_data set_iter cur prev = OK rows ->
  r_code <$> rows = set_iter (all_stock_codes cur prev).
Proof.
  intros H. apply comparison_data_rows in H.
  induction H as [|c row cs rows Hrow _ IH]; [done|].
  rewrite fmap_cons, IH. by apply compare_code_inv in Hrow as [-> _].
Qed.

Lemma compare_pcf_data_inv cur prev t :
  compare_pcf_data set_iter cur prev = OK t ->
  exists rows,
    comparison_data set_iter cur prev = OK rows /\
    rows <> [] /\ t = stable_sort rows.
Proof.
  unfold compare_pcf_data.
  destruct (comparison_data set_iter cur prev) as [rows|e]; simpl;
    [|discriminate].
  destruct rows as [|r rows]; simpl; [discriminate|].
  intros [= <-]. by eexists.
Qed.

Lemma compare_pcf_data_error cur prev e :
  compare_pcf_data set_iter cur prev = Raise e ->
  (e = KeyError /\ cur = [] /\ prev = []) \/
  (e = OverflowError /\
   exists c, c ∈ all_stock_codes cur prev /\
     shares_change_of (shares_in (build_dict cur) c)
                      (shares_in (build_dict prev) c)
     = Raise OverflowError).
Proof.
  unfold compare_pcf_data.
  destruct (comparison_data set_iter cur prev) as [rows|e'] eqn:Hrows; simpl.
  - destruct rows as [|r rows]; simpl; [|discriminate].
    intros [= <-]. left. apply comparison_data_codes in Hrows. simpl in Hrows.
    assert (Hempty : all_stock_codes cur prev = ∅).
    { apply set_eq. intros c. rewrite <- elem_of_set_iter, <- Hrows.
      by rewrite elem_of_nil, elem_of_empty. }
    rewrite all_stock_codes_union in Hempty.
    apply empty_union_L in Hempty as [Hc Hp].
    split; [done|]. split.
    + destruct cur as [|h cur]; [done|]. simpl in Hc. set_solver.
    + destruct prev as [|h prev]; [done|]. simpl in Hp. set_solver.
  - intros [= <-]. right. apply for_each_Raise in Hrows as (c & Hc & Hraise).
    apply elem_of_set_iter in Hc.
    destruct (compare_code_error _ _ _ _ Hc Hraise) as [-> Hsc].
    split; [done|]. by exists c.
Qed.

(** The rows of the frame are the loop bodies of the codes of the
    union. *)
Lemma compare_pcf_data_rows cur prev t row :
  compare_pcf_data set_iter cur prev = OK t ->
  row ∈ t <->
  exists c, c ∈ all_stock_codes cur prev /\
    compare_code (build_dict cur) (build_dict prev) c = OK row.
Proof.
  intros (rows & Hrows & _ & ->)%compare_pcf_data_inv.
  rewrite (stable_sort_perm rows).
  apply comparison_data_rows in Hrows.
  setoid_rewrite <- elem_of_set_iter.
  induction Hrows as [|c r cs rows Hr _ IH].
  - rewrite elem_of_nil. split; [done|]. intros (c & Hc & _).
    by apply elem_of_nil in Hc.
  - rewrite elem_of_cons, IH. split.
    + intros [->|(c' & Hc' & Hrow)].
      * exists c. split; [apply elem_of_cons; by left|done].
      * exists c'. split; [apply elem_of_cons; by right|done].
    + intros (c' & Hc' & Hrow). apply elem_of_cons in Hc' as [->|Hc'].
      * left. congruence.
      * right. by exists c'.
Qed.

(** C3. The codes of the comparison frame are exactly the union of the
    codes of the two tables, each once, so the frame has as many rows as
    the union has codes; every row reads its shares and weights from the
    two dicts, in which a later row of a table has overwritten an earlier
    one with the same code. [compare_pcf_data] returns this frame unless
    both tables are empty ([KeyError] from sorting a frame without
    columns) or a percentage does not fit a float ([OverflowError]). *)
Theorem comparison_codes_are_the_union cur prev :
  match compare_pcf_data set_iter cur prev with
  | OK t =>
      (list_to_set (r_code <$> t) : gset str) =
        list_to_set (h_code <$> cur) ∪ list_to_set (h_code <$> prev) /\
      NoDup (r_code <$> t) /\
      length t =
        size (list_to_set (h_code <$> cur) ∪ list_to_set (h_code <$> prev)
              : gset str) /\
      Forall (fun row =>
                r_shares row = shares_in (build_dict cur) (r_code row) /\
                r_weight row = weight_in (build_dict cur) (r_code row) /\
                r_prev_shares row = shares_in (build_dict prev) (r_code row) /\
                r_prev_weight row = weight_in (build_dict prev) (r_code row))
             t
  | Raise e =>
      (e = KeyError /\ cur = [] /\ prev = []) \/
      (e = OverflowError /\
       exists c, c ∈ all_stock_codes cur prev /\
         shares_change_of (shares_in (build_dict cur) c)
                          (shares_in (build_dict prev) c)
         = Raise OverflowError)
  end.
Proof.
  destruct (compare_pcf_data set_iter cur prev) as [t|e] eqn:Ht;
    [|by apply compare_pcf_data_error].
  pose proof (fun row => compare_pcf_data_rows cur prev t row Ht) as Hmem.
  apply compare_pcf_data_inv in Ht as (rows & Hrows & _ & ->).
  pose proof (comparison_data_codes _ _ _ Hrows) as Hcodes.
  assert (Hperm : r_code <$> stable_sort rows
                  ≡ₚ set_iter (all_stock_codes cur prev)).
  { rewrite <- Hcodes. apply fmap_Permutation, stable_sort_perm. }
  rewrite <- all_stock_codes_union. repeat split.
  - apply set_eq. intros c.
    by rewrite elem_of_list_to_set, Hperm, elem_of_set_iter.
  - rewrite Hperm. apply NoDup_set_iter.
  - rewrite <- length_set_iter, <- Hperm. by rewrite length_fmap.
  - apply Forall_forall. intros row Hrow.
    apply Hmem in Hrow as (c & _ & Hrow).
    apply compare_code_inv in Hrow as (<- & ? & ? & ? & ? & _). done.
Qed.

(** C7. The frame returned by [compare_pcf_data] is sorted descending by
    current weight, ties broken descending by previous weight (a NaN
    weight last), and rows that agree on both keys are in the order in
    which the loop produced them. [compare_pcf_data] returns this frame
    unless both tables are empty or a percentage does not fit a float. *)
Theorem comparison_sorted_and_stable cur prev :
  match compare_pcf_data set_iter cur prev with
  | OK t =>
      StronglySorted weights_descending t /\
      exists rows,
        comparison_data set_iter cur prev = OK rows /\
        t ≡ₚ rows /\
        forall a,
          filter (fun b => same_keys a b = true) t =
          filter (fun b => same_keys a b = true) rows
  | Raise e =>
      (e = KeyError /\ cur = [] /\ prev = []) \/
      (e = OverflowError /\
       exists c, c ∈ all_stock_codes cur prev /\
         shares_change_of (shares_in (build_dict cur) c)
                          (shares_in (build_dict prev) c)
         = Raise OverflowError)
  end.
Proof.
  destruct (compare_pcf_data set_iter cur prev) as [t|e] eqn:Ht;
    [|by apply compare_pcf_data_error].
  apply compare_pcf_data_inv in Ht as (rows & Hrows & _ & ->). split.
  - apply stable_sort_descending.
  - exists rows. split; [done|]. split; [apply stable_sort_perm|].
    intros a. apply stable_sort_stable.
Qed.

End DeltaEngineFacts.

(** ** Closing a position: [(0 - p) / p * 100] *)




Lemma div_eucl_self_shift p :
  Z.div_eucl (Z.shiftl (Zpos p) 53) (Zpos p) = (2 ^ 53, 0).
Proof.
  rewrite Z.shiftl_mul_pow2 by lia.
  pose proof (Z_div_mod (Zpos p * 2 ^ 53) (Zpos p) eq_refl) as H.
  destruct (Z.div_eucl (Zpos p * 2 ^ 53) (Zpos p)) as [q r].
  destruct H as [H1 H2].
  assert (q = 2 ^ 53) by nia. assert (r = 0) by nia. by subst.
Qed.

Lemma SFdiv_neg_self p :
  SFdiv prec emax (S754_finite true p 0) (S754_finite false p 0) = minus_one.
Proof.
  unfold SFdiv, SFdiv_core_binary.
  replace (Zdigits2 (Zpos p) + 0 - (Zdigits2 (Zpos p) + 0)) with 0 by lia.
  change (Z.min (fexp prec emax 0) (0 - 0)) with (-53).
  change (0 - 0 - -53) with 53.
  cbv beta iota zeta.
  rewrite div_eucl_self_shift.
  unfold new_location. destruct (Z.even (Zpos p)); reflexivity.
Qed.

Lemma shares_change_of_closed p :
  0 < p -> shares_change_of 0 p = OK minus_hundred.
Proof.
  intros Hp. unfold shares_change_of, int_truediv.
  destruct (Z.eqb_spec p 0) as [->|_]; [lia|]. simpl negb. cbv iota.
  destruct p as [|p|p]; try lia.
  change (exact_int (0 - Zpos p)) with (S754_finite true p 0).
  change (exact_int (Zpos p)) with (S754_finite false p 0).
  by rewrite SFdiv_neg_self.
Qed.

(** The branch that writes the closing label tests the percentage
    against [0.0], but the percentage of a closed position is [-100.0]:
    the label is never written. *)
Lemma display_of_never_liquidated c p sc :
  shares_change_of c p = OK sc ->
  fst (display_of sc c p) <> DStr label_liquidated.
Proof.
  intros Hsc. unfold display_of.
  destruct (eqb sc inf); [by simpl|].
  destruct (eqb sc zero) eqn:Hz; [|by simpl].
  destruct (Z.eqb_spec c 0) as [->|_]; [|by simpl].
  destruct (Z.ltb_spec 0 p) as [Hp|_]; [|by simpl].
  rewrite (shares_change_of_closed p Hp) in Hsc.
  injection Hsc as <-. discriminate Hz.
Qed.

Lemma display_of_closed p :
  0 < p -> display_of minus_hundred 0 p = (DFloat minus_hundred, - p).
Proof. intros _. reflexivity. Qed.

(** Opening a position: no previous shares and some current shares. *)
Lemma shares_change_of_opened c : 0 < c -> shares_change_of c 0 = OK inf.
Proof.
  intros Hc. unfold shares_change_of. simpl.
  by destruct (Z.ltb_spec 0 c); [|lia].
Qed.

Lemma display_of_inf c p : display_of inf c p = (DStr label_new, c).
Proof. reflexivity. Qed.

(** No previous shares and no current shares (or a negative count). *)
Lemma shares_change_of_flat c : c <= 0 -> shares_change_of c 0 = OK zero.
Proof.
  intros Hc. unfold shares_change_of. simpl.
  by destruct (Z.ltb_spec 0 c); [lia|].
Qed.

Lemma display_of_zero_zero : display_of zero 0 0 = (DFloat zero, 0).
Proof. reflexivity. Qed.

(** The ordinary branch. *)
Lemma display_of_numeric sc c p :
  shares_change_of c p = OK sc ->
  eqb sc inf = false ->
  display_of sc c p = (DFloat (round2 sc), c - p).
Proof.
  intros Hsc Hinf.
  pose proof (display_of_never_liquidated c p sc Hsc) as Hn.
  unfold display_of in *. rewrite Hinf in *.
  destruct (eqb sc zero && (c =? 0) && (0 <? p)); [by destruct Hn|done].
Qed.

Lemma shares_change_of_nonzero c p :
  p <> 0 ->
  shares_change_of c p = (q ← int_truediv (c - p) p; OK (mul q hundred)).
Proof.
  intros Hp. unfold shares_change_of.
  by destruct (Z.eqb_spec p 0) as [->|_]; [lia|].
Qed.

Lemma eqb_inf_iff x : eqb x inf = true <-> x = inf.
Proof. destruct x as [[]|[]| |[] ? ?]; simpl; by split. Qed.

(** The new-position label comes from the percentage being [+inf]. *)
Lemma display_of_new_iff sc c p :
  shares_change_of c p = OK sc ->
  fst (display_of sc c p) = DStr label_new <-> sc = inf.
Proof.
  intros Hsc. rewrite <- eqb_inf_iff. split.
  - intros Hd. destruct (eqb sc inf) eqn:Hinf; [done|].
    by rewrite (display_of_numeric sc c p Hsc Hinf) in Hd.
  - intros Hinf. unfold display_of. by rewrite Hinf.
Qed.

Section DeltaEngineRows.

Variable set_iter : gset str -> list str.
Hypothesis set_iter_perm : forall s, set_iter s ≡ₚ elements s.

(** Every code of the union has its row in the frame. *)
Lemma compare_pcf_data_row_of_code cur prev t c :
  compare_pcf_data set_iter cur prev = OK t ->
  c ∈ all_stock_codes cur prev ->
  exists row,
    row ∈ t /\ compare_code (build_dict cur) (build_dict prev) c = OK row.
Proof.
  intros Ht Hc.
  pose proof (fun row => compare_pcf_data_rows set_iter set_iter_perm
                           cur prev t row Ht) as Hmem.
  apply (compare_pcf_data_inv set_iter) in Ht as (rows & Hrows & _ & ->).
  apply comparison_data_rows in Hrows.
  apply (elem_of_set_iter set_iter set_iter_perm) in Hc.
  assert (exists row, compare_code (build_dict cur) (build_dict prev) c
                      = OK row) as [row Hrow].
  { clear Hmem. induction Hrows as [|c' r cs rows Hr _ IH].
    - by apply elem_of_nil in Hc.
    - apply elem_of_cons in Hc as [->|Hc]; [by exists r|by apply IH]. }
  exists row. split; [|done]. apply Hmem. exists c. split; [|done].
  by apply (elem_of_set_iter set_iter set_iter_perm).
Qed.

(** The row of a code, by the shares of the code in the two tables. *)
Lemma compare_pcf_data_row cur prev t c :
  compare_pcf_data set_iter cur prev = OK t ->
  c ∈ all_stock_codes cur prev ->
  exists row sc,
    row ∈ t /\ r_code row = c /\
    shares_change_of (shares_in (build_dict cur) c)
                     (shares_in (build_dict prev) c) = OK sc /\
    (r_shares_delta_pct row, r_shares_delta row) =
      display_of sc (shares_in (build_dict cur) c)
                    (shares_in (build_dict prev) c).
Proof.
  intros Ht Hc.
  destruct (compare_pcf_data_row_of_code cur prev t c Ht Hc)
    as (row & Hin & Hrow).
  apply compare_code_inv in Hrow as (? & _ & _ & _ & _ & sc & ? & ?).
  by exists row, sc.
Qed.

(** C1 (what the code does). A code whose current shares are 0 and whose
    previous shares are positive gets the percentage [-100.0], not the
    closing label; its absolute change is minus the previous shares. *)
Theorem closed_position_shows_minus_100 cur prev t c :
  compare_pcf_data set_iter cur prev = OK t ->
  c ∈ all_stock_codes cur prev ->
  shares_in (build_dict cur) c = 0 ->
  0 < shares_in (build_dict prev) c ->
  exists row,
    row ∈ t /\ r_code row = c /\
    r_shares_delta_pct row = DFloat minus_hundred /\
    r_shares_delta_pct row <> DStr label_liquidated /\
    r_shares_delta row = - shares_in (build_dict prev) c.
Proof.
  intros Ht Hc H0 Hp.
  destruct (compare_pcf_data_row cur prev t c Ht Hc)
    as (row & sc & Hin & Hcode & Hsc & Hd).
  rewrite H0 in *. rewrite (shares_change_of_closed _ Hp) in Hsc.
  injection Hsc as <-. rewrite (display_of_closed _ Hp) in Hd.
  injection Hd as Hd1 Hd2. exists row. rewrite Hd1, Hd2. by repeat split.
Qed.

(** No row of any frame carries the closing label. *)
Lemma liquidated_label_is_dead cur prev t row :
  compare_pcf_data set_iter cur prev = OK t ->
  row ∈ t -> r_shares_delta_pct row <> DStr label_liquidated.
Proof.
  intros Ht Hrow.
  apply (compare_pcf_data_rows set_iter set_iter_perm cur prev t row Ht)
    in Hrow as (c & _ & Hrow).
  apply compare_code_inv in Hrow as (_ & _ & _ & _ & _ & sc & Hsc & Hd).
  pose proof (display_of_never_liquidated _ _ _ Hsc) as Hn.
  by rewrite <- Hd in Hn.
Qed.

(** The part of C2 that holds for all tables: no previous shares and
    some current shares give the new-position label and the current
    shares as absolute change; no shares on either side give [0.0]. *)
Lemma new_position_row cur prev t c :
  compare_pcf_data set_iter cur prev = OK t ->
  c ∈ all_stock_codes cur prev ->
  shares_in (build_dict prev) c = 0 ->
  exists row,
    row ∈ t /\ r_code row = c /\
    (0 < shares_in (build_dict cur) c ->
       r_shares_delta_pct row = DStr label_new /\
       r_shares_delta row = shares_in (build_dict cur) c) /\
    (shares_in (build_dict cur) c = 0 ->
       r_shares_delta_pct row = DFloat zero /\ r_shares_delta row = 0).
Proof.
  intros Ht Hc H0.
  destruct (compare_pcf_data_row cur prev t c Ht Hc)
    as (row & sc & Hin & Hcode & Hsc & Hd).
  rewrite H0 in *. exists row. repeat split; try done.
  - rewrite (shares_change_of_opened _ H) in Hsc. injection Hsc as <-.
    rewrite display_of_inf in Hd. by injection Hd.
  - rewrite (shares_change_of_opened _ H) in Hsc. injection Hsc as <-.
    rewrite display_of_inf in Hd. by injection Hd.
  - rewrite H in *. rewrite shares_change_of_flat in Hsc by lia.
    injection Hsc as <-. rewrite display_of_zero_zero in Hd.
    by injection Hd.
  - rewrite H in *. rewrite shares_change_of_flat in Hsc by lia.
    injection Hsc as <-. rewrite display_of_zero_zero in Hd.
    by injection Hd.
Qed.

(** The converse of C2 holds as long as the percentage is not [+inf]. *)
Lemma new_label_in_range cur prev t row :
  compare_pcf_data set_iter cur prev = OK t ->
  row ∈ t ->
  r_shares_delta_pct row = DStr label_new ->
  (r_prev_shares row = 0 /\ 0 < r_shares row) \/
  (r_prev_shares row <> 0 /\
   shares_change_of (r_shares row) (r_prev_shares row) = OK inf).
Proof.
  intros Ht Hrow Hnew.
  apply (compare_pcf_data_rows set_iter set_iter_perm cur prev t row Ht)
    in Hrow as (c & _ & Hrow).
  apply compare_code_inv in Hrow
    as (_ & Hs & _ & Hp & _ & sc & Hsc & Hd).
  rewrite <- Hs, <- Hp in *.
  assert (sc = inf) as ->.
  { apply (display_of_new_iff sc _ _ Hsc). by rewrite <- Hd. }
  destruct (decide (r_prev_shares row = 0)) as [H0|H0]; [left|by right].
  split; [done|]. rewrite H0 in Hsc.
  destruct (Z.ltb_spec 0 (r_shares row)); [done|].
  by rewrite shares_change_of_flat in Hsc by lia.
Qed.

(** C6 (what the code does when the percentage overflows). With nonzero
    previous shares and a percentage that rounds to [+inf], the row
    carries the new-position label and the current shares, not the
    rounded percentage and the difference. *)
Theorem overflowing_percentage_shows_new cur prev t c :
  compare_pcf_data set_iter cur prev = OK t ->
  c ∈ all_stock_codes cur prev ->
  shares_in (build_dict prev) c <> 0 ->
  shares_change_of (shares_in (build_dict cur) c)
                   (shares_in (build_dict prev) c) = OK inf ->
  exists row,
    row ∈ t /\ r_code row = c /\
    r_shares_delta_pct row = DStr label_new /\
    r_shares_delta row = shares_in (build_dict cur) c /\
    r_shares_delta row <>
      shares_in (build_dict cur) c - shares_in (build_dict prev) c.
Proof.
  intros Ht Hc Hp Hinf.
  destruct (compare_pcf_data_row cur prev t c Ht Hc)
    as (row & sc & Hin & Hcode & Hsc & Hd).
  rewrite Hinf in Hsc. injection Hsc as <-.
  rewrite display_of_inf in Hd. injection Hd as Hd1 Hd2.
  exists row. rewrite Hd1, Hd2. repeat split; try done. lia.
Qed.

(** The part of C6 that holds: with nonzero previous shares and a
    percentage other than [+inf], the row carries the percentage
    [(current - previous) / previous * 100] rounded to two decimals and
    the difference of the shares. *)
Lemma numeric_row_in_range cur prev t c :
  compare_pcf_data set_iter cur prev = OK t ->
  c ∈ all_stock_codes cur prev ->
  shares_in (build_dict prev) c <> 0 ->
  exists row q,
    row ∈ t /\ r_code row = c /\
    int_truediv (shares_in (build_dict cur) c - shares_in (build_dict prev) c)
                (shares_in (build_dict prev) c) = OK q /\
    (mul q hundred <> inf ->
     r_shares_delta_pct row = DFloat (round2 (mul q hundred)) /\
     r_shares_delta row =
       shares_in (build_dict cur) c - shares_in (build_dict prev) c).
Proof.
  intros Ht Hc Hp.
  destruct (compare_pcf_data_row cur prev t c Ht Hc)
    as (row & sc & Hin & Hcode & Hsc & Hd).
  pose proof Hsc as Hsc'. rewrite (shares_change_of_nonzero _ _ Hp) in Hsc'.
  destruct (int_truediv _ _) as [q|e] eqn:Hq; simpl in Hsc'; [|discriminate].
  injection Hsc' as <-. exists row, q. repeat split; try done.
  - rewrite display_of_numeric in Hd; [by injection Hd|done|].
    destruct (eqb _ inf) eqn:Hinf; [|done]. by apply eqb_inf_iff in Hinf.
  - rewrite display_of_numeric in Hd; [by injection Hd|done|].
    destruct (eqb _ inf) eqn:Hinf; [|done]. by apply eqb_inf_iff in Hinf.
Qed.

End DeltaEngineRows.

(** ** The delta engine on the example tables *)

Lemma elements_is_an_order (s : gset str) : elements s ≡ₚ elements s.
Proof. reflexivity. Defined.

Example compare_example :
  compare_pcf_data elements example_current example_previous
  = OK example_frame.
Proof. vm_compute. reflexivity. Defined.

Example compare_huge :
  compare_pcf_data elements huge_current huge_previous = OK huge_frame.
Proof. vm_compute. reflexivity. Defined.

Example compare_empty : compare_pcf_data elements [] [] = Raise KeyError.
Proof. reflexivity. Qed.

(** The frame of the example has the four codes of the union, each
    once. *)
Lemma comparison_codes_witness :
  exists t,
    compare_pcf_data elements example_current example_previous = OK t /\
    NoDup (r_code <$> t) /\ length t = 4%nat.
Proof.
  pose proof (comparison_codes_are_the_union elements elements_is_an_order
                example_current example_previous) as W.
  rewrite compare_example in W. destruct W as (_ & Hnd & Hlen & _).
  exists example_frame. split; [exact compare_example|].
  split; [exact Hnd|]. rewrite Hlen. vm_compute. reflexivity.
Defined.

(** The frame of the example is sorted, and 2317 stays before 2303. *)
Lemma comparison_sorted_witness :
  StronglySorted weights_descending example_frame /\
  exists rows,
    comparison_data elements example_current example_previous = OK rows /\
    example_frame ≡ₚ rows /\
    forall a,
      filter (fun b => same_keys a b = true) example_frame =
      filter (fun b => same_keys a b = true) rows.
Proof.
  pose proof (comparison_sorted_and_stable elements elements_is_an_order
                example_current example_previous) as W.
  rewrite compare_example in W. exact W.
Defined.

(** The spec's own case: a code listed only in the previous table, with
    500 shares. *)
Lemma closed_position_witness :
  exists row,
    row ∈ example_frame /\ r_code row = code_2412 /\
    r_shares_delta_pct row = DFloat minus_hundred /\
    r_shares_delta_pct row <> DStr label_liquidated /\
    r_shares_delta row = - 500.
Proof.
  apply (closed_position_shows_minus_100 elements elements_is_an_order
           example_current example_previous example_frame code_2412).
  - exact compare_example.
  - vm_compute. reflexivity.
  - reflexivity.
  - reflexivity.
Defined.

Lemma overflowing_percentage_witness :
  exists row,
    row ∈ huge_frame /\ r_code row = code_2330 /\
    r_shares_delta_pct row = DStr label_new /\
    r_shares_delta row = 10 ^ 307 /\
    r_shares_delta row <> 10 ^ 307 - 1.
Proof.
  apply (overflowing_percentage_shows_new elements elements_is_an_order
           huge_current huge_previous huge_frame code_2330).
  - exact compare_huge.
  - vm_compute. reflexivity.
  - vm_compute. discriminate.
  - vm_compute. reflexivity.
Defined.

Section SingleCode.

Variable set_iter : gset str -> list str.
Hypothesis set_iter_perm : forall s, set_iter s ≡ₚ elements s.

Lemma set_iter_singleton (c : str) : set_iter {[c]} = [c].
Proof.
  apply Permutation_singleton_r.
  by rewrite (set_iter_perm {[c]}), elements_singleton.
Qed.

(** C2 (where the code departs from it). A code with one previous share
    and 1e307 current shares has nonzero previous shares, and still gets
    the new-position label: [(1e307 - 1) / 1 * 100] is [+inf] in double
    precision, which is the value the loop uses to mark a new position. *)
Theorem new_label_with_previous_shares :
  compare_pcf_data set_iter huge_current huge_previous = OK huge_frame.
Proof.
  unfold compare_pcf_data, comparison_data.
  replace (all_stock_codes huge_current huge_previous)
    with ({[code_2330]} : gset str) by (vm_compute; reflexivity).
  rewrite set_iter_singleton. vm_compute. reflexivity.
Qed.

End SingleCode.

Lemma new_label_with_previous_shares_witness :
  compare_pcf_data elements huge_current huge_previous = OK huge_frame /\
  Forall (fun row => r_prev_shares row = 1 /\
                     r_shares_delta_pct row = DStr label_new) huge_frame.
Proof.
  split.
  - exact (new_label_with_previous_shares elements elements_is_an_order).
  - repeat constructor.
Defined.

(** ** Facts about text *)

Lemma lstrip_head s c s' : lstrip s = c :: s' -> py_isspace c = false.
Proof.
  induction s as [|x s IH]; simpl; [discriminate|].
  destruct (py_isspace x) eqn:Hx; [done|]. by intros [= <- _].
Qed.

(** A trimmed text does not end with a white-space character. *)
Lemma strip_last s c : last (strip s) = Some c -> py_isspace c = false.
Proof.
  unfold strip. rewrite last_reverse.
  destruct (lstrip (reverse (lstrip s))) as [|x l] eqn:H; simpl;
    [discriminate|].
  intros [= <-]. by apply lstrip_head in H.
Qed.

Lemma strip_nil : strip [] = [].
Proof. reflexivity. Qed.

Section TableExtractorFacts.

Set Default Proof Using "Type".

Variable re_digit : char -> bool.
Variable isdigit_char : char -> bool.
Variable py_int : str -> result Z.
Variable py_float : str -> result float.

Local Abbreviation re_match_code := (re_match_code re_digit).
Local Abbreviation is_terminal := (is_terminal re_digit).
Local Abbreviation terminal_text := (terminal_text re_digit).
Local Abbreviation terminal_row := (terminal_row re_digit).
Local Abbreviation run_end := (run_end re_digit).
Local Abbreviation find_end := (find_end re_digit).
Local Abbreviation shares_of := (shares_of isdigit_char py_int).
Local Abbreviation weight_of := (weight_of py_float).
Local Abbreviation parse_row := (parse_row isdigit_char py_int py_float).
Local Abbreviation extract_rows := (extract_rows isdigit_char py_int py_float).
Local Abbreviation holdings_of := (holdings_of isdigit_char py_int py_float).
Local Abbreviation parse_pcf_excel :=
  (parse_pcf_excel re_digit isdigit_char py_int py_float).

(** The pattern on a trimmed text: exactly four digits. *)
Lemma re_match_code_strip s :
  re_match_code (strip s) = true ->
  length (strip s) = 4%nat /\ forallb re_digit (strip s) = true.
Proof.
  pose proof (strip_last s) as Hlast.
  destruct (strip s) as [|a [|b [|c [|d [|e [|f l]]]]]]; simpl;
    try discriminate.
  - intros H. split; [done|]. by rewrite andb_true_r, !andb_assoc.
  - intros H. apply andb_true_iff in H as [_ He].
    apply N.eqb_eq in He as ->. by specialize (Hlast newline eq_refl).
Qed.

Lemma is_terminal_iff s : is_terminal s = true <-> terminal_text s.
Proof.
  unfold Sheet.is_terminal, Sheet.terminal_text.
  rewrite !orb_true_iff, negb_true_iff.
  destruct s as [|c s]; split.
  - intros _. by left.
  - intros _. by left; left; left.
  - intros [[[H|H]|H]|H]; [discriminate|right..].
    + by left.
    + right. by left.
    + right. by right.
  - intros [H|[H|[H|H]]]; [discriminate|..].
    + left. left. by right.
    + left. by right.
    + by right.
Qed.

Lemma not_terminal_text s :
  ~ terminal_text s ->
  s <> [] /\ contains cash_marker s = false /\
  contains total_marker s = false /\ re_match_code s = true.
Proof.
  unfold Sheet.terminal_text. intros H.
  destruct (contains cash_marker s) eqn:H1; [destruct H; by right; left|].
  destruct (contains total_marker s) eqn:H2;
    [destruct H; by right; right; left|].
  destruct (re_match_code s) eqn:H3; [|destruct H; by right; right; right].
  split_and!; try done. intros ->. destruct H. by left.
Qed.

(** A text of three or of five characters, once trimmed, fails the
    pattern. *)
Lemma short_or_long_code_is_terminal s :
  length (strip s) = 3%nat \/ length (strip s) = 5%nat ->
  terminal_text (strip s).
Proof.
  intros Hlen. right. right. right.
  destruct (re_match_code (strip s)) eqn:H; [|done].
  apply re_match_code_strip in H as [H4 _]. lia.
Qed.

(** ** Facts about a frame *)

Lemma length_values_of df row : length (values_of df row) = df_width df.
Proof.
  unfold values_of. rewrite length_take, length_app, length_replicate. lia.
Qed.

Lemma has_header_width df row :
  has_header (values_of df row) = true -> (0 < df_width df)%nat.
Proof.
  rewrite <- (length_values_of df row).
  destruct (values_of df row); simpl; [discriminate|lia].
Qed.

Lemma values_of_first df row :
  (0 < df_width df)%nat -> exists c0, values_of df row !! 0%nat = Some c0.
Proof.
  intros Hw. apply lookup_lt_is_Some. by rewrite length_values_of.
Qed.

Lemma first_col_of_strip c0 : exists s, first_col_of c0 = strip s.
Proof.
  destruct c0 as [s|]; [by exists s|]. exists []. by rewrite strip_nil.
Qed.

(** ** The header row *)

Lemma find_header_Some df k rows h :
  find_header df k rows = Some h ->
  exists j row,
    h = (k + j)%nat /\ rows !! j = Some row /\
    has_header (values_of df row) = true /\
    forall j' row', (j' < j)%nat -> rows !! j' = Some row' ->
      has_header (values_of df row') = false.
Proof.
  revert k. induction rows as [|row rows IH]; intros k; simpl;
    [discriminate|].
  destruct (has_header (values_of df row)) eqn:Hrow.
  - intros [= <-]. exists 0%nat, row.
    split_and!; [lia|done|done|intros j' row' Hj'; lia].
  - intros (j & row' & -> & Hj & Hh & Hbefore)%IH.
    exists (S j), row'. split_and!; [lia|done|done|].
    intros [|j'] r' Hlt; simpl; [by intros [= <-]|].
    apply Hbefore. lia.
Qed.

Lemma find_header_None df k rows :
  find_header df k rows = None ->
  forall j row, rows !! j = Some row ->
    has_header (values_of df row) = false.
Proof.
  revert k. induction rows as [|row rows IH]; intros k; simpl.
  - intros _ j row'. by rewrite lookup_nil.
  - destruct (has_header (values_of df row)) eqn:Hrow; [discriminate|].
    intros H [|j] row'; simpl; [by intros [= <-]|]. by apply (IH (S k)).
Qed.

Lemma find_header_first df h :
  find_header df 0 (df_rows df) = Some h -> first_header df h.
Proof.
  intros (j & row & -> & Hj & Hh & Hbefore)%find_header_Some. simpl. split.
  - by exists row.
  - intros i Hi (row' & Hrow' & Hh'). by rewrite (Hbefore i row') in Hh'.
Qed.

Lemma find_header_absent df :
  find_header df 0 (df_rows df) = None -> forall i, ~ header_row df i.
Proof.
  intros H i (row & Hrow & Hh).
  by rewrite (find_header_None df 0 _ H i row) in Hh.
Qed.

Lemma first_header_unique df h h' :
  first_header df h -> first_header df h' -> h = h'.
Proof.
  intros [Hh Hfirst] [Hh' Hfirst'].
  destruct (Nat.lt_trichotomy h h') as [Hlt|[->|Hlt]]; [|done|].
  - by destruct (Hfirst' h Hlt).
  - by destruct (Hfirst h' Hlt).
Qed.

Lemma header_row_bounds df h :
  header_row df h ->
  (h < length (df_rows df))%nat /\ (0 < df_width df)%nat.
Proof.
  intros (row & Hrow & Hh). split.
  - by apply lookup_lt_Some in Hrow.
  - by apply has_header_width in Hh.
Qed.

(** ** The end of the run *)

Lemma first_col_lookup df i row c0 :
  df_rows df !! i = Some row ->
  values_of df row !! 0%nat = Some c0 ->
  first_col df i = Some (first_col_of c0).
Proof. unfold first_col. by intros -> ->. Qed.

Lemma terminal_row_iff df i row c0 :
  df_rows df !! i = Some row ->
  values_of df row !! 0%nat = Some c0 ->
  terminal_row df i <-> is_terminal (first_col_of c0) = true.
Proof.
  intros Hrow Hc0. unfold Sheet.terminal_row.
  rewrite (first_col_lookup df i row c0 Hrow Hc0), is_terminal_iff.
  split; [by intros (s & [= <-] & Hs)|by exists (first_col_of c0)].
Qed.

Lemma find_end_seq df a n :
  (0 < df_width df)%nat ->
  (a + n <= length (df_rows df))%nat ->
  exists r,
    find_end df (seq a n) = OK r /\
    match r with
    | Some t =>
        (a <= t < a + n)%nat /\ terminal_row df t /\
        forall i, (a <= i < t)%nat -> ~ terminal_row df i
    | None => forall i, (a <= i < a + n)%nat -> ~ terminal_row df i
    end.
Proof.
  intros Hw. revert a. induction n as [|n IH]; intros a Hlen; simpl.
  - exists None. split; [done|]. intros i Hi. lia.
  - destruct (lookup_lt_is_Some_2 (df_rows df) a) as [row Hrow]; [lia|].
    destruct (values_of_first df row Hw) as [c0 Hc0].
    unfold iloc, item. rewrite Hrow. simpl. rewrite Hc0. simpl.
    pose proof (terminal_row_iff df a row c0 Hrow Hc0) as Hterm.
    destruct (is_terminal (first_col_of c0)) eqn:Ht.
    + exists (Some a). split; [done|]. split; [lia|]. split; [by apply Hterm|].
      intros i Hi. lia.
    + destruct (IH (S a)) as (r & -> & Hr); [lia|].
      exists r. split; [done|].
      assert (Hna : ~ terminal_row df a).
      { intros H. apply Hterm in H. discriminate. }
      destruct r as [t|].
      * destruct Hr as (Hrange & Htt & Hbefore). split; [lia|].
        split; [done|]. intros i Hi.
        destruct (decide (i = a)) as [->|Hne]; [done|]. apply Hbefore. lia.
      * intros i Hi.
        destruct (decide (i = a)) as [->|Hne]; [done|]. apply Hr. lia.
Qed.

Lemma run_end_unique df h t t' :
  run_end df h t -> run_end df h t' -> t = t'.
Proof.
  intros (Hb & Hrun & Hend) (Hb' & Hrun' & Hend').
  destruct (Nat.lt_trichotomy t t') as [Hlt|[->|Hlt]]; [|done|].
  - destruct (Hrun' t); [lia|]. apply Hend. lia.
  - destruct (Hrun t'); [lia|]. apply Hend'. lia.
Qed.

(** ** The rows of the run *)

Lemma holdings_of_cons df row rows :
  holdings_of df (row :: rows) =
  (h ← parse_row (values_of df row);
   stock_data ← holdings_of df rows;
   OK (match h with Some x => x :: stock_data | None => stock_data end)).
Proof.
  unfold Sheet.holdings_of. simpl.
  destruct (parse_row (values_of df row)) as [[x|]|e]; simpl; try done.
  - by destruct (for_each _ rows).
  - by destruct (for_each _ rows).
Qed.

Lemma extract_rows_seq df a n :
  (a + n <= length (df_rows df))%nat ->
  extract_rows df (seq a n) = holdings_of df (take n (drop a (df_rows df))).
Proof.
  revert a. induction n as [|n IH]; intros a Hlen; [done|].
  destruct (lookup_lt_is_Some_2 (df_rows df) a) as [row Hrow]; [lia|].
  rewrite (drop_S _ _ _ Hrow). simpl take. rewrite holdings_of_cons.
  simpl. unfold iloc. rewrite Hrow. simpl.
  destruct (parse_row (values_of df row)) as [h|e]; simpl; [|done].
  rewrite IH by lia. done.
Qed.

Lemma rows_between_lookup df a b row :
  row ∈ rows_between df a b ->
  exists i, (a <= i < b)%nat /\ df_rows df !! i = Some row.
Proof.
  unfold rows_between. intros [j Hj]%list_elem_of_lookup.
  apply lookup_take_Some in Hj as [Hj Hlt]. rewrite lookup_drop in Hj.
  exists (a + j)%nat. split; [lia|done].
Qed.

Lemma parse_pcf_excel_run df h :
  find_header df 0 (df_rows df) = Some h ->
  exists t,
    run_end df h t /\
    parse_pcf_excel df = holdings_of df (rows_between df (S h) t).
Proof.
  intros Hfind. pose proof (find_header_first df h Hfind) as [Hh _].
  apply header_row_bounds in Hh as [Hlen Hw].
  unfold Sheet.parse_pcf_excel. rewrite Hfind.
  unfold py_range. rewrite Nat.add_1_r.
  destruct (find_end_seq df (S h) (length (df_rows df) - S h) Hw)
    as (r & -> & Hr); [lia|]. simpl.
  destruct r as [t|].
  - destruct Hr as (Hrange & Hterm & Hbefore). exists t. split.
    + split; [lia|]. split; [|done]. intros i Hi. apply Hbefore. lia.
    + apply extract_rows_seq. lia.
  - exists (length (df_rows df)). split.
    + split; [lia|]. split; [|lia]. intros i Hi. apply Hr. lia.
    + apply extract_rows_seq. lia.
Qed.

(** ** One row *)

Lemma parse_row_gate s c1 c2 c3 tl :
  parse_row (Some s :: c1 :: c2 :: c3 :: tl) =
  (shares ← shares_of (text_or text_0 c2);
   weight ← weight_of (text_or text_0_percent c3);
   OK (Some (mkHolding (strip s) (text_or [] c1) shares weight))).
Proof. by destruct c1, c2, c3. Qed.

Lemma passes_gate_shape rv :
  passes_gate rv <-> exists s c1 c2 c3 tl, rv = Some s :: c1 :: c2 :: c3 :: tl.
Proof.
  unfold passes_gate. split.
  - intros [Hlen [s Hs]].
    destruct rv as [|c0 [|c1 [|c2 [|c3 tl]]]]; simpl in *; try lia.
    injection Hs as ->. by exists s, c1, c2, c3, tl.
  - intros (s & c1 & c2 & c3 & tl & ->). simpl. split; [lia|by exists s].
Qed.

Lemma classic_gate rv : passes_gate rv \/ ~ passes_gate rv.
Proof.
  destruct rv as [|[s|] [|c1 [|c2 [|c3 tl]]]].
  all: try (right; intros [Hlen [s' Hs]]; simpl in *; (lia || discriminate)).
  left. apply passes_gate_shape. by exists s, c1, c2, c3, tl.
Qed.

Lemma parse_row_skip rv : ~ passes_gate rv -> parse_row rv = OK None.
Proof.
  intros Hgate. unfold Sheet.parse_row.
  destruct (Nat.leb_spec 4 (length rv)) as [Hlen|Hlen]; [|done].
  destruct rv as [|[s|] rv]; simpl in *; [lia| |done].
  destruct Hgate. split; [done|by exists s].
Qed.

Lemma parse_row_Some rv hd :
  parse_row rv = OK (Some hd) ->
  exists s c1 c2 c3 tl,
    rv = Some s :: c1 :: c2 :: c3 :: tl /\
    h_code hd = strip s /\
    h_name hd = text_or [] c1 /\
    shares_of (text_or text_0 c2) = OK (h_shares hd) /\
    weight_of (text_or text_0_percent c3) = OK (h_weight hd).
Proof.
  intros Hrow. destruct (classic_gate rv) as [Hgate|Hgate].
  - apply passes_gate_shape in Hgate as (s & c1 & c2 & c3 & tl & ->).
    rewrite parse_row_gate in Hrow.
    destruct (shares_of (text_or text_0 c2)) as [shares|e] eqn:Hs;
      cbn in Hrow; [|discriminate].
    destruct (weight_of (text_or text_0_percent c3)) as [weight|e] eqn:Hw;
      cbn in Hrow; [|discriminate].
    injection Hrow as <-. exists s, c1, c2, c3, tl. by split_and!.
  - by rewrite (parse_row_skip rv Hgate) in Hrow.
Qed.

(** ** The table *)

Lemma holdings_of_nil df : holdings_of df [] = OK [].
Proof. reflexivity. Qed.

Lemma holdings_of_skip df row rows :
  parse_row (values_of df row) = OK None ->
  holdings_of df (row :: rows) = holdings_of df rows.
Proof.
  intros H. rewrite holdings_of_cons, H. cbn.
  by destruct (holdings_of df rows).
Qed.

Lemma holdings_of_elem df rows tbl hd :
  holdings_of df rows = OK tbl -> hd ∈ tbl ->
  exists row, row ∈ rows /\ parse_row (values_of df row) = OK (Some hd).
Proof.
  revert tbl. induction rows as [|row rows IH]; intros tbl.
  - rewrite holdings_of_nil. intros [= <-] Hin. by apply elem_of_nil in Hin.
  - rewrite holdings_of_cons.
    destruct (parse_row (values_of df row)) as [o|e] eqn:Hrow; cbn;
      [|discriminate].
    destruct (holdings_of df rows) as [tbl'|e] eqn:Hrows; cbn;
      [|discriminate].
    intros [= <-] Hin.
    assert (Hrest : hd ∈ tbl' ->
              exists row0, row0 ∈ row :: rows /\
                parse_row (values_of df row0) = OK (Some hd)).
    { intros H. destruct (IH tbl' eq_refl H) as (row0 & Hrow0 & Hp).
      exists row0. split; [apply elem_of_cons; by right|done]. }
    destruct o as [x|]; [|by apply Hrest].
    apply elem_of_cons in Hin as [->|Hin]; [|by apply Hrest].
    exists row. split; [apply elem_of_cons; by left|done].
Qed.

Lemma holdings_of_all df rows tbl :
  holdings_of df rows = OK tbl ->
  (forall row, row ∈ rows -> passes_gate (values_of df row)) ->
  Forall2 (fun row hd => parse_row (values_of df row) = OK (Some hd))
          rows tbl.
Proof.
  revert tbl. induction rows as [|row rows IH]; intros tbl.
  - rewrite holdings_of_nil. intros [= <-] _. constructor.
  - rewrite holdings_of_cons.
    destruct (parse_row (values_of df row)) as [o|e] eqn:Hrow; cbn;
      [|discriminate].
    destruct (holdings_of df rows) as [tbl'|e] eqn:Hrows; cbn;
      [|discriminate].
    intros [= <-] Hgate.
    assert (Hrest : Forall2 (fun row hd => parse_row (values_of df row)
                                           = OK (Some hd)) rows tbl').
    { apply IH; [done|]. intros r Hr. apply Hgate, elem_of_cons. by right. }
    destruct o as [x|]; [by constructor|].
    assert (Hg : passes_gate (values_of df row)).
    { apply Hgate, elem_of_cons. by left. }
    apply passes_gate_shape in Hg as (s & c1 & c2 & c3 & tl & Hshape).
    rewrite Hshape, parse_row_gate in Hrow.
    destruct (shares_of _); cbn in Hrow; [|discriminate].
    destruct (weight_of _); cbn in Hrow; discriminate.
Qed.

(** In the run the first cell of a row is never blank, and its trimmed
    text is not terminal. *)
Lemma run_row_first_cell df h t i row :
  (0 < df_width df)%nat -> run_end df h t -> (h < i < t)%nat ->
  df_rows df !! i = Some row ->
  exists s, values_of df row !! 0%nat = Some (Some s) /\
            ~ terminal_text (strip s).
Proof.
  intros Hw (_ & Hrun & _) Hi Hrow.
  destruct (values_of_first df row Hw) as [c0 Hc0].
  pose proof (terminal_row_iff df i row c0 Hrow Hc0) as Hterm.
  specialize (Hrun i Hi).
  destruct c0 as [s|].
  - exists s. split; [done|]. intros Ht. apply Hrun, Hterm.
    by apply is_terminal_iff.
  - destruct Hrun. by apply Hterm.
Qed.

Lemma run_row_gate df h t i row :
  (0 < df_width df)%nat -> run_end df h t -> (h < i < t)%nat ->
  df_rows df !! i = Some row ->
  passes_gate (values_of df row) <-> (4 <= df_width df)%nat.
Proof.
  intros Hw Hrun Hi Hrow.
  destruct (run_row_first_cell df h t i row Hw Hrun Hi Hrow) as (s & Hs & _).
  unfold passes_gate. rewrite length_values_of. split; [by intros [? _]|].
  intros H4. split; [done|by exists s].
Qed.

(** ** The extractor *)

Lemma parse_pcf_excel_cases df :
  ((forall i, ~ header_row df i) /\ parse_pcf_excel df = Raise ValueError) \/
  (exists h t,
     first_header df h /\ run_end df h t /\
     parse_pcf_excel df = holdings_of df (rows_between df (S h) t)).
Proof.
  destruct (find_header df 0 (df_rows df)) as [h|] eqn:Hfind.
  - right. destruct (parse_pcf_excel_run df h Hfind) as (t & Hrun & Hparse).
    exists h, t. split; [by apply find_header_first|done].
  - left. split; [by apply find_header_absent|].
    unfold Sheet.parse_pcf_excel. by rewrite Hfind.
Qed.

Lemma parse_pcf_excel_at df h t :
  first_header df h -> run_end df h t ->
  parse_pcf_excel df = holdings_of df (rows_between df (S h) t).
Proof.
  intros Hh Hrun.
  destruct (parse_pcf_excel_cases df) as [[Hno _]|(h' & t' & Hh' & Hrun' & ->)].
  - destruct Hh as [Hh _]. by destruct (Hno h).
  - pose proof (first_header_unique df h h' Hh Hh') as <-.
    by pose proof (run_end_unique df h t t' Hrun Hrun') as <-.
Qed.

(** C4. The extractor finds the first row [h] that holds the header
    marker and builds the table from exactly the rows of the run
    [h+1, t), where [t] is the first later row whose first cell is blank,
    holds the cash or the totals marker, or fails the four-digit pattern,
    and the number of rows when there is none; without a header row it
    raises. On a frame of four columns or more every row of the run gives
    one holding, in order. With the header in row 3 and the totals marker
    in row 10 the table is built from rows 4 to 9, and a row whose first
    cell has three or five characters is outside the run. *)
Theorem extract_returns_the_run :
  (forall df,
     ((forall i, ~ header_row df i) /\
      parse_pcf_excel df = Raise ValueError) \/
     (exists h t,
        first_header df h /\ run_end df h t /\
        parse_pcf_excel df = holdings_of df (rows_between df (S h) t))) /\
  (forall df h t tbl,
     first_header df h -> run_end df h t -> (4 <= df_width df)%nat ->
     parse_pcf_excel df = OK tbl ->
     Forall2 (fun row hd => parse_row (values_of df row) = OK (Some hd))
             (rows_between df (S h) t) tbl) /\
  (forall df,
     first_header df 3 ->
     (forall i, (4 <= i <= 9)%nat -> ~ terminal_row df i) ->
     (exists s, first_col df 10 = Some s /\
                contains total_marker s = true) ->
     parse_pcf_excel df = holdings_of df (rows_between df 4 10)) /\
  (forall df h t i s,
     first_header df h -> run_end df h t -> (h < i)%nat ->
     first_col df i = Some s ->
     length s = 3%nat \/ length s = 5%nat ->
     (t <= i)%nat).
Proof.
  split_and!.
  - apply parse_pcf_excel_cases.
  - intros df h t tbl Hh Hrun Hw Hparse.
    rewrite (parse_pcf_excel_at df h t Hh Hrun) in Hparse.
    apply holdings_of_all; [done|].
    intros row (i & Hi & Hrow)%rows_between_lookup.
    apply (run_row_gate df h t i row); [lia|done|lia|done|done].
  - intros df Hh Hrun (s & Hs & Htotal).
    apply parse_pcf_excel_at; [done|].
    assert (Hlen : (10 < length (df_rows df))%nat).
    { unfold first_col in Hs.
      destruct (df_rows df !! 10%nat) eqn:H10; [|discriminate].
      by apply lookup_lt_Some in H10. }
    split; [lia|]. split; [intros i Hi; apply Hrun; lia|].
    intros _. exists s. split; [done|]. right. right. by left.
  - intros df h t i s Hh Hrun Hi Hs Hlen.
    destruct (Nat.le_gt_cases t i) as [|Hlt]; [done|].
    destruct Hrun as (_ & Hrun & _). destruct (Hrun i); [lia|].
    exists s. split; [done|].
    unfold first_col in Hs.
    destruct (df_rows df !! i) as [row|]; [|discriminate].
    destruct (values_of df row !! 0%nat) as [c0|]; [|discriminate].
    injection Hs as <-. destruct (first_col_of_strip c0) as [s' Hs'].
    rewrite Hs' in *. by apply short_or_long_code_is_terminal.
Qed.

(** C5, as the code has it. A row gives a holding only if it passes the
    gate: it has four cells or more, blank or not, and its first cell is
    not blank; any other row is passed over without an error. In the run
    the first cell is never blank, so there the gate is that the frame
    has four columns or more. A row that passes gives the trimmed first
    cell as code, the trimmed second cell as name (empty for a blank
    cell), the third cell as shares and the fourth as weight: the shares
    are the integer of the text without its commas when that text is all
    digits and 0 otherwise; the weight is the float of the text without
    any of its percent signs when the text ends with one, and 0.0
    otherwise. *)
Theorem rows_pass_the_gate_and_parse :
  (forall rv, ~ passes_gate rv -> parse_row rv = OK None) /\
  (forall rv hd,
     parse_row rv = OK (Some hd) ->
     passes_gate rv /\
     exists s c1 c2 c3 tl,
       rv = Some s :: c1 :: c2 :: c3 :: tl /\
       h_code hd = strip s /\
       h_name hd = text_or [] c1 /\
       shares_of (text_or text_0 c2) = OK (h_shares hd) /\
       weight_of (text_or text_0_percent c3) = OK (h_weight hd)) /\
  (forall s,
     shares_of s =
       if isdigit isdigit_char (remove_char comma s)
       then py_int (remove_char comma s) else OK 0) /\
  (forall s,
     weight_of s =
       if endswith_char percent s
       then py_float (remove_char percent s) else OK zero) /\
  (forall df h t i row,
     first_header df h -> run_end df h t -> (h < i < t)%nat ->
     df_rows df !! i = Some row ->
     passes_gate (values_of df row) <-> (4 <= df_width df)%nat) /\
  (forall df row rows,
     parse_row (values_of df row) = OK None ->
     holdings_of df (row :: rows) = holdings_of df rows).
Proof.
  split_and!.
  - apply parse_row_skip.
  - intros rv hd Hrow.
    destruct (parse_row_Some rv hd Hrow) as (s & c1 & c2 & c3 & tl & H).
    split; [|by exists s, c1, c2, c3, tl].
    apply passes_gate_shape. exists s, c1, c2, c3, tl. by destruct H.
  - done.
  - done.
  - intros df h t i row [Hh _] Hrun Hi Hrow.
    apply header_row_bounds in Hh as [_ Hw].
    by apply (run_row_gate df h t i row).
  - apply holdings_of_skip.
Qed.

(** C10. Every holding of a table the extractor returns has a code that
    matches the four-digit pattern: four characters, all digits; it is
    not blank and holds neither the cash nor the totals marker. *)
Theorem extracted_codes_are_four_digits df tbl :
  parse_pcf_excel df = OK tbl ->
  Forall (fun hd =>
            re_match_code (h_code hd) = true /\
            length (h_code hd) = 4%nat /\
            forallb re_digit (h_code hd) = true /\
            h_code hd <> [] /\
            contains cash_marker (h_code hd) = false /\
            contains total_marker (h_code hd) = false)
         tbl.
Proof.
  intros Hparse. apply Forall_forall. intros hd Hhd.
  destruct (parse_pcf_excel_cases df)
    as [[_ Hraise]|(h & t & [Hh _] & Hrun & Heq)]; [congruence|].
  apply header_row_bounds in Hh as [_ Hw].
  rewrite Heq in Hparse.
  destruct (holdings_of_elem df _ tbl hd Hparse Hhd) as (row & Hrow & Hp).
  apply rows_between_lookup in Hrow as (i & Hi & Hrow).
  destruct (run_row_first_cell df h t i row Hw Hrun) as (s & Hs & Hnt);
    [lia|done|].
  apply parse_row_Some in Hp as (s' & c1 & c2 & c3 & tl & Hshape & Hc & _).
  rewrite Hshape in Hs. injection Hs as ->. rewrite Hc.
  apply not_terminal_text in Hnt as (Hne & Hcash & Htotal & Hmatch).
  pose proof (re_match_code_strip s Hmatch) as [H4 Hd].
  by split_and!.
Qed.

End TableExtractorFacts.

(** ** The extractor on the example sheet *)

Lemma terminal_rowb_iff re_digit df i :
  terminal_row re_digit df i <-> terminal_rowb re_digit df i = true.
Proof.
  unfold terminal_row, terminal_rowb.
  destruct (first_col df i) as [s|].
  - rewrite is_terminal_iff. split; [by intros (s' & [= <-] & H)|].
    intros H. by exists s.
  - split; [by intros (s' & ? & _)|discriminate].
Qed.

Lemma header_rowb_iff df i : header_row df i <-> header_rowb df i = true.
Proof.
  unfold header_row, header_rowb. destruct (df_rows df !! i) as [row|].
  - split; [by intros (row' & [= <-] & H)|]. intros H. by exists row.
  - split; [by intros (row' & ? & _)|discriminate].
Qed.

Example parse_example :
  parse_pcf_excel ascii_digit ascii_digit ascii_int ascii_float example_sheet
  = OK example_table.
Proof. vm_compute. reflexivity. Defined.

Lemma example_sheet_header : first_header example_sheet 3.
Proof.
  split; [by apply header_rowb_iff|].
  intros i Hi. rewrite header_rowb_iff.
  destruct i as [|[|[|i]]]; [by vm_compute..|lia].
Qed.

(** The table of the example sheet is built from its rows 4 to 9. *)
Lemma extract_run_witness :
  first_header example_sheet 3 /\
  parse_pcf_excel ascii_digit ascii_digit ascii_int ascii_float example_sheet
  = holdings_of ascii_digit ascii_int ascii_float example_sheet
      (rows_between example_sheet 4 10).
Proof.
  split; [exact example_sheet_header|].
  apply (proj1 (proj2 (proj2
           (extract_returns_the_run ascii_digit ascii_digit
              ascii_int ascii_float)))).
  - exact example_sheet_header.
  - intros i Hi. rewrite terminal_rowb_iff.
    do 4 (destruct i as [|i]; [lia|]).
    do 6 (destruct i as [|i]; [by vm_compute|]). lia.
  - exists total_marker. split; by vm_compute.
Defined.

(** The codes of the example table. *)
Lemma extracted_codes_witness :
  Forall (fun hd =>
            re_match_code ascii_digit (h_code hd) = true /\
            length (h_code hd) = 4%nat /\
            forallb ascii_digit (h_code hd) = true /\
            h_code hd <> [] /\
            contains cash_marker (h_code hd) = false /\
            contains total_marker (h_code hd) = false)
         example_table.
Proof.
  exact (extracted_codes_are_four_digits ascii_digit ascii_digit
           ascii_int ascii_float example_sheet example_table parse_example).
Defined.

(** A full row passes the gate and gives its holding. *)
Lemma full_row_witness :
  passes_gate full_row /\
  parse_row ascii_digit ascii_int ascii_float full_row
  = OK (Some (mkHolding (py "2330") (py "TSMC") 1000 (decimal 55 10))).
Proof.
  assert (H : parse_row ascii_digit ascii_int ascii_float full_row
              = OK (Some (mkHolding (py "2330") (py "TSMC") 1000
                                    (decimal 55 10))))
    by (vm_compute; reflexivity).
  split; [|exact H].
  exact (proj1 (proj1 (proj2 (rows_pass_the_gate_and_parse
                                ascii_digit ascii_digit ascii_int
                                ascii_float))
                 full_row _ H)).
Defined.

(** C5 as the specification words it fails on two inputs. A row with a
    single cell that is not blank, in a frame of four columns, gives a
    holding: the gate counts cells, not cells that hold something. And a
    weight text with a percent sign inside, "1%2%", gives 12.0, while the
    text without its last percent sign, "1%2", is no float. *)
Lemma blank_cells_pass_the_gate :
  parse_row ascii_digit ascii_int ascii_float sparse_row
  = OK (Some (mkHolding (py "2330") [] 0 zero)) /\
  populated sparse_row = 1%nat /\
  weight_of ascii_float (py "1%2%") = OK (of_int 12) /\
  weight_without_last_percent ascii_float (py "1%2%") = Raise ValueError.
Proof. by vm_compute. Qed.

(** ** Facts about the numbers of the workbook *)

Lemma div_half_even_ge a b : 0 < b -> a / b <= div_half_even a b.
Proof.
  intros Hb. unfold div_half_even.
  destruct (2 * (a mod b) ?= b); [destruct (Z.even (a / b))|..]; lia.
Qed.

Lemma div_half_even_one a : div_half_even a 1 = a.
Proof. unfold div_half_even. by rewrite Z.div_1_r, Z.mod_1_r. Qed.

Lemma log10_floor_nonneg fuel q : 0 <= log10_floor fuel q.
Proof.
  revert q. induction fuel as [|fuel IH]; intros q; cbn; [done|].
  destruct (q <? 10); [done|]. specialize (IH (q / 10)). lia.
Qed.

Lemma log10_floor_le fuel q : 1 <= q -> 10 ^ log10_floor fuel q <= q.
Proof.
  revert q. induction fuel as [|fuel IH]; intros q Hq; cbn; [done|].
  destruct (Z.ltb_spec q 10) as [|Hge]; [done|].
  pose proof (log10_floor_nonneg fuel (q / 10)) as Hnn.
  rewrite Z.pow_add_r by lia.
  assert (1 <= q / 10) as Hq' by (apply Z.div_le_lower_bound; lia).
  specialize (IH (q / 10) Hq').
  pose proof (Z.mul_div_le q 10 eq_refl). lia.
Qed.

Lemma nearest_double_pos a : 0 < a -> 0 < nearest_double a.
Proof.
  intros Ha. unfold nearest_double.
  destruct (Z.leb_spec (Z.log2 a + 1 - prec) 0) as [|Hs]; [done|].
  assert (0 < 2 ^ (Z.log2 a + 1 - prec)) as Hpow
    by (apply Z.pow_pos_nonneg; lia).
  assert (2 ^ (Z.log2 a + 1 - prec) <= a) as Hle.
  { transitivity (2 ^ Z.log2 a); [|by apply Z.log2_spec].
    apply Z.pow_le_mono_r; unfold prec; lia. }
  pose proof (div_half_even_ge a _ Hpow).
  assert (1 <= a / 2 ^ (Z.log2 a + 1 - prec))
    by (apply Z.div_le_lower_bound; lia).
  nia.
Qed.

(** *** Rounding a whole number never gives zero *)

Lemma shr_1_div2 mrs : 0 <= shr_m mrs -> shr_m (shr_1 mrs) = shr_m mrs / 2.
Proof.
  destruct mrs as [[|[p|p|]|p] r s]; cbn [shr_m shr_1]; intros Hm;
    try lia; try done.
  - rewrite Pos2Z.inj_xI. apply (Z.div_unique _ _ _ 1); lia.
  - rewrite Pos2Z.inj_xO. apply (Z.div_unique _ _ _ 0); lia.
Qed.

Lemma shr_1_pos mrs : 2 <= shr_m mrs -> 0 < shr_m (shr_1 mrs).
Proof.
  intros Hm. rewrite shr_1_div2 by lia.
  apply Z.div_str_pos. lia.
Qed.

Lemma iter_pos_shr_1_div p mrs :
  0 <= shr_m mrs ->
  shr_m (SpecFloat.iter_pos shr_1 p mrs) = shr_m mrs / 2 ^ Zpos p.
Proof.
  revert mrs. induction p as [p IH|p IH|]; intros mrs Hm;
    cbn [SpecFloat.iter_pos].
  - assert (0 <= shr_m (shr_1 mrs)) as H1
      by (rewrite shr_1_div2 by done; apply Z.div_pos; lia).
    assert (0 <= shr_m (SpecFloat.iter_pos shr_1 p (shr_1 mrs))) as H2
      by (rewrite IH by done; apply Z.div_pos;
          [done|apply Z.pow_pos_nonneg; lia]).
    rewrite IH, IH, shr_1_div2 by done.
    rewrite !Z.div_div by (try apply Z.pow_pos_nonneg; lia).
    f_equal. replace (Z.pos p~1) with (1 + Z.pos p + Z.pos p) by lia.
    rewrite !Z.pow_add_r by lia. lia.
  - assert (0 <= shr_m (SpecFloat.iter_pos shr_1 p mrs)) as H2
      by (rewrite IH by done; apply Z.div_pos;
          [done|apply Z.pow_pos_nonneg; lia]).
    rewrite IH, IH by done.
    rewrite !Z.div_div by (try apply Z.pow_pos_nonneg; lia).
    f_equal. replace (Z.pos p~0) with (Z.pos p + Z.pos p) by lia.
    by rewrite Z.pow_add_r by lia.
  - by rewrite shr_1_div2.
Qed.

Lemma digits2_pos_le p : 2 ^ (Zpos (digits2_pos p) - 1) <= Zpos p.
Proof.
  induction p as [p IH|p IH|]; cbn [digits2_pos]; [| |done].
  - replace (Z.pos (Pos.succ (digits2_pos p)) - 1)
      with (1 + (Z.pos (digits2_pos p) - 1)) by lia.
    rewrite Z.pow_add_r by lia. change (2 ^ 1) with 2. lia.
  - replace (Z.pos (Pos.succ (digits2_pos p)) - 1)
      with (1 + (Z.pos (digits2_pos p) - 1)) by lia.
    rewrite Z.pow_add_r by lia. change (2 ^ 1) with 2. lia.
Qed.

Lemma shr_fexp_pos m e l :
  0 < m -> emin prec emax <= e ->
  0 < shr_m (fst (shr_fexp prec emax m e l)) /\
  emin prec emax <= snd (shr_fexp prec emax m e l).
Proof.
  intros Hm He. unfold shr_fexp, shr.
  assert (shr_m (shr_record_of_loc m l) = m) as Hrec
    by by destruct l as [|[]].
  destruct (fexp prec emax (Zdigits2 m + e) - e) as [|n|n] eqn:Hn;
    cbn [fst snd]; [by rewrite Hrec|  |by rewrite Hrec].
  split.
  - rewrite iter_pos_shr_1_div by (rewrite Hrec; lia). rewrite Hrec.
    destruct m as [|p|p]; try lia. cbn [Zdigits2] in Hn.
    pose proof (digits2_pos_le p) as Hd.
    unfold fexp in Hn.
    assert (Z.pos n = Z.pos (digits2_pos p) - prec) as Hshift by lia.
    apply Z.div_str_pos. split; [apply Z.pow_pos_nonneg; lia|].
    transitivity (2 ^ (Z.pos (digits2_pos p) - 1)); [|done].
    apply Z.pow_le_mono_r; unfold prec in *; lia.
  - unfold fexp in Hn. lia.
Qed.

Lemma binary_round_aux_nonzero s m e l :
  0 < m -> emin prec emax <= e ->
  match binary_round_aux prec emax s m e l with
  | S754_finite s' _ _ | S754_infinity s' => s' = s
  | _ => False
  end.
Proof.
  intros Hm He. unfold binary_round_aux.
  pose proof (shr_fexp_pos m e l Hm He) as [H1 He1].
  destruct (shr_fexp prec emax m e l) as [mrs e']. cbn [fst snd] in *.
  assert (0 < round_nearest_even (shr_m mrs) (loc_of_shr_record mrs))
    as Hr.
  { destruct (loc_of_shr_record mrs) as [|[]]; cbn; try lia.
    destruct (Z.even (shr_m mrs)); lia. }
  pose proof (shr_fexp_pos _ e' loc_Exact Hr He1) as [H2 _].
  destruct (shr_fexp prec emax _ e' loc_Exact) as [mrs' e''].
  cbn [fst] in H2.
  destruct (shr_m mrs') as [|p|p]; try lia.
  by destruct (e'' <=? emax - prec).
Qed.

Lemma binary_normalize_sign z s :
  z <> 0 ->
  match binary_normalize prec emax z 0 s with
  | S754_finite s' _ _ | S754_infinity s' => s' = (z <? 0)
  | _ => False
  end.
Proof.
  intros Hz. unfold binary_normalize, binary_round.
  destruct z as [|p|p]; [done|..];
    match goal with
    | |- context [shl_align ?mx ?ex ?ex'] =>
        assert (emin prec emax <= snd (shl_align mx ex ex')) as He
          by (unfold shl_align;
              destruct (ex' - ex) as [|d|d] eqn:Hd; cbn [snd];
              unfold fexp, emin, prec, emax in *; lia);
        destruct (shl_align mx ex ex') as [mz ez]
    end; cbn [snd] in He;
    by apply binary_round_aux_nonzero.
Qed.

(** The number read back for an int has the sign of the int. *)
Lemma xl_of_int_sign z v :
  xl_of_int z = OK v ->
  match v with
  | XInt z' => (z' < 0 <-> z < 0) /\ (z' = 0 <-> z = 0)
  | XFloat x =>
      z <> 0 /\
      match x with
      | S754_finite s _ _ | S754_infinity s => s = (z <? 0)
      | _ => False
      end
  | _ => False
  end.
Proof.
  unfold xl_of_int. destruct (Z.eq_dec z 0) as [->|Hz].
  { intros [= <-]. lia. }
  assert (0 < Z.abs z) as Habs by lia.
  pose proof (nearest_double_pos _ Habs) as Hn.
  set (n := nearest_double (Z.abs z)) in *.
  replace (match z with 0 => OK (XInt 0) | _ =>
             if 2 ^ emax <=? n then Raise OverflowError
             else let '(N, k) := round16 n 1 in
                  OK (read_decimal (z <? 0) N k) end)
    with (if 2 ^ emax <=? n then Raise OverflowError
          else let '(N, k) := round16 n 1 in
               OK (read_decimal (z <? 0) N k))
    by by destruct z.
  destruct (2 ^ emax <=? n); [discriminate|].
  unfold round16, decimal_exponent.
  destruct (Z.leb_spec 1 n) as [_|]; [|lia].
  rewrite Z.div_1_r, Z.mul_1_l.
  set (X := log10_floor _ n).
  assert (10 ^ X <= n) as HX by (apply log10_floor_le; lia).
  assert (0 <= X) as HX0 by apply log10_floor_nonneg.
  intros [= <-]. unfold read_decimal.
  destruct (Z.leb_spec 0 (X - 15)) as [Hk|Hk].
  - assert (0 < 10 ^ (X - 15)) as Hpow by (apply Z.pow_pos_nonneg; lia).
    assert (10 ^ (X - 15) <= n) as Hle.
    { transitivity (10 ^ X); [|done]. apply Z.pow_le_mono_r; lia. }
    pose proof (div_half_even_ge n _ Hpow) as HN.
    assert (1 <= n / 10 ^ (X - 15))
      by (apply Z.div_le_lower_bound; lia).
    set (N := div_half_even n (10 ^ (X - 15))) in *.
    destruct ((X - 15 =? 0) && (N <? 10 ^ 16)).
    { unfold signed. destruct (Z.ltb_spec z 0); lia. }
    destruct (Z.ltb_spec (X - 15) 0) as [|_]; [lia|]. cbn [andb].
    split; [done|].
    pose proof (binary_normalize_sign (signed (z <? 0) (N * 10 ^ (X - 15)))
                  (z <? 0)) as Hs.
    assert (0 < N * 10 ^ (X - 15)) as Hpos by nia.
    unfold signed in *. destruct (Z.ltb_spec z 0) as [Hneg|Hnn].
    + specialize (Hs ltac:(lia)).
      destruct (binary_normalize _ _ _ _ _) as [?|s'| |s' ? ?]; try done;
        rewrite Hs; by destruct (Z.ltb_spec (- (N * 10 ^ (X - 15))) 0);
        [|lia].
    + specialize (Hs ltac:(lia)).
      destruct (binary_normalize _ _ _ _ _) as [?|s'| |s' ? ?]; try done;
        rewrite Hs; by destruct (Z.ltb_spec (N * 10 ^ (X - 15)) 0);
        [lia|].
  - rewrite div_half_even_one.
    assert (0 < 10 ^ (- (X - 15))) as Hpow
      by (apply Z.pow_pos_nonneg; lia).
    destruct (Z.eqb_spec (X - 15) 0) as [|_]; [lia|]. cbn [andb].
    destruct (Z.ltb_spec (X - 15) 0) as [_|]; [|lia].
    rewrite Z.mod_mul, Z.div_mul by lia. cbn.
    unfold signed. destruct (Z.ltb_spec z 0); lia.
Qed.

(** ** Facts about the sheet *)

Lemma str_eqb_eq s t : str_eqb s t = true <-> s = t.
Proof.
  revert t. induction s as [|a s IH]; intros [|b t]; simpl; try done.
  rewrite andb_true_iff, N.eqb_eq, IH. split; [by intros [-> ->]|].
  by intros [= -> ->].
Qed.

Lemma cell_value_ext ws ws' row col :
  ws_values ws = ws_values ws' -> cell_value ws row col = cell_value ws' row col.
Proof. unfold cell_value. by intros ->. Qed.

Lemma row_fill_of_ext ws ws' pct delta row :
  ws_values ws = ws_values ws' ->
  row_fill_of ws pct delta row = row_fill_of ws' pct delta row.
Proof.
  intros H. unfold row_fill_of.
  destruct pct as [p|], delta as [d|];
    by rewrite ?(cell_value_ext ws ws' row p H),
               ?(cell_value_ext ws ws' row d H).
Qed.

Lemma set_fill_cols ws row f cols :
  let ws' := foldl (fun w col => set_fill w row col f) ws cols in
  ws_values ws' = ws_values ws /\
  forall r c,
    ws_fills ws' !! (r, c) =
    if decide (r = row /\ c ∈ cols) then Some f else ws_fills ws !! (r, c).
Proof.
  revert ws. induction cols as [|x cols IH]; intros ws; cbn [foldl].
  - split; [done|]. intros r c.
    destruct (decide (r = row /\ c ∈ [])) as [H|H]; [|done].
    destruct H as [_ H]. by apply elem_of_nil in H.
  - destruct (IH (set_fill ws row x f)) as [Hv Hf]. split; [done|].
    intros r c. rewrite Hf. simpl.
    destruct (decide ((r, c) = (row, x))) as [[= -> ->]|Hne].
    + rewrite lookup_insert_eq.
      rewrite (decide_True (P := row = row /\ x ∈ x :: cols));
        [by case_decide|]. split; [done|]. apply elem_of_cons. by left.
    + rewrite lookup_insert_ne by done.
      case_decide as H1; case_decide as H2; try done.
      * destruct H2. destruct H1 as [-> H1]. split; [done|].
        apply elem_of_cons. by right.
      * destruct H2 as [-> H2]. apply elem_of_cons in H2 as [->|H2];
          [done|]. by destruct H1.
Qed.

Lemma fill_row_values ws row n f :
  ws_values (fill_row ws row n f) = ws_values ws.
Proof. apply set_fill_cols. Qed.

Lemma fill_row_lookup ws row n f r c :
  ws_fills (fill_row ws row n f) !! (r, c) =
  if decide (r = row /\ (1 <= c <= n)%nat) then Some f
  else ws_fills ws !! (r, c).
Proof.
  unfold fill_row.
  destruct (set_fill_cols ws row f (py_range 1 (n + 1))) as [_ ->].
  unfold py_range. replace (n + 1 - 1)%nat with n by lia.
  case_decide as H1; case_decide as H2; try done.
  - destruct H2. destruct H1 as [-> H1]. split; [done|].
    apply elem_of_seq in H1. lia.
  - destruct H1. destruct H2 as [-> H2]. split; [done|].
    apply elem_of_seq. lia.
Qed.

(** The loop over the rows: a row of the range gets the fill chosen for
    it in all the columns of the header, every other cell is left as it
    was, and no value changes. *)
Lemma highlight_loop pct delta n rows ws :
  NoDup rows ->
  let ws' :=
    foldl (fun w row =>
             match row_fill_of w pct delta row with
             | Some f => fill_row w row n f
             | None => w
             end) ws rows in
  ws_values ws' = ws_values ws /\
  forall r c,
    ws_fills ws' !! (r, c) =
    match (if decide (r ∈ rows /\ (1 <= c <= n)%nat)
           then row_fill_of ws pct delta r else None) with
    | Some f => Some f
    | None => ws_fills ws !! (r, c)
    end.
Proof.
  revert ws. induction rows as [|x rows IH]; intros ws Hnd; cbn [foldl].
  - split; [done|]. intros r c.
    destruct (decide (r ∈ [] /\ (1 <= c <= n)%nat)) as [H|H]; [|done].
    destruct H as [H _]. by apply elem_of_nil in H.
  - apply NoDup_cons in Hnd as [Hx Hnd].
    set (ws1 := match row_fill_of ws pct delta x with
                | Some f => fill_row ws x n f
                | None => ws
                end).
    assert (Hv1 : ws_values ws1 = ws_values ws).
    { unfold ws1. destruct (row_fill_of ws pct delta x);
        [apply fill_row_values|done]. }
    destruct (IH ws1 Hnd) as [Hv Hf]. split; [by rewrite Hv|].
    intros r c. rewrite Hf.
    rewrite (row_fill_of_ext ws1 ws pct delta r Hv1).
    assert (H1 : ws_fills ws1 !! (r, c) =
                 match (if decide (r = x /\ (1 <= c <= n)%nat)
                        then row_fill_of ws pct delta r else None) with
                 | Some f => Some f
                 | None => ws_fills ws !! (r, c)
                 end).
    { unfold ws1.
      destruct (decide (r = x /\ (1 <= c <= n)%nat)) as [[-> Hc]|Hrx].
      - destruct (row_fill_of ws pct delta x) as [f|]; [|done].
        rewrite fill_row_lookup. by rewrite decide_True.
      - destruct (row_fill_of ws pct delta x) as [f|]; [|done].
        rewrite fill_row_lookup. by rewrite decide_False. }
    destruct (decide (r ∈ rows /\ (1 <= c <= n)%nat)) as [[Hin Hc]|Hin].
    + rewrite decide_True
        by (split; [apply elem_of_cons; by right|done]).
      destruct (row_fill_of ws pct delta r); [done|].
      rewrite H1. rewrite decide_False; [done|].
      intros [-> _]. by destruct Hx.
    + rewrite H1.
      destruct (decide (r = x /\ (1 <= c <= n)%nat)) as [[-> Hc]|Hrx].
      * rewrite decide_True; [done|]. split; [|done].
        apply elem_of_cons. by left.
      * rewrite decide_False; [done|]. intros [Hin' Hc].
        apply elem_of_cons in Hin' as [->|Hin']; [by destruct Hrx|].
        by destruct Hin.
Qed.

Lemma is_text_new v : is_text v label_new = true <-> shows_new v.
Proof.
  unfold shows_new. destruct v as [|s|z|x]; simpl;
    try (split; [discriminate|by intros [=]]).
  rewrite str_eqb_eq. split; [by intros ->|by intros [= ->]].
Qed.

Lemma SFcompare_swap x y :
  SFcompare y x =
  match SFcompare x y with
  | Some c => Some (CompOpp c)
  | None => None
  end.
Proof.
  destruct x as [sx|sx| |sx mx ex], y as [sy|sy| |sy my ey]; simpl;
    try done;
    repeat match goal with s : bool |- _ => destruct s end; try done;
    rewrite (Z.compare_antisym ex ey);
    destruct (ex ?= ey); simpl; try done;
    rewrite (Pos.compare_cont_antisym mx my Eq); simpl;
    by destruct (Pos.compare_cont Eq mx my).
Qed.

Lemma below_zero_number v :
  is_number v && below_zero v = true <-> number_below_zero v.
Proof.
  destruct v as [|s|z|x]; simpl; try (split; [discriminate|done]).
  - apply Z.ltb_lt.
  - unfold ltb, SFltb, zero.
    destruct (SFcompare x (S754_zero false)) as [[]|];
      split; try done; discriminate.
Qed.

Lemma above_30_number v :
  is_number v && above_30 v = true <-> number_above_30 v.
Proof.
  unfold number_above_30. change (of_int 30) with thirty.
  destruct v as [|s|z|x]; cbn [is_number above_30 andb];
    try (split; [discriminate|done]).
  - apply Z.ltb_lt.
  - unfold ltb, SFltb. rewrite (SFcompare_swap x thirty).
    destruct (SFcompare x thirty) as [[]|]; cbn [CompOpp]; split;
      try done; discriminate.
Qed.

(** The rule the loop applies to a row is the rule of the
    specification, on the cells of the row as the workbook holds them. *)
Lemma row_fill_chosen ws row cells pct delta :
  ws_values ws !! (row - 1)%nat = Some cells ->
  cells !! 7%nat = Some pct -> cells !! 6%nat = Some delta ->
  chosen_fill pct delta (row_fill_of ws (Some 8%nat) (Some 7%nat) row).
Proof.
  intros Hrow Hpct Hdelta. unfold row_fill_of, cell_value. rewrite Hrow.
  cbn [Nat.sub]. rewrite Hpct, Hdelta.
  destruct (is_text pct label_new) eqn:Hnew.
  { apply choose_new. by apply is_text_new. }
  assert (~ shows_new pct) as Hn.
  { intros H. apply is_text_new in H. congruence. }
  destruct (is_number delta && below_zero delta) eqn:Hneg.
  { apply choose_negative; [done|]. by apply below_zero_number. }
  assert (~ number_below_zero delta) as Hnn.
  { intros H. apply below_zero_number in H. congruence. }
  destruct (is_number pct && above_30 pct) eqn:Hhigh.
  - apply choose_high; try done. by apply above_30_number.
  - apply choose_none; try done. intros H. apply above_30_number in H.
    congruence.
Qed.

Lemma chosen_fill_unique pct delta f f' :
  chosen_fill pct delta f -> chosen_fill pct delta f' -> f = f'.
Proof. by intros [] []. Qed.

Lemma xl_of_float_not_new x : ~ shows_new (xl_of_float x).
Proof.
  unfold shows_new, xl_of_float, read_decimal.
  destruct x as [s|[]| |s m e]; try done.
  destruct (match e with Zneg p => _ | _ => _ end) as [N k].
  by repeat case_match.
Qed.

Lemma xl_of_int_error z e : xl_of_int z = Raise e -> e = OverflowError.
Proof.
  unfold xl_of_int. destruct z as [|p|p]; [done|..];
    destruct (2 ^ emax <=? _); try (by intros [= <-]);
    by destruct (round16 _ 1).
Qed.

Lemma xl_of_int_below_zero z v :
  xl_of_int z = OK v -> number_below_zero v <-> z < 0.
Proof.
  intros Hv. apply xl_of_int_sign in Hv.
  destruct v as [|s|z'|x]; try done; [by destruct Hv as [-> _]|].
  destruct Hv as [Hz Hx]. simpl.
  destruct x as [s|s| |s m e]; try done; subst s;
    destruct (Z.ltb_spec z 0); simpl; split; intros; try done; lia.
Qed.

Section SheetFacts.

Variable store_text : str -> result xl_value.

Local Abbreviation xl_of_display := (xl_of_display store_text).
Local Abbreviation sheet_row := (sheet_row store_text).
Local Abbreviation to_excel := (to_excel store_text).
Local Abbreviation save_comparison_result :=
  (save_comparison_result store_text).

Lemma sheet_row_cells r cells :
  sheet_row r = OK cells ->
  exists code name shares prev_shares delta pct,
    store_text (r_code r) = OK code /\
    store_text (r_name r) = OK name /\
    xl_of_int (r_shares r) = OK shares /\
    xl_of_int (r_prev_shares r) = OK prev_shares /\
    xl_of_int (r_shares_delta r) = OK delta /\
    xl_of_display (r_shares_delta_pct r) = OK pct /\
    cells = [ code; name; shares; xl_of_float (r_weight r); prev_shares;
              xl_of_float (r_prev_weight r); delta; pct;
              xl_of_float (r_weight_delta_pct r) ].
Proof.
  unfold Workbook.sheet_row.
  destruct (store_text (r_code r)) as [code|]; [|discriminate].
  destruct (store_text (r_name r)) as [name|]; [|discriminate].
  destruct (xl_of_int (r_shares r)) as [shares|]; [|discriminate].
  destruct (xl_of_int (r_prev_shares r)) as [prev_shares|]; [|discriminate].
  destruct (xl_of_int (r_shares_delta r)) as [delta|]; [|discriminate].
  destruct (xl_of_display (r_shares_delta_pct r)) as [pct|]; [|discriminate].
  cbn. intros [= <-]. by exists code, name, shares, prev_shares, delta, pct.
Qed.

Lemma sheet_row_Raise r e : sheet_row r = Raise e -> refused store_text r e.
Proof.
  unfold Workbook.sheet_row, Workbook.refused.
  destruct (store_text (r_code r)) as [code|e1]; cbn;
    [|intros [= ->]; by left].
  destruct (store_text (r_name r)) as [name|e2]; cbn;
    [|intros [= ->]; right; by left].
  destruct (xl_of_int (r_shares r)) as [shares|e3] eqn:H3; cbn.
  2:{ intros [= ->]. pose proof (xl_of_int_error _ _ H3) as ->.
      do 3 right. split; [done|]. by auto. }
  destruct (xl_of_int (r_prev_shares r)) as [prev_shares|e4] eqn:H4; cbn.
  2:{ intros [= ->]. pose proof (xl_of_int_error _ _ H4) as ->.
      do 3 right. split; [done|]. by auto. }
  destruct (xl_of_int (r_shares_delta r)) as [delta|e5] eqn:H5; cbn.
  2:{ intros [= ->]. pose proof (xl_of_int_error _ _ H5) as ->.
      do 3 right. split; [done|]. by auto. }
  destruct (xl_of_display (r_shares_delta_pct r)) as [pct|e6]; cbn;
    [discriminate|]. intros [= ->]. by auto.
Qed.

Lemma int_cells_Raise r e :
  int_cells r = Raise e ->
  e = OverflowError /\
  (xl_of_int (r_shares r) = Raise OverflowError \/
   xl_of_int (r_prev_shares r) = Raise OverflowError \/
   xl_of_int (r_shares_delta r) = Raise OverflowError).
Proof.
  unfold int_cells.
  destruct (xl_of_int (r_shares r)) as [shares|e3] eqn:H3; cbn.
  2:{ intros [= ->]. pose proof (xl_of_int_error _ _ H3) as ->. by auto. }
  destruct (xl_of_int (r_prev_shares r)) as [prev_shares|e4] eqn:H4; cbn.
  2:{ intros [= ->]. pose proof (xl_of_int_error _ _ H4) as ->. by auto. }
  destruct (xl_of_int (r_shares_delta r)) as [delta|e5] eqn:H5; cbn;
    [discriminate|].
  intros [= ->]. pose proof (xl_of_int_error _ _ H5) as ->. by auto.
Qed.

Lemma to_excel_OK df ws :
  to_excel df = OK ws ->
  (df = [] /\ ws = mkSheet [] ∅) \/
  (df <> [] /\
   exists rows,
     for_each sheet_row df = OK rows /\
     ws = mkSheet ((XStr <$> column_names) :: rows) ∅).
Proof.
  unfold Workbook.to_excel. destruct df as [|r0 df'].
  { intros [= <-]. by left. }
  set (df := r0 :: df'). intros H. right. split; [done|].
  destruct (for_each (fun r => store_text (r_code r)) df); [|discriminate].
  destruct (for_each (fun r => store_text (r_name r)) df); [|discriminate].
  cbn [mbind result_bind] in H.
  destruct (for_each (fun r => xl_of_display (r_shares_delta_pct r)) df).
  - destruct (for_each sheet_row df) as [rows|]; [|discriminate].
    injection H as <-. by exists rows.
  - by destruct (for_each int_cells df).
Qed.

Lemma to_excel_Raise df e :
  to_excel df = Raise e -> exists r, r ∈ df /\ refused store_text r e.
Proof.
  unfold Workbook.to_excel. destruct df as [|r0 df']; [discriminate|].
  set (df := r0 :: df'). unfold Workbook.refused.
  destruct (for_each (fun r => store_text (r_code r)) df) eqn:Hcode.
  2:{ intros [= ->]. apply for_each_Raise in Hcode as (r & Hr & Hc).
      exists r. by auto. }
  destruct (for_each (fun r => store_text (r_name r)) df) eqn:Hname.
  2:{ intros [= ->]. apply for_each_Raise in Hname as (r & Hr & Hc).
      exists r. by auto. }
  cbn [mbind result_bind].
  destruct (for_each (fun r => xl_of_display (r_shares_delta_pct r)) df)
    eqn:Hpct.
  - destruct (for_each sheet_row df) as [rows|e'] eqn:Hrows; [discriminate|].
    intros [= ->]. apply for_each_Raise in Hrows as (r & Hr & Hc).
    exists r. split; [done|]. by apply sheet_row_Raise.
  - destruct (for_each int_cells df) eqn:Hint; cbn; intros [= ->].
    + apply for_each_Raise in Hpct as (r & Hr & Hc). exists r. by auto.
    + apply for_each_Raise in Hint as (r & Hr & Hc). exists r.
      apply int_cells_Raise in Hc as [-> Hc]. split; [done|].
      do 3 right. by split.
Qed.

Lemma to_excel_row df ws i r :
  to_excel df = OK ws ->
  df !! i = Some r ->
  exists cells,
    sheet_row r = OK cells /\
    ws_values ws !! (i + 1)%nat = Some cells /\
    headers_of ws = XStr <$> column_names /\
    ws_fills ws = ∅.
Proof.
  intros Hws Hr.
  apply to_excel_OK in Hws as [[-> _]|(_ & rows & Hrows & ->)];
    [by rewrite lookup_nil in Hr|].
  apply for_each_OK in Hrows.
  destruct (Forall2_lookup_l _ _ _ _ _ Hrows Hr) as (cells & Hc & Hrow).
  exists cells. split_and!; try done.
  by rewrite Nat.add_1_r.
Qed.

(** The fills of the saved sheet, cell by cell. *)
Lemma save_fills df ws :
  save_comparison_result df = OK ws ->
  exists ws0,
    to_excel df = OK ws0 /\
    ws_values ws = ws_values ws0 /\
    forall row col,
      ws_fills ws !! (row, col) =
      if decide ((2 <= row < length df + 2)%nat /\ (1 <= col <= 9)%nat)
      then row_fill_of ws0 (Some 8%nat) (Some 7%nat) row
      else None.
Proof.
  unfold Workbook.save_comparison_result.
  destruct (to_excel df) as [ws0|] eqn:Hws0; [|discriminate].
  cbn. intros [= <-]. exists ws0. split; [done|].
  pose proof (highlight_loop
                (column_of col_shares_delta_pct (headers_of ws0))
                (column_of col_shares_delta (headers_of ws0))
                (length (headers_of ws0))
                (py_range 2 (length df + 2)) ws0
                (NoDup_seq _ _)) as [Hv Hf].
  fold (highlight_rows ws0 (length df)) in Hv, Hf.
  split; [done|]. intros row col. rewrite Hf.
  destruct df as [|r0 df'] eqn:Hdf.
  { cbn. apply to_excel_OK in Hws0 as [[_ ->]|[? _]]; [|done].
    cbn. rewrite lookup_empty. by repeat case_decide. }
  rewrite <- Hdf in *.
  assert (df !! 0%nat = Some r0) as H0 by by rewrite Hdf.
  destruct (to_excel_row df ws0 0 r0 Hws0 H0) as (_ & _ & _ & Hh & He).
  rewrite Hh, He, lookup_empty.
  change (column_of col_shares_delta_pct (XStr <$> column_names))
    with (Some 8%nat).
  change (column_of col_shares_delta (XStr <$> column_names))
    with (Some 7%nat).
  change (length (XStr <$> column_names)) with 9%nat.
  destruct (decide ((2 <= row < length df + 2)%nat /\ (1 <= col <= 9)%nat))
    as [[Hrow Hcol]|Hout].
  - rewrite decide_True by (split; [apply elem_of_seq; lia|done]).
    by destruct (row_fill_of ws0 _ _ row).
  - rewrite decide_False; [done|].
    intros [Hin Hcol]. apply elem_of_seq in Hin. apply Hout. split; lia.
Qed.

(** The cells of a data row and its fill. *)
Lemma saved_row df ws i r :
  save_comparison_result df = OK ws ->
  df !! i = Some r ->
  exists cells pct delta fill,
    sheet_row r = OK cells /\
    ws_values ws !! (i + 1)%nat = Some cells /\
    cells !! 7%nat = Some pct /\ cells !! 6%nat = Some delta /\
    xl_of_display (r_shares_delta_pct r) = OK pct /\
    xl_of_int (r_shares_delta r) = OK delta /\
    chosen_fill pct delta fill /\
    forall col, (1 <= col <= 9)%nat ->
      ws_fills ws !! ((i + 2)%nat, col) = fill.
Proof.
  intros Hws Hr.
  destruct (save_fills df ws Hws) as (ws0 & Hws0 & Hv & Hf).
  destruct (to_excel_row df ws0 i r Hws0 Hr) as (cells & Hc & Hrow & _).
  destruct (sheet_row_cells r cells Hc)
    as (code & name & shares & prev_shares & delta & pct & _ & _ & _ & _
        & Hdelta & Hpct & ->).
  eexists _, pct, delta,
    (row_fill_of ws0 (Some 8%nat) (Some 7%nat) (i + 2)).
  split_and!; try done.
  - by rewrite Hv.
  - match type of Hrow with
    | _ = Some ?c =>
        apply (row_fill_chosen ws0 (i + 2) c pct delta); [|done|done]
    end.
    by replace (i + 2 - 1)%nat with (i + 1)%nat by lia.
  - intros col Hcol. rewrite Hf. rewrite decide_True; [done|].
    split; [|done]. apply lookup_lt_Some in Hr. lia.
Qed.

(** C8. When the writer returns, every row of the frame has one fill,
    chosen on the cells of its sheet row by the first rule that matches:
    the new-position label in the percentage cell gives the yellow fill,
    whatever the absolute change; otherwise a number below 0 in the
    absolute-change cell, which is there exactly when the absolute
    change of the frame is below 0, gives the green fill; otherwise a
    number above 30 in the percentage cell gives the pink fill;
    otherwise the row has no fill. The fill is on every cell of the row,
    the nine columns of the header, and the header row has none. The
    cells are the values as the workbook holds them: a percentage of the
    frame is there rounded to 16 digits, and never shows the label. The
    writer raises, and fills nothing, when the workbook refuses a text
    of the frame or an int of the frame is beyond the floats. *)
Theorem highlight_first_match_whole_row df :
  match save_comparison_result df with
  | OK ws =>
      (forall i r, df !! i = Some r ->
         exists cells pct delta fill,
           sheet_row r = OK cells /\
           ws_values ws !! (i + 1)%nat = Some cells /\
           cells !! 7%nat = Some pct /\ cells !! 6%nat = Some delta /\
           chosen_fill pct delta fill /\
           (forall col, (1 <= col <= 9)%nat ->
              ws_fills ws !! ((i + 2)%nat, col) = fill) /\
           (number_below_zero delta <-> r_shares_delta r < 0) /\
           (forall x, r_shares_delta_pct r = DFloat x ->
              pct = xl_of_float x /\ ~ shows_new pct) /\
           (forall s, r_shares_delta_pct r = DStr s ->
              store_text s = OK pct)) /\
      (forall col, ws_fills ws !! (1%nat, col) = None)
  | Raise e => exists r, r ∈ df /\ refused store_text r e
  end.
Proof.
  destruct (save_comparison_result df) as [ws|e] eqn:Hws.
  - split.
    + intros i r Hr.
      destruct (saved_row df ws i r Hws Hr)
        as (cells & pct & delta & fill & Hc & Hrow & Hp & Hd & Hpct & Hdelta
            & Hch & Hfill).
      exists cells, pct, delta, fill. split_and!; try done.
      * by apply xl_of_int_below_zero.
      * intros x Hx. rewrite Hx in Hpct. injection Hpct as <-.
        split; [done|]. apply xl_of_float_not_new.
      * intros s Hs. by rewrite Hs in Hpct.
    + intros col. destruct (save_fills df ws Hws) as (ws0 & _ & _ & Hf).
      rewrite Hf. rewrite decide_False; [done|]. lia.
  - unfold Workbook.save_comparison_result in Hws.
    destruct (to_excel df) as [ws0|e'] eqn:Hws0; [discriminate|].
    injection Hws as ->. by apply to_excel_Raise.
Qed.

End SheetFacts.

(** The rows of the example frame: yellow for the new position, pink
    for the increase of 50 percent, nothing for the unchanged position,
    green for the closed one. *)
Example highlight_example :
  match save_comparison_result plain_text example_frame with
  | OK ws => (fun row => ws_fills ws !! (row, 1%nat)) <$> seq 1 6
  | Raise _ => []
  end
  = [None; Some new_stock_fill; Some high_change_fill; None;
     Some negative_change_fill; None].
Proof. vm_compute. reflexivity. Qed.

(** The label wins over a negative absolute change. A new position of
    [10 ^ 400] shares, as the comparison reports it, stops the writer,
    so that its row is not yellow;
    and a percentage of 30.000000000000004 is 30 in the workbook, so
    that its row is not pink. *)
Lemma highlight_witness :
  (exists ws,
     save_comparison_result plain_text [odd_new_row] = OK ws /\
     Forall (fun col => ws_fills ws !! (2%nat, col) = Some new_stock_fill)
            (seq 1 9)) /\
  (compare_pcf_data elements opened_huge [] = OK [huge_new_row] /\
   save_comparison_result plain_text [huge_new_row] = Raise OverflowError /\
   r_shares_delta_pct huge_new_row = DStr label_new) /\
  (exists ws,
     save_comparison_result plain_text [barely_high_row] = OK ws /\
     Forall (fun col => ws_fills ws !! (2%nat, col) = None) (seq 1 9) /\
     r_shares_delta_pct barely_high_row = DFloat just_above_30 /\
     SFcompare just_above_30 (of_int 30) = Some Gt).
Proof.
  split_and!.
  - pose proof (highlight_first_match_whole_row plain_text [odd_new_row])
      as W.
    destruct (save_comparison_result plain_text [odd_new_row])
      as [ws|e] eqn:E; [|vm_compute in E; discriminate].
    exists ws. split; [done|]. destruct W as [W _].
    destruct (W 0%nat odd_new_row eq_refl)
      as (cells & pct & delta & fill & _ & _ & _ & _ & Hch & Hfill & _ & _
          & Hs).
    specialize (Hs label_new eq_refl). injection Hs as <-.
    rewrite (chosen_fill_unique _ _ _ _ Hch (choose_new _ _ eq_refl))
      in Hfill.
    apply Forall_forall. intros col Hcol%elem_of_seq. apply Hfill. lia.
  - vm_compute. reflexivity.
  - pose proof (highlight_first_match_whole_row plain_text [huge_new_row])
      as W.
    destruct (save_comparison_result plain_text [huge_new_row])
      as [ws|e] eqn:E; [vm_compute in E; discriminate|].
    vm_compute in E. by injection E as <-.
  - done.
  - pose proof (highlight_first_match_whole_row plain_text [barely_high_row])
      as W.
    destruct (save_comparison_result plain_text [barely_high_row])
      as [ws|e] eqn:E; [|vm_compute in E; discriminate].
    exists ws. split; [done|]. destruct W as [W _].
    destruct (W 0%nat barely_high_row eq_refl)
      as (cells & pct & delta & fill & Hc & _ & _ & Hd & Hch & Hfill & _
          & Hx & _).
    destruct (Hx just_above_30 eq_refl) as [-> Hn].
    apply sheet_row_cells in Hc
      as (? & ? & ? & ? & delta' & ? & _ & _ & _ & _ & Hdelta & _ & ->).
    injection Hd as <-. vm_compute in Hdelta. injection Hdelta as <-.
    assert (xl_of_float just_above_30 = XInt 30) as E30
      by (vm_compute; reflexivity).
    assert (chosen_fill (xl_of_float just_above_30) (XInt 3) None) as Hnone.
    { rewrite E30. apply choose_none; [done|cbn; lia|cbn; lia]. }
    rewrite (chosen_fill_unique _ _ _ _ Hch Hnone) in Hfill.
    split_and!; [|done|by vm_compute].
    apply Forall_forall. intros col Hcol%elem_of_seq. apply Hfill. lia.
Defined.

(** ** Facts about dates *)

(** Two turns of the loop are enough: of three days in a row one is
    neither a Saturday nor a Sunday. *)
Lemma back_to_weekday_fuel d : back_to_weekday 2 d <> Raise RuntimeException.
Proof.
  unfold back_to_weekday, minus_one_day, weekday.
  destruct (Z.leb_spec 5 ((d + 6) mod 7)) as [H1|H1]; [|done].
  destruct (Z.ltb_spec (d - 1) 1) as [|_]; [done|]. cbn.
  destruct (Z.leb_spec 5 ((d - 1 + 6) mod 7)) as [H2|H2]; [|done].
  destruct (Z.ltb_spec (d - 1 - 1) 1) as [|_]; [done|]. cbn.
  destruct (Z.leb_spec 5 ((d - 1 - 1 + 6) mod 7)) as [H3|H3]; [|done].
  pose proof (Z.mod_pos_bound (d + 6) 7 eq_refl).
  pose proof (Z.div_mod (d + 6) 7). pose proof (Z.div_mod (d - 1 + 6) 7).
  pose proof (Z.div_mod (d - 1 - 1 + 6) 7).
  pose proof (Z.mod_pos_bound (d - 1 + 6) 7 eq_refl).
  pose proof (Z.mod_pos_bound (d - 1 - 1 + 6) 7 eq_refl). lia.
Qed.

Lemma back_to_weekday_is_weekday fuel d p :
  back_to_weekday fuel d = OK p -> weekday p < 5.
Proof.
  revert d. induction fuel as [|fuel IH]; intros d; simpl.
  - destruct (Z.leb_spec 5 (weekday d)); [discriminate|]. by intros [= <-].
  - destruct (Z.leb_spec 5 (weekday d)); [|by intros [= <-]].
    destruct (minus_one_day d) as [q|e]; cbn; [apply IH|discriminate].
Qed.

(** ** Facts about effects *)

Section DriverFacts.

Variable strptime : str -> result Z.
Variable strftime : Z -> str.
Variable roc_text : Z -> str.
Variable session_get : str -> http_outcome.
Variable read_excel : bytes -> result DataFrame.
Variable re_digit : char -> bool.
Variable isdigit_char : char -> bool.
Variable py_int : str -> result Z.
Variable py_float : str -> result float.
Variable set_iter : gset str -> list str.
Variable store_text : str -> result xl_value.
Variable print_comparison_summary : list ComparisonRow -> result unit.

Local Abbreviation date_to_roc_format := (date_to_roc_format strptime roc_text).
Local Abbreviation get_previous_business_day :=
  (get_previous_business_day strptime strftime).
Local Abbreviation download_pcf_excel := (download_pcf_excel session_get).
Local Abbreviation search_back :=
  (search_back strptime strftime roc_text session_get).
Local Abbreviation find_and_download_previous_day :=
  (find_and_download_previous_day strptime strftime roc_text session_get).
Local Abbreviation attempts_fail :=
  (attempts_fail strptime strftime roc_text session_get).
Local Abbreviation main :=
  (main strptime strftime roc_text session_get read_excel re_digit
        isdigit_char py_int py_float set_iter store_text
        print_comparison_summary).

(** When every attempt fails the search ends with [None], after one line
    per attempt and the closing line, and writes nothing. *)
Lemma search_back_exhausted fund_code attempts current_date :
  attempts_fail fund_code (length attempts) current_date ->
  exists log,
    search_back fund_code attempts current_date = (OK None, log) /\
    quiet log /\ Print L_exhausted ∈ log.
Proof.
  revert current_date.
  induction attempts as [|attempt rest IH]; intros current_date.
  - intros _. eexists. split; [reflexivity|]. split.
    + by repeat constructor.
    + by apply list_elem_of_singleton.
  - intros (prev_date & roc & Hprev & Hroc & Hdown & Hrest).
    destruct (IH prev_date Hrest) as (log & Hlog & Hq & Hex).
    cbn [Pipeline.search_back]. rewrite Hprev. cbn. rewrite Hroc. cbn.
    rewrite Hdown, Hlog. eexists. split; [reflexivity|]. split.
    + by constructor.
    + apply elem_of_cons. by right.
Qed.

(** The search ends with [None] only when every attempt failed. *)
Lemma search_back_None fund_code attempts current_date log :
  search_back fund_code attempts current_date = (OK None, log) ->
  attempts_fail fund_code (length attempts) current_date.
Proof.
  revert current_date log.
  induction attempts as [|attempt rest IH]; intros current_date log Hs;
    [exact I|].
  cbn [Pipeline.search_back] in Hs.
  destruct (get_previous_business_day current_date) as [prev_date|e]
    eqn:Hprev; cbn in Hs; [|discriminate].
  destruct (date_to_roc_format prev_date) as [roc|e] eqn:Hroc; cbn in Hs;
    [|discriminate].
  destruct (download_pcf_excel fund_code roc) as [content|] eqn:Hdown;
    cbn in Hs; [discriminate|].
  destruct (search_back fund_code rest prev_date) as [[[c|]|e] log']
    eqn:Hrest; cbn in Hs; try discriminate.
  exists prev_date, roc. split_and!; try done. exact (IH _ _ Hrest).
Qed.

(** C9. When the file of the requested date is not retrieved the process
    ends with exit code 1. When it is retrieved and all ten backward
    attempts fail, the process prints its notice, writes no file and ends
    with exit code 0. *)
Theorem exit_code_by_retrieval date fund_code roc_date :
  date_to_roc_format date = OK roc_date ->
  (download_pcf_excel fund_code roc_date = None ->
     fst (main date fund_code) = 1 /\ quiet (snd (main date fund_code))) /\
  (forall content,
     download_pcf_excel fund_code roc_date = Some content ->
     attempts_fail fund_code max_attempts date ->
     fst (main date fund_code) = 0 /\
     Print L_warn_no_previous ∈ snd (main date fund_code) /\
     Print L_result_none ∈ snd (main date fund_code) /\
     quiet (snd (main date fund_code))).
Proof.
  intros Hroc. split.
  - intros Hdown. unfold Pipeline.main, Pipeline.process.
    rewrite Hroc. cbn -[py]. rewrite Hdown. cbn -[py]. split; [done|].
    by repeat constructor.
  - intros content Hdown Hfail.
    destruct (search_back_exhausted fund_code (py_range 0 max_attempts)
                date Hfail) as (log & Hlog & Hq & _).
    unfold Pipeline.main, Pipeline.process,
      Pipeline.find_and_download_previous_day.
    rewrite Hroc. cbn [io_bind io_lift emit].
    rewrite Hdown, Hlog. cbn -[py].
    split_and!.
    + done.
    + do 3 (apply elem_of_cons; right). apply elem_of_app. left.
      apply elem_of_app. right. by apply list_elem_of_singleton.
    + do 3 (apply elem_of_cons; right). apply elem_of_app. right.
      apply elem_of_cons. right. by apply list_elem_of_singleton.
    + do 3 (constructor; [done|]). apply Forall_app. split.
      * apply Forall_app. split; [done|]. by repeat constructor.
      * by repeat constructor.
Qed.

End DriverFacts.

(** ** The driver on the example servers *)

Lemma ten_attempts_fail :
  attempts_fail toy_strptime toy_strftime toy_strftime server_one_day
    fund_49YTW max_attempts day_738959.
Proof.
  unfold max_attempts.
  repeat (eexists; eexists;
          split; [vm_compute; reflexivity|];
          split; [vm_compute; reflexivity|];
          split; [vm_compute; reflexivity|]).
  exact I.
Qed.

(** With no file on the server the exit code is 1; with the file of the
    requested day only, it is 0 and nothing is written. *)
Lemma exit_code_witness :
  fst (main toy_strptime toy_strftime toy_strftime server_down no_frame
         ascii_digit ascii_digit ascii_int ascii_float elements plain_text no_summary
         day_738959 fund_49YTW) = 1 /\
  fst (main toy_strptime toy_strftime toy_strftime server_one_day no_frame
         ascii_digit ascii_digit ascii_int ascii_float elements plain_text no_summary
         day_738959 fund_49YTW) = 0 /\
  quiet (snd (main toy_strptime toy_strftime toy_strftime server_one_day
                no_frame ascii_digit ascii_digit ascii_int ascii_float
                elements plain_text no_summary day_738959 fund_49YTW)).
Proof.
  split.
  - apply (proj1 (exit_code_by_retrieval toy_strptime toy_strftime
                    toy_strftime server_down no_frame ascii_digit
                    ascii_digit ascii_int ascii_float elements plain_text no_summary
                    day_738959 fund_49YTW day_738959 eq_refl)).
    reflexivity.
  - pose proof (proj2 (exit_code_by_retrieval toy_strptime toy_strftime
                    toy_strftime server_one_day no_frame ascii_digit
                    ascii_digit ascii_int ascii_float elements plain_text no_summary
                    day_738959 fund_49YTW day_738959 eq_refl)
                 big_body eq_refl ten_attempts_fail) as (H0 & _ & _ & Hq).
    by split.
Defined.

Example main_example :
  main toy_strptime toy_strftime toy_strftime server_one_day no_frame
    ascii_digit ascii_digit ascii_int ascii_float elements plain_text no_summary
    day_738959 fund_49YTW
  = (0,
     [ MakeDirs (py "output");
       Print (L_date day_738959 day_738959);
       Print L_search_start;
       Print (L_attempt 1 [738958%N] [738958%N]);
       Print (L_attempt 2 [738957%N] [738957%N]);
       Print (L_attempt 3 [738956%N] [738956%N]);
       Print (L_attempt 4 [738953%N] [738953%N]);
       Print (L_attempt 5 [738952%N] [738952%N]);
       Print (L_attempt 6 [738951%N] [738951%N]);
       Print (L_attempt 7 [738950%N] [738950%N]);
       Print (L_attempt 8 [738949%N] [738949%N]);
       Print (L_attempt 9 [738946%N] [738946%N]);
       Print (L_attempt 10 [738945%N] [738945%N]);
       Print L_exhausted;
       Print L_warn_no_previous;
       Print L_result_header;
       Print L_result_none ]).
Proof. vm_compute. reflexivity. Qed.

(** * Further properties of the code *)

(** ** The previous business day *)

Ltac weekday_facts d :=
  pose proof (Z.mod_pos_bound (d + 6) 7 eq_refl);
  pose proof (Z.div_mod (d + 6) 7 ltac:(lia)).

Lemma back_to_weekday_nearest d :
  1 <= d ->
  back_to_weekday 2 (d - 1) =
    if d <=? 1 then
      (if 5 <=? weekday (d - 1) then Raise OverflowError else OK (d - 1))
    else OK (nearest_weekday_before d).
Proof.
  intros Hd. unfold nearest_weekday_before, back_to_weekday, minus_one_day,
    weekday.
  weekday_facts d. weekday_facts (d - 1). weekday_facts (d - 1 - 1).
  weekday_facts (d - 1 - 1 - 1).
  destruct (Z.leb_spec d 1) as [Hfirst|Hlater].
  - assert (d = 1) as -> by lia. reflexivity.
  - destruct (Z.leb_spec 5 ((d - 1 + 6) mod 7)) as [Hwe1|Hwd1].
    + destruct (Z.ltb_spec (d - 1 - 1) 1) as [Hlt|Hlt]; [lia|]. cbn.
      destruct (Z.leb_spec 5 ((d - 1 - 1 + 6) mod 7)) as [Hwe2|Hwd2].
      * destruct (Z.ltb_spec (d - 1 - 1 - 1) 1) as [Hlt'|Hlt']; [lia|]. cbn.
        destruct (Z.leb_spec 5 ((d - 1 - 1 - 1 + 6) mod 7)); [lia|].
        destruct (Z.eqb_spec ((d + 6) mod 7) 0); [f_equal; lia|lia].
      * destruct (Z.eqb_spec ((d + 6) mod 7) 0); [lia|].
        destruct (Z.eqb_spec ((d + 6) mod 7) 6); [f_equal; lia|lia].
    + destruct (Z.eqb_spec ((d + 6) mod 7) 0); [lia|].
      destruct (Z.eqb_spec ((d + 6) mod 7) 6); [lia|done].
Qed.

Lemma nearest_weekday_before_spec d :
  let p := nearest_weekday_before d in
  weekday p < 5 /\ d - 3 <= p < d /\
  forall q, p < q < d -> 5 <= weekday q.
Proof.
  unfold nearest_weekday_before, weekday.
  weekday_facts d. weekday_facts (d - 1). weekday_facts (d - 2).
  weekday_facts (d - 3).
  destruct (Z.eqb_spec ((d + 6) mod 7) 0) as [Hmon|Hmon];
    [|destruct (Z.eqb_spec ((d + 6) mod 7) 6) as [Hsun|Hsun]].
  - split; [lia|]. split; [lia|]. intros q Hq.
    assert (q = d - 1 \/ q = d - 2) as [->| ->] by lia; lia.
  - split; [lia|]. split; [lia|]. intros q Hq.
    assert (q = d - 1) as -> by lia. lia.
  - split; [lia|]. split; [lia|]. intros q Hq. lia.
Qed.

Section PreviousBusinessDay.

Variable strptime : str -> result Z.
Variable strftime : Z -> str.

Lemma get_previous_business_day_eq date_str :
  get_previous_business_day strptime strftime date_str =
    match strptime date_str with
    | OK d => if d <=? 1 then Raise OverflowError
              else OK (strftime (nearest_weekday_before d))
    | Raise e => Raise e
    end.
Proof.
  unfold get_previous_business_day.
  destruct (strptime date_str) as [d|e]; [|reflexivity].
  change (OK d ≫= ?f) with (f d). cbv beta.
  unfold minus_one_day at 1.
  destruct (Z.leb_spec d 1) as [Hd|Hd].
  - by destruct (Z.ltb_spec (d - 1) 1); [|lia].
  - destruct (Z.ltb_spec (d - 1) 1); [lia|].
    change (OK (d - 1) ≫= ?f) with (f (d - 1)). cbv beta.
    rewrite back_to_weekday_nearest by lia.
    by destruct (Z.leb_spec d 1); [lia|].
Qed.

(** X1. When [get_previous_business_day] returns, it returns the text of
    the nearest earlier day that is neither a Saturday nor a Sunday: at
    most three days back, Friday for a Monday, and every day in between
    is a Saturday or a Sunday. *)
Theorem previous_business_day_is_nearest_weekday date_str prev_str :
  get_previous_business_day strptime strftime date_str = OK prev_str ->
  exists d p,
    strptime date_str = OK d /\ prev_str = strftime p /\
    weekday p < 5 /\ d - 3 <= p < d /\
    (forall q, p < q < d -> 5 <= weekday q) /\
    (weekday d = 0 -> p = d - 3).
Proof.
  rewrite get_previous_business_day_eq.
  destruct (strptime date_str) as [d|e]; [|discriminate].
  destruct (d <=? 1); [discriminate|]. intros [= <-].
  pose proof (nearest_weekday_before_spec d) as (Hw & Hr & Hb).
  exists d, (nearest_weekday_before d). split_and!; try done; try lia.
  intros H0. unfold nearest_weekday_before. by rewrite H0.
Qed.

(** X2. On a text that [strptime] reads, [get_previous_business_day]
    raises only for the first day of the calendar, whose day before does
    not exist, and then it raises [OverflowError]; on any later day it
    returns the text of some earlier day. A text that [strptime] refuses
    raises what [strptime] raises. *)
Theorem previous_business_day_errors date_str :
  match strptime date_str with
  | OK d =>
      if d <=? 1
      then get_previous_business_day strptime strftime date_str
           = Raise OverflowError
      else exists p, p < d /\
           get_previous_business_day strptime strftime date_str
           = OK (strftime p)
  | Raise e =>
      get_previous_business_day strptime strftime date_str = Raise e
  end.
Proof.
  rewrite get_previous_business_day_eq.
  destruct (strptime date_str) as [d|e]; [|done].
  destruct (d <=? 1); [done|].
  exists (nearest_weekday_before d). split; [|done].
  pose proof (nearest_weekday_before_spec d) as (_ & Hr & _). lia.
Qed.

End PreviousBusinessDay.

(** The business day before Monday 738956 is Friday 738953. *)
Lemma previous_business_day_witness :
  exists d p,
    toy_strptime day_738956 = OK d /\ [738953%N] = toy_strftime p /\
    weekday p < 5 /\ d - 3 <= p < d /\
    (forall q, p < q < d -> 5 <= weekday q) /\
    (weekday d = 0 -> p = d - 3).
Proof.
  apply (previous_business_day_is_nearest_weekday toy_strptime toy_strftime
           day_738956 [738953%N]).
  reflexivity.
Defined.

(** ** The backward search *)

Section SearchFacts.

Variable strptime : str -> result Z.
Variable strftime : Z -> str.
Variable roc_text : Z -> str.
Variable session_get : str -> http_outcome.

Local Abbreviation date_to_roc_format := (date_to_roc_format strptime roc_text).
Local Abbreviation get_previous_business_day :=
  (get_previous_business_day strptime strftime).
Local Abbreviation business_days_back :=
  (business_days_back strptime strftime).
Local Abbreviation download_pcf_excel := (download_pcf_excel session_get).
Local Abbreviation search_back :=
  (search_back strptime strftime roc_text session_get).
Local Abbreviation find_and_download_previous_day :=
  (find_and_download_previous_day strptime strftime roc_text session_get).
Local Abbreviation attempts_fail :=
  (attempts_fail strptime strftime roc_text session_get).

Lemma download_pcf_excel_Some fund_code roc_date content :
  download_pcf_excel fund_code roc_date = Some content <->
  session_get (url_of fund_code roc_date) = Response true content /\
  (1000 <= length content)%nat.
Proof.
  unfold Pipeline.download_pcf_excel.
  destruct (session_get (url_of fund_code roc_date)) as [|ok body].
  - split; [discriminate|]. by intros [? _].
  - destruct ok; cbn [negb].
    + destruct (Nat.ltb_spec (length body) 1000) as [Hlt|Hge].
      * split; [discriminate|]. intros [[= ->] ?]. lia.
      * split; [by intros [= ->]|]. by intros [[= ->] _].
    + split; [discriminate|]. by intros [? _].
Qed.

Lemma search_back_Some fund_code a n current_date content log :
  search_back fund_code (seq a n) current_date = (OK (Some content), log) ->
  exists k prev_date roc_prev_date,
    (k < n)%nat /\
    attempts_fail fund_code k current_date /\
    business_days_back (S k) current_date = OK prev_date /\
    date_to_roc_format prev_date = OK roc_prev_date /\
    download_pcf_excel fund_code roc_prev_date = Some content /\
    quiet log /\
    attempt_numbers log = seq (S a) (S k) /\
    last log = Some (Print (L_attempt (a + k + 1) prev_date roc_prev_date)).
Proof.
  revert a current_date log.
  induction n as [|n IH]; intros a current_date log Hs; [discriminate|].
  cbn [seq Pipeline.search_back] in Hs.
  destruct (get_previous_business_day current_date) as [prev_date|e]
    eqn:Hprev; cbn in Hs; [|discriminate].
  destruct (date_to_roc_format prev_date) as [roc|e] eqn:Hroc; cbn in Hs;
    [|discriminate].
  destruct (download_pcf_excel fund_code roc) as [body|] eqn:Hdown;
    cbn in Hs.
  - injection Hs as <- <-. exists 0%nat, prev_date, roc.
    split_and!; try done; try lia.
    + cbn [Backward.business_days_back]. by rewrite Hprev.
    + by repeat constructor.
    + cbn. do 2 f_equal. lia.
    + cbn. do 3 f_equal. lia.
  - destruct (search_back fund_code (seq (S a) n) prev_date)
      as [[[c|]|e] log'] eqn:Hrest; cbn in Hs; try discriminate.
    injection Hs as <- <-.
    destruct (IH _ _ _ Hrest)
      as (k & prev & roc' & Hk & Hfail & Hback & Hroc' & Hdown' & Hq & Hnum
          & Hlast).
    exists (S k), prev, roc'. split_and!; try done; try lia.
    + by exists prev_date, roc.
    + change (business_days_back (S (S k)) current_date)
        with (get_previous_business_day current_date
              ≫= business_days_back (S k)).
      by rewrite Hprev.
    + by constructor.
    + change (attempt_numbers (?ev :: log'))
        with ((a + 1)%nat :: attempt_numbers log').
      rewrite Hnum. replace (a + 1)%nat with (S a) by lia. reflexivity.
    + destruct log' as [|ev log']; [discriminate|].
      cbn [last] in *. rewrite Hlast. do 3 f_equal. lia.
Qed.

Lemma search_back_finds fund_code a n k current_date prev_date roc_prev_date
    content :
  (k < n)%nat ->
  attempts_fail fund_code k current_date ->
  business_days_back (S k) current_date = OK prev_date ->
  date_to_roc_format prev_date = OK roc_prev_date ->
  download_pcf_excel fund_code roc_prev_date = Some content ->
  fst (search_back fund_code (seq a n) current_date) = OK (Some content).
Proof.
  revert a n current_date.
  induction k as [|k IH]; intros a n current_date Hk Hfail Hback Hroc Hdown.
  - destruct n as [|n]; [lia|]. cbn [seq Pipeline.search_back].
    cbn [Backward.business_days_back] in Hback.
    destruct (get_previous_business_day current_date) as [p|e];
      [|discriminate].
    injection Hback as ->. cbn. rewrite Hroc. cbn. by rewrite Hdown.
  - destruct n as [|n]; [lia|]. cbn [seq Pipeline.search_back].
    destruct Hfail as (prev1 & roc1 & Hprev1 & Hroc1 & Hdown1 & Hfail).
    change (business_days_back (S (S k)) current_date)
      with (get_previous_business_day current_date
            ≫= business_days_back (S k)) in Hback.
    rewrite Hprev1 in Hback |- *. cbn in Hback |- *. rewrite Hroc1. cbn.
    rewrite Hdown1.
    specialize (IH (S a) n prev1 ltac:(lia) Hfail Hback Hroc Hdown).
    by destruct (search_back fund_code (seq (S a) n) prev1) as [[r|e] log'];
      cbn in IH |- *; [|discriminate].
Qed.

Lemma search_back_log fund_code a n current_date :
  quiet (snd (search_back fund_code (seq a n) current_date)) /\
  exists k,
    (k <= n)%nat /\
    attempt_numbers (snd (search_back fund_code (seq a n) current_date))
    = seq (S a) k /\
    (fst (search_back fund_code (seq a n) current_date) = OK None ->
     k = n) /\
    (fst (search_back fund_code (seq a n) current_date) = OK None <->
     Print L_exhausted ∈ snd (search_back fund_code (seq a n) current_date)).
Proof.
  revert a current_date. induction n as [|n IH]; intros a current_date.
  - cbn. split; [by repeat constructor|]. exists 0%nat.
    split_and!; try done. split; [intros _|done].
    by apply list_elem_of_singleton.
  - cbn [seq Pipeline.search_back].
    destruct (get_previous_business_day current_date) as [prev_date|e];
      cbn.
    2:{ split; [constructor|]. exists 0%nat. split_and!; try done; try lia.
        split; [done|]. by intros ?%elem_of_nil. }
    destruct (date_to_roc_format prev_date) as [roc|e]; cbn.
    2:{ split; [constructor|]. exists 0%nat. split_and!; try done; try lia.
        split; [done|]. by intros ?%elem_of_nil. }
    destruct (download_pcf_excel fund_code roc) as [body|]; cbn.
    { split; [by repeat constructor|]. exists 1%nat.
      split_and!; try done; try lia.
      - cbn. do 2 f_equal. lia.
      - split; [done|]. intros [?|?%elem_of_nil]%elem_of_cons; done. }
    destruct (IH (S a) prev_date) as (Hq & k & Hk & Hnum & Hall & Hex).
    destruct (search_back fund_code (seq (S a) n) prev_date)
      as [[r|e] log'] eqn:Hrest; cbn in *.
    + split; [by constructor|]. exists (S k). split_and!; try lia.
      * change (attempt_numbers (?ev :: log'))
          with ((a + 1)%nat :: attempt_numbers log').
        rewrite Hnum. cbn. f_equal. lia.
      * intros Hr. f_equal. by apply Hall.
      * rewrite Hex. split; [by right|].
        by intros [?|?]%elem_of_cons.
    + split; [by constructor|]. exists (S k). split_and!; try lia.
      * change (attempt_numbers (?ev :: log'))
          with ((a + 1)%nat :: attempt_numbers log').
        rewrite Hnum. cbn. f_equal. lia.
      * done.
      * split; [done|]. intros [?|?]%elem_of_cons; [done|].
        by apply Hex in H.
Qed.

(** X3. When the backward search returns a file, it is the body the
    server sent, with a good status and at least 1000 bytes, for the
    first business day before the requested date that has one: every
    earlier candidate was tried and failed, at most ten candidates are
    tried, the candidates are numbered from 1 in the lines printed, and
    no file is written. *)
Theorem search_returns_first_success fund_code date_str content log :
  find_and_download_previous_day fund_code date_str
  = (OK (Some content), log) ->
  exists k prev_date roc_prev_date,
    (k < max_attempts)%nat /\
    attempts_fail fund_code k date_str /\
    business_days_back (S k) date_str = OK prev_date /\
    date_to_roc_format prev_date = OK roc_prev_date /\
    session_get (url_of fund_code roc_prev_date) = Response true content /\
    (1000 <= length content)%nat /\
    quiet log /\
    attempt_numbers log = seq 1 (S k) /\
    last log = Some (Print (L_attempt (S k) prev_date roc_prev_date)).
Proof.
  intros Hs. apply search_back_Some in Hs
    as (k & prev & roc & Hk & Hfail & Hback & Hroc & Hdown & Hq & Hnum
        & Hlast).
  apply download_pcf_excel_Some in Hdown as [Hget Hlen].
  exists k, prev, roc. split_and!; try done.
  rewrite Hlast. do 3 f_equal. lia.
Qed.

(** X4. The search does not miss a file: when the first [k] candidates
    fail, [k] being under ten, and the server has a file for the next
    candidate, the search returns that file. *)
Theorem search_finds_first_success fund_code date_str k prev_date
    roc_prev_date content :
  (k < max_attempts)%nat ->
  attempts_fail fund_code k date_str ->
  business_days_back (S k) date_str = OK prev_date ->
  date_to_roc_format prev_date = OK roc_prev_date ->
  session_get (url_of fund_code roc_prev_date) = Response true content ->
  (1000 <= length content)%nat ->
  fst (find_and_download_previous_day fund_code date_str)
  = OK (Some content).
Proof.
  intros Hk Hfail Hback Hroc Hget Hlen.
  apply (search_back_finds fund_code 0 max_attempts k date_str prev_date
           roc_prev_date content Hk Hfail Hback Hroc).
  by apply download_pcf_excel_Some.
Qed.

(** X5. Whatever the outcome, the search writes no file and prints at
    most ten attempt lines, numbered 1, 2, ... in the order printed; it
    prints the closing line exactly when it returns without a file, and
    then all ten attempts were made. *)
Theorem search_log_shape fund_code date_str :
  quiet (snd (find_and_download_previous_day fund_code date_str)) /\
  exists k,
    (k <= max_attempts)%nat /\
    attempt_numbers (snd (find_and_download_previous_day fund_code date_str))
    = seq 1 k /\
    (fst (find_and_download_previous_day fund_code date_str) = OK None ->
     k = max_attempts) /\
    (fst (find_and_download_previous_day fund_code date_str) = OK None <->
     Print L_exhausted
     ∈ snd (find_and_download_previous_day fund_code date_str)).
Proof. apply (search_back_log fund_code 0 max_attempts date_str). Qed.

End SearchFacts.

(** From Thursday 738959 the third candidate, Monday 738956, is the
    first one with a file. *)
Lemma search_returns_first_success_witness :
  exists k prev_date roc_prev_date,
    (k < max_attempts)%nat /\
    attempts_fail toy_strptime toy_strftime toy_strftime server_monday
      fund_49YTW k day_738959 /\
    business_days_back toy_strptime toy_strftime (S k) day_738959
    = OK prev_date /\
    date_to_roc_format toy_strptime toy_strftime prev_date
    = OK roc_prev_date /\
    server_monday (url_of fund_49YTW roc_prev_date)
    = Response true big_body /\
    (1000 <= length big_body)%nat /\
    quiet [Print (L_attempt 1 [738958%N] [738958%N]);
           Print (L_attempt 2 [738957%N] [738957%N]);
           Print (L_attempt 3 [738956%N] [738956%N])] /\
    attempt_numbers [Print (L_attempt 1 [738958%N] [738958%N]);
                     Print (L_attempt 2 [738957%N] [738957%N]);
                     Print (L_attempt 3 [738956%N] [738956%N])]
    = seq 1 (S k) /\
    last [Print (L_attempt 1 [738958%N] [738958%N]);
          Print (L_attempt 2 [738957%N] [738957%N]);
          Print (L_attempt 3 [738956%N] [738956%N])]
    = Some (Print (L_attempt (S k) prev_date roc_prev_date)).
Proof.
  apply (search_returns_first_success toy_strptime toy_strftime toy_strftime
           server_monday fund_49YTW day_738959 big_body).
  vm_compute. reflexivity.
Defined.

Lemma search_finds_first_success_witness :
  fst (find_and_download_previous_day toy_strptime toy_strftime toy_strftime
         server_monday fund_49YTW day_738959)
  = OK (Some big_body).
Proof.
  apply (search_finds_first_success toy_strptime toy_strftime toy_strftime
           server_monday fund_49YTW day_738959 2 day_738956 day_738956
           big_body).
  - unfold max_attempts. lia.
  - repeat (eexists; eexists;
            split; [vm_compute; reflexivity|];
            split; [vm_compute; reflexivity|];
            split; [vm_compute; reflexivity|]).
    exact I.
  - vm_compute. reflexivity.
  - reflexivity.
  - vm_compute. reflexivity.
  - vm_compute. lia.
Defined.

(** ** [process] and [main] *)

Lemma writes_app l1 l2 : writes (l1 ++ l2) = writes l1 ++ writes l2.
Proof. apply List.filter_app. Qed.

Lemma writes_quiet log : quiet log -> writes log = [].
Proof.
  induction 1 as [|ev log Hev _ IH]; [done|].
  unfold writes in *. cbn. by rewrite Hev.
Qed.

Ltac same_events :=
  cbn -[py]; f_equal; repeat (rewrite <- app_assoc; cbn [app]); reflexivity.

Section ProcessFacts.

Variable strptime : str -> result Z.
Variable strftime : Z -> str.
Variable roc_text : Z -> str.
Variable session_get : str -> http_outcome.
Variable read_excel : bytes -> result DataFrame.
Variable re_digit : char -> bool.
Variable isdigit_char : char -> bool.
Variable py_int : str -> result Z.
Variable py_float : str -> result float.
Variable set_iter : gset str -> list str.
Variable store_text : str -> result xl_value.
Variable print_comparison_summary : list ComparisonRow -> result unit.

Local Abbreviation date_to_roc_format := (date_to_roc_format strptime roc_text).
Local Abbreviation download_pcf_excel := (download_pcf_excel session_get).
Local Abbreviation find_and_download_previous_day :=
  (find_and_download_previous_day strptime strftime roc_text session_get).
Local Abbreviation parse_file :=
  (parse_file read_excel re_digit isdigit_char py_int py_float).
Local Abbreviation save_comparison_result :=
  (save_comparison_result store_text).
Local Abbreviation analyse :=
  (analyse read_excel re_digit isdigit_char py_int py_float set_iter
           store_text print_comparison_summary).
Local Abbreviation process :=
  (process strptime strftime roc_text session_get read_excel re_digit
           isdigit_char py_int py_float set_iter store_text
           print_comparison_summary).
Local Abbreviation main :=
  (main strptime strftime roc_text session_get read_excel re_digit
        isdigit_char py_int py_float set_iter store_text
        print_comparison_summary).

(** The body of the [try], outcome by outcome. *)
Lemma analyse_cases current prev date fund_code :
  analyse current prev date fund_code =
  match parse_file current with
  | Raise e => (Raise e, [])
  | OK current_df =>
      match parse_file prev with
      | Raise e => (Raise e, [])
      | OK previous_df =>
          match compare_pcf_data set_iter current_df previous_df with
          | Raise e => (Raise e, [Print L_compare_start])
          | OK comparison_df =>
              match save_comparison_result comparison_df with
              | Raise e =>
                  (Raise e,
                   [Print L_compare_start;
                    WriteFailed (output_filepath date fund_code)])
              | OK ws =>
                  let saved :=
                    [Print L_compare_start;
                     WriteFile (output_filepath date fund_code) ws] in
                  match print_comparison_summary comparison_df with
                  | Raise e => (Raise e, saved)
                  | OK _ =>
                      (OK (Some (output_filepath date fund_code)), saved)
                  end
              end
          end
      end
  end.
Proof.
  unfold Pipeline.analyse.
  destruct (parse_file current) as [current_df|e]; [|reflexivity].
  destruct (parse_file prev) as [previous_df|e]; [|reflexivity].
  cbn [io_bind io_lift emit app].
  destruct (compare_pcf_data set_iter current_df previous_df)
    as [comparison_df|e]; [|reflexivity].
  cbn [io_bind io_lift emit app].
  destruct (save_comparison_result comparison_df) as [ws|e]; [|reflexivity].
  cbn [save io_bind io_lift emit app].
  by destruct (print_comparison_summary comparison_df) as [[]|e].
Qed.

(** The exit code and the events of [main], outcome by outcome. *)
Lemma main_cases date fund_code :
  main date fund_code =
  match date_to_roc_format date with
  | Raise e => (1, [MakeDirs (py "output"); Print (L_error e)])
  | OK roc_date =>
      match download_pcf_excel fund_code roc_date with
      | None =>
          (1, [MakeDirs (py "output"); Print (L_date date roc_date);
               Print (L_error RuntimeException)])
      | Some current =>
          let started :=
            [MakeDirs (py "output"); Print (L_date date roc_date);
             Print L_search_start]
            ++ snd (find_and_download_previous_day fund_code date) in
          match fst (find_and_download_previous_day fund_code date) with
          | Raise e => (1, started ++ [Print (L_error e)])
          | OK None =>
              (0, started ++ [Print L_warn_no_previous;
                              Print L_result_header; Print L_result_none])
          | OK (Some prev) =>
              (0, started ++ [Print L_parse_start]
                  ++ snd (analyse current prev date fund_code)
                  ++ closing_lines (fst (analyse current prev date fund_code)))
          end
      end
  end.
Proof.
  unfold Pipeline.main, Pipeline.process.
  destruct (date_to_roc_format date) as [roc_date|e]; [|reflexivity].
  cbn [io_bind io_lift emit].
  destruct (download_pcf_excel fund_code roc_date) as [current|];
    [|reflexivity].
  destruct (find_and_download_previous_day fund_code date)
    as [[[prev|]|e] slog]; cbn [io_bind io_lift emit fst snd].
  - destruct (analyse current prev date fund_code) as [[[path|]|e] alog];
      same_events.
  - same_events.
  - same_events.
Qed.

Lemma writes_search fund_code date :
  writes (snd (find_and_download_previous_day fund_code date)) = [].
Proof.
  apply writes_quiet.
  apply (search_back_log strptime strftime roc_text session_get fund_code 0
           max_attempts date).
Qed.

(** X6. The exit code is decided before the two files are read: it is 1
    when the requested date does not convert, when its file is not
    retrieved, or when the backward search raises, and 0 in every other
    case, whatever the reading, the comparison, the saving and the
    summary do. *)
Theorem exit_code_ignores_the_analysis date fund_code :
  fst (main date fund_code) =
  match date_to_roc_format date with
  | Raise _ => 1
  | OK roc_date =>
      match download_pcf_excel fund_code roc_date with
      | None => 1
      | Some _ =>
          match fst (find_and_download_previous_day fund_code date) with
          | Raise _ => 1
          | OK _ => 0
          end
      end
  end.
Proof.
  rewrite main_cases.
  destruct (date_to_roc_format date) as [roc_date|e]; [|reflexivity].
  destruct (download_pcf_excel fund_code roc_date) as [current|];
    [|reflexivity].
  by destruct (fst (find_and_download_previous_day fund_code date))
    as [[prev|]|e].
Qed.

Lemma main_retrieved date fund_code roc_date current prev slog :
  date_to_roc_format date = OK roc_date ->
  download_pcf_excel fund_code roc_date = Some current ->
  find_and_download_previous_day fund_code date = (OK (Some prev), slog) ->
  writes slog = [] /\
  main date fund_code =
  (0, [MakeDirs (py "output"); Print (L_date date roc_date);
       Print L_search_start]
      ++ slog ++ [Print L_parse_start]
      ++ snd (analyse current prev date fund_code)
      ++ closing_lines (fst (analyse current prev date fund_code))).
Proof.
  intros Hroc Hdown Hfind. split.
  - pose proof (writes_search fund_code date) as Hw. by rewrite Hfind in Hw.
  - rewrite main_cases, Hroc, Hdown, Hfind. cbn [fst snd].
    by rewrite <- app_assoc.
Qed.

(** X7. When both files are retrieved, read and compared, the writer
    returns the highlighted sheet of the comparison and the summary is
    printed, [main] ends with exit code 0, writes exactly one file, that
    sheet at the path built from the fund code and the date, and its
    last line names that path. *)
Theorem report_is_written_and_announced date fund_code roc_date current
    prev slog current_df previous_df comparison_df ws :
  date_to_roc_format date = OK roc_date ->
  download_pcf_excel fund_code roc_date = Some current ->
  find_and_download_previous_day fund_code date = (OK (Some prev), slog) ->
  parse_file current = OK current_df ->
  parse_file prev = OK previous_df ->
  compare_pcf_data set_iter current_df previous_df = OK comparison_df ->
  save_comparison_result comparison_df = OK ws ->
  print_comparison_summary comparison_df = OK tt ->
  fst (main date fund_code) = 0 /\
  writes (snd (main date fund_code))
  = [WriteFile (output_filepath date fund_code) ws] /\
  last (snd (main date fund_code))
  = Some (Print (L_result_file (output_filepath date fund_code))).
Proof.
  intros Hroc Hdown Hfind Hcur Hprev Hcmp Hsave Hsum.
  destruct (main_retrieved _ _ _ _ _ _ Hroc Hdown Hfind) as [Hw ->].
  rewrite analyse_cases, Hcur, Hprev, Hcmp, Hsave. cbn zeta. rewrite Hsum.
  cbn [fst snd closing_lines]. split_and!; [done| |].
  - rewrite !writes_app, Hw. reflexivity.
  - rewrite !last_app. reflexivity.
Qed.

(** X8. When both files are retrieved and reading one of them or
    comparing them raises, the exception is caught: [main] ends with exit
    code 0, writes no file, prints the failure with the exception, and
    its last line says that no result file was produced. *)
Theorem failed_analysis_writes_nothing date fund_code roc_date current prev
    slog e :
  date_to_roc_format date = OK roc_date ->
  download_pcf_excel fund_code roc_date = Some current ->
  find_and_download_previous_day fund_code date = (OK (Some prev), slog) ->
  parse_file current = Raise e \/
  (exists current_df,
     parse_file current = OK current_df /\ parse_file prev = Raise e) \/
  (exists current_df previous_df,
     parse_file current = OK current_df /\
     parse_file prev = OK previous_df /\
     compare_pcf_data set_iter current_df previous_df = Raise e) ->
  fst (main date fund_code) = 0 /\
  writes (snd (main date fund_code)) = [] /\
  Print (L_failed e) ∈ snd (main date fund_code) /\
  last (snd (main date fund_code)) = Some (Print L_result_none).
Proof.
  intros Hroc Hdown Hfind Hfail.
  destruct (main_retrieved _ _ _ _ _ _ Hroc Hdown Hfind) as [Hw ->].
  assert (exists alog,
            analyse current prev date fund_code = (Raise e, alog) /\
            writes alog = []) as (alog & -> & Ha).
  { rewrite analyse_cases.
    destruct Hfail as [->|[(cdf & -> & ->)|(cdf & pdf & -> & -> & ->)]];
      by eexists. }
  cbn [fst snd closing_lines]. split_and!; [done| | |].
  - rewrite !writes_app, Hw, Ha. reflexivity.
  - rewrite !elem_of_app. do 4 right. apply elem_of_cons. by left.
  - rewrite !last_app. reflexivity.
Qed.

(** X9. When the writer has returned the sheet and the summary raises,
    the file has already been saved: [main] ends with exit code 0 and
    the report is on disk, yet the failure is printed and the last line
    says that no result file was produced. *)
Theorem failed_summary_leaves_the_file date fund_code roc_date current prev
    slog current_df previous_df comparison_df ws e :
  date_to_roc_format date = OK roc_date ->
  download_pcf_excel fund_code roc_date = Some current ->
  find_and_download_previous_day fund_code date = (OK (Some prev), slog) ->
  parse_file current = OK current_df ->
  parse_file prev = OK previous_df ->
  compare_pcf_data set_iter current_df previous_df = OK comparison_df ->
  save_comparison_result comparison_df = OK ws ->
  print_comparison_summary comparison_df = Raise e ->
  fst (main date fund_code) = 0 /\
  writes (snd (main date fund_code))
  = [WriteFile (output_filepath date fund_code) ws] /\
  Print (L_failed e) ∈ snd (main date fund_code) /\
  last (snd (main date fund_code)) = Some (Print L_result_none).
Proof.
  intros Hroc Hdown Hfind Hcur Hprev Hcmp Hsave Hsum.
  destruct (main_retrieved _ _ _ _ _ _ Hroc Hdown Hfind) as [Hw ->].
  rewrite analyse_cases, Hcur, Hprev, Hcmp, Hsave. cbn zeta. rewrite Hsum.
  cbn [fst snd closing_lines]. split_and!; [done| | |].
  - rewrite !writes_app, Hw. reflexivity.
  - rewrite !elem_of_app. do 4 right. apply elem_of_cons. by left.
  - rewrite !last_app. reflexivity.
Qed.

(** X10. [main] touches at most one file, the one at the path built from
    the fund code and the date, and only after two retrieved files were
    both read and compared; the exit code is then 0. Either no file is
    written; or the writer returned and the file holds the highlighted
    sheet of the comparison; or the writer raised, and then the file is
    left as the writer left it, the failure is printed with the
    exception and the last line says that no result file was
    produced. *)
Theorem main_writes_at_most_the_report date fund_code :
  writes (snd (main date fund_code)) = [] \/
  exists roc_date current prev current_df previous_df comparison_df,
    date_to_roc_format date = OK roc_date /\
    download_pcf_excel fund_code roc_date = Some current /\
    fst (find_and_download_previous_day fund_code date) = OK (Some prev) /\
    parse_file current = OK current_df /\
    parse_file prev = OK previous_df /\
    compare_pcf_data set_iter current_df previous_df = OK comparison_df /\
    fst (main date fund_code) = 0 /\
    match save_comparison_result comparison_df with
    | OK ws =>
        writes (snd (main date fund_code))
        = [WriteFile (output_filepath date fund_code) ws]
    | Raise e =>
        writes (snd (main date fund_code))
        = [WriteFailed (output_filepath date fund_code)] /\
        Print (L_failed e) ∈ snd (main date fund_code) /\
        last (snd (main date fund_code)) = Some (Print L_result_none)
    end.
Proof.
  rewrite main_cases.
  destruct (date_to_roc_format date) as [roc_date|e]; [|by left].
  destruct (download_pcf_excel fund_code roc_date) as [current|] eqn:Hdown;
    [|by left].
  pose proof (writes_search fund_code date) as Hw.
  destruct (find_and_download_previous_day fund_code date)
    as [[[prev|]|e] slog]; cbn [fst snd] in *; cbn zeta.
  3:{ left. rewrite !writes_app, Hw. reflexivity. }
  2:{ left. rewrite !writes_app, Hw. reflexivity. }
  rewrite analyse_cases.
  destruct (parse_file current) as [current_df|e] eqn:Hcur.
  2:{ left. cbn [fst snd closing_lines]. rewrite !writes_app, Hw.
      reflexivity. }
  destruct (parse_file prev) as [previous_df|e] eqn:Hprev.
  2:{ left. cbn [fst snd closing_lines]. rewrite !writes_app, Hw.
      reflexivity. }
  destruct (compare_pcf_data set_iter current_df previous_df)
    as [comparison_df|e] eqn:Hcmp.
  2:{ left. cbn [fst snd closing_lines]. rewrite !writes_app, Hw.
      reflexivity. }
  right. exists roc_date, current, prev, current_df, previous_df,
    comparison_df.
  split_and!; try done.
  destruct (save_comparison_result comparison_df) as [ws|e].
  - cbn zeta.
    destruct (print_comparison_summary comparison_df) as [[]|e];
      cbn [fst snd closing_lines]; rewrite !writes_app, Hw; reflexivity.
  - cbn [fst snd closing_lines]. split_and!.
    + rewrite !writes_app, Hw. reflexivity.
    + rewrite !elem_of_app. do 3 right. apply elem_of_cons. by left.
    + rewrite !last_app. reflexivity.
Qed.

(** X25. When both files are retrieved, read and compared and the writer
    raises, the exception is caught: [main] ends with exit code 0, the
    one file it touched is left as the writer left it, without
    highlights, the failure is printed with the exception, the summary
    is not printed, and the last line says that no result file was
    produced. *)
Theorem failed_writer_leaves_a_broken_file date fund_code roc_date current
    prev slog current_df previous_df comparison_df e :
  date_to_roc_format date = OK roc_date ->
  download_pcf_excel fund_code roc_date = Some current ->
  find_and_download_previous_day fund_code date = (OK (Some prev), slog) ->
  parse_file current = OK current_df ->
  parse_file prev = OK previous_df ->
  compare_pcf_data set_iter current_df previous_df = OK comparison_df ->
  save_comparison_result comparison_df = Raise e ->
  main date fund_code
  = (0, [MakeDirs (py "output"); Print (L_date date roc_date);
         Print L_search_start]
        ++ slog
        ++ [Print L_parse_start; Print L_compare_start;
            WriteFailed (output_filepath date fund_code);
            Print (L_failed e); Print L_result_header;
            Print L_result_none]) /\
  writes (snd (main date fund_code))
  = [WriteFailed (output_filepath date fund_code)].
Proof.
  intros Hroc Hdown Hfind Hcur Hprev Hcmp Hsave.
  destruct (main_retrieved _ _ _ _ _ _ Hroc Hdown Hfind) as [Hw ->].
  rewrite analyse_cases, Hcur, Hprev, Hcmp, Hsave.
  cbn [fst snd closing_lines]. split; [done|].
  rewrite !writes_app, Hw. reflexivity.
Qed.

End ProcessFacts.

(** ** [main] on the example servers *)

Lemma report_is_written_and_announced_witness :
  fst (main toy_strptime toy_strftime toy_strftime server_up sheet_reader
         ascii_digit ascii_digit ascii_int ascii_float elements plain_text
         no_summary day_738959 fund_49YTW) = 0 /\
  writes (snd (main toy_strptime toy_strftime toy_strftime server_up
                 sheet_reader ascii_digit ascii_digit ascii_int ascii_float
                 elements plain_text no_summary day_738959 fund_49YTW))
  = [WriteFile (output_filepath day_738959 fund_49YTW) steady_report] /\
  last (snd (main toy_strptime toy_strftime toy_strftime server_up
               sheet_reader ascii_digit ascii_digit ascii_int ascii_float
               elements plain_text no_summary day_738959 fund_49YTW))
  = Some (Print (L_result_file (output_filepath day_738959 fund_49YTW))).
Proof.
  apply (report_is_written_and_announced toy_strptime toy_strftime
           toy_strftime server_up sheet_reader ascii_digit ascii_digit
           ascii_int ascii_float elements plain_text no_summary day_738959
           fund_49YTW day_738959 big_body big_body
           [Print (L_attempt 1 [738958%N] [738958%N])]
           example_table example_table steady_frame steady_report);
    vm_compute; reflexivity.
Defined.

Lemma failed_analysis_writes_nothing_witness :
  fst (main toy_strptime toy_strftime toy_strftime server_up no_frame
         ascii_digit ascii_digit ascii_int ascii_float elements plain_text
         no_summary day_738959 fund_49YTW) = 0 /\
  writes (snd (main toy_strptime toy_strftime toy_strftime server_up
                 no_frame ascii_digit ascii_digit ascii_int ascii_float
                 elements plain_text no_summary day_738959 fund_49YTW))
  = [] /\
  Print (L_failed ValueError)
  ∈ snd (main toy_strptime toy_strftime toy_strftime server_up no_frame
           ascii_digit ascii_digit ascii_int ascii_float elements plain_text
           no_summary day_738959 fund_49YTW) /\
  last (snd (main toy_strptime toy_strftime toy_strftime server_up no_frame
               ascii_digit ascii_digit ascii_int ascii_float elements
               plain_text no_summary day_738959 fund_49YTW))
  = Some (Print L_result_none).
Proof.
  apply (failed_analysis_writes_nothing toy_strptime toy_strftime
           toy_strftime server_up no_frame ascii_digit ascii_digit
           ascii_int ascii_float elements plain_text no_summary day_738959
           fund_49YTW day_738959 big_body big_body
           [Print (L_attempt 1 [738958%N] [738958%N])] ValueError).
  - vm_compute. reflexivity.
  - vm_compute. reflexivity.
  - vm_compute. reflexivity.
  - left. reflexivity.
Defined.

Lemma failed_summary_leaves_the_file_witness :
  fst (main toy_strptime toy_strftime toy_strftime server_up sheet_reader
         ascii_digit ascii_digit ascii_int ascii_float elements plain_text
         failing_summary day_738959 fund_49YTW) = 0 /\
  writes (snd (main toy_strptime toy_strftime toy_strftime server_up
                 sheet_reader ascii_digit ascii_digit ascii_int ascii_float
                 elements plain_text failing_summary day_738959 fund_49YTW))
  = [WriteFile (output_filepath day_738959 fund_49YTW) steady_report] /\
  Print (L_failed ValueError)
  ∈ snd (main toy_strptime toy_strftime toy_strftime server_up sheet_reader
           ascii_digit ascii_digit ascii_int ascii_float elements plain_text
           failing_summary day_738959 fund_49YTW) /\
  last (snd (main toy_strptime toy_strftime toy_strftime server_up
               sheet_reader ascii_digit ascii_digit ascii_int ascii_float
               elements plain_text failing_summary day_738959 fund_49YTW))
  = Some (Print L_result_none).
Proof.
  apply (failed_summary_leaves_the_file toy_strptime toy_strftime
           toy_strftime server_up sheet_reader ascii_digit ascii_digit
           ascii_int ascii_float elements plain_text failing_summary
           day_738959 fund_49YTW day_738959 big_body big_body
           [Print (L_attempt 1 [738958%N] [738958%N])]
           example_table example_table steady_frame steady_report
           ValueError);
    vm_compute; reflexivity.
Defined.

(** The same number of [10 ^ 309] shares on both days: the comparison
    returns, the writer raises [OverflowError], and [main] leaves the
    file and ends with exit code 0. *)
Lemma failed_writer_witness :
  main toy_strptime toy_strftime toy_strftime server_up huge_reader
       ascii_digit ascii_digit ascii_int ascii_float elements plain_text
       no_summary day_738959 fund_49YTW
  = (0, [MakeDirs (py "output");
         Print (L_date day_738959 day_738959); Print L_search_start]
        ++ [Print (L_attempt 1 [738958%N] [738958%N])]
        ++ [Print L_parse_start; Print L_compare_start;
            WriteFailed (output_filepath day_738959 fund_49YTW);
            Print (L_failed OverflowError); Print L_result_header;
            Print L_result_none]) /\
  writes (snd (main toy_strptime toy_strftime toy_strftime server_up
                 huge_reader ascii_digit ascii_digit ascii_int ascii_float
                 elements plain_text no_summary day_738959 fund_49YTW))
  = [WriteFailed (output_filepath day_738959 fund_49YTW)].
Proof.
  apply (failed_writer_leaves_a_broken_file toy_strptime toy_strftime
           toy_strftime server_up huge_reader ascii_digit ascii_digit
           ascii_int ascii_float elements plain_text no_summary day_738959
           fund_49YTW day_738959 big_body big_body
           [Print (L_attempt 1 [738958%N] [738958%N])]
           [mkHolding code_2330 [84; 83; 77; 67]%N (10 ^ 309)
                      (decimal 55 10)]
           [mkHolding code_2330 [84; 83; 77; 67]%N (10 ^ 309)
                      (decimal 55 10)]
           [mkRow code_2330 [84; 83; 77; 67]%N (10 ^ 309) (decimal 55 10)
                  (10 ^ 309) (decimal 55 10) 0 (DFloat zero) zero]
           OverflowError);
    vm_compute; reflexivity.
Defined.

(** ** More on the comparison frame *)

Lemma compare_code_name_and_weight cd pd c row :
  compare_code cd pd c = OK row ->
  r_name row = name_in cd pd c /\
  r_weight_delta_pct row = round2 (sub (r_weight row) (r_prev_weight row)).
Proof.
  unfold compare_code, name_in. intros H.
  destruct (cd !! c) as [h|], (pd !! c) as [p|]; cbn in H;
    try discriminate;
    match type of H with
    | context [shares_change_of ?a ?b] =>
        destruct (shares_change_of a b) as [sc|e]; cbn in H;
        [|discriminate];
        destruct (display_of sc a b) as [d delta]; by injection H as <-
    end.
Qed.

Lemma sub_diag_finite x : is_finite x = true -> sub x x = zero.
Proof.
  destruct x as [[]| | |s m e]; try done. intros _.
  unfold sub, SFsub. by rewrite Z.sub_diag.
Qed.

Lemma build_dict_perm df df' :
  NoDup (h_code <$> df) -> df ≡ₚ df' -> build_dict df = build_dict df'.
Proof.
  intros Hnd Hp. apply map_eq. intros c.
  assert (NoDup (h_code <$> df')) as Hnd' by by rewrite <- Hp.
  assert (forall l l' h, NoDup (h_code <$> l') -> l ≡ₚ l' ->
            build_dict l !! c = Some h -> build_dict l' !! c = Some h)
    as Hone.
  { intros l l' h Hl' Hll' Hh.
    apply build_dict_lookup_code in Hh as [<- Hin].
    rewrite Hll' in Hin. apply list_elem_of_split in Hin as (l1 & l2 & ->).
    apply build_dict_last_wins.
    rewrite fmap_app, fmap_cons in Hl'.
    apply NoDup_app in Hl' as (_ & _ & Hl2).
    by apply NoDup_cons in Hl2 as [Hl2 _]. }
  destruct (build_dict df !! c) as [h|] eqn:Hc.
  - symmetry. by apply (Hone df df').
  - destruct (build_dict df' !! c) as [h'|] eqn:Hc'; [|done].
    apply (Hone df' df) in Hc'; [congruence|done|done].
Qed.

Lemma shares_change_of_same s :
  shares_change_of s s = OK (S754_zero (s <? 0)).
Proof.
  unfold shares_change_of, int_truediv. rewrite Z.sub_diag.
  by destruct s.
Qed.

Lemma display_of_same s :
  display_of (S754_zero (s <? 0)) s s = (DFloat (S754_zero (s <? 0)), 0).
Proof. unfold display_of. rewrite Z.sub_diag. by destruct s. Qed.

Section DeltaEngineMore.

Variable set_iter : gset str -> list str.
Hypothesis set_iter_perm : forall s, set_iter s ≡ₚ elements s.

Lemma compare_pcf_data_NoDup cur prev t :
  compare_pcf_data set_iter cur prev = OK t -> NoDup (r_code <$> t).
Proof using set_iter_perm.
  intros Ht.
  apply compare_pcf_data_inv in Ht as (rows & Hrows & _ & ->).
  rewrite (stable_sort_perm rows).
  rewrite (comparison_data_codes set_iter cur prev rows Hrows).
  by apply NoDup_set_iter.
Qed.

(** X11. In every row of a comparison the name is the one of today's
    table when it lists the code, else the one of the previous table; the
    weight change is the difference of the two weights rounded to two
    places; and the share-change column holds either the new-position
    label, with today's shares as absolute change, or a number, with the
    difference of the shares as absolute change. *)
Theorem comparison_row_fields cur prev t row :
  compare_pcf_data set_iter cur prev = OK t ->
  row ∈ t ->
  r_name row = name_in (build_dict cur) (build_dict prev) (r_code row) /\
  r_weight_delta_pct row = round2 (sub (r_weight row) (r_prev_weight row)) /\
  ((r_shares_delta_pct row = DStr label_new /\
    r_shares_delta row = r_shares row) \/
   (exists x, r_shares_delta_pct row = DFloat x /\
      r_shares_delta row = r_shares row - r_prev_shares row)).
Proof using set_iter_perm.
  intros Ht Hrow.
  apply (compare_pcf_data_rows set_iter set_iter_perm cur prev t row Ht)
    in Hrow as (c & _ & Hrow).
  destruct (compare_code_name_and_weight _ _ _ _ Hrow) as [Hname Hw].
  apply compare_code_inv
    in Hrow as (-> & -> & _ & -> & _ & sc & Hsc & Hd).
  split_and!; [done|done|].
  destruct (eqb sc inf) eqn:Hinf.
  - left. apply eqb_inf_iff in Hinf as ->. rewrite display_of_inf in Hd.
    by injection Hd as -> ->.
  - right. rewrite (display_of_numeric _ _ _ Hsc Hinf) in Hd.
    injection Hd as -> ->. by eexists.
Qed.

(** X12. When a table lists a code more than once, its last row for the
    code is the one compared: the row of the code carries the shares, the
    weight and the name of that last row, and the frame has no other row
    for the code. *)
Theorem duplicate_code_last_row_wins before h after prev t :
  compare_pcf_data set_iter (before ++ h :: after) prev = OK t ->
  h_code h ∉ h_code <$> after ->
  exists row,
    row ∈ t /\ r_code row = h_code h /\
    r_shares row = h_shares h /\ r_weight row = h_weight h /\
    r_name row = h_name h /\
    forall row', row' ∈ t -> r_code row' = h_code h -> row' = row.
Proof using set_iter_perm.
  intros Ht Hlast.
  pose proof (build_dict_last_wins before h after Hlast) as Hh.
  assert (h_code h ∈ all_stock_codes (before ++ h :: after) prev) as Hc.
  { unfold all_stock_codes. apply elem_of_union. left.
    apply elem_of_dom. by eexists. }
  destruct (compare_pcf_data_row_of_code set_iter set_iter_perm _ _ _ _
              Ht Hc) as (row & Hin & Hrow).
  exists row.
  destruct (compare_code_name_and_weight _ _ _ _ Hrow) as [Hname _].
  pose proof Hrow as Hrow'.
  apply compare_code_inv in Hrow' as (Hcode & Hs & Hw & _).
  unfold name_in in Hname.
  unfold shares_in in Hs. unfold weight_in in Hw. rewrite Hh in *.
  split_and!; try done.
  intros row' Hin' Hcode'.
  apply (compare_pcf_data_rows set_iter set_iter_perm _ _ _ _ Ht)
    in Hin' as (c & _ & Hrow'').
  pose proof Hrow'' as Hc'. apply compare_code_inv in Hc' as [Hc' _].
  rewrite Hcode' in Hc'. subst c. congruence.
Qed.

(** X13. Comparing a table with itself reports no change: every row has
    the same shares and weight on both sides, absolute change 0, a
    percentage of zero and never a label, and a weight change of 0.0
    when its weight is finite. It raises only on the empty table. *)
Theorem self_comparison_reports_no_change df :
  match compare_pcf_data set_iter df df with
  | OK t =>
      Forall (fun row =>
                r_prev_shares row = r_shares row /\
                r_prev_weight row = r_weight row /\
                r_shares_delta row = 0 /\
                r_shares_delta_pct row
                = DFloat (S754_zero (r_shares row <? 0)) /\
                (is_finite (r_weight row) = true ->
                 r_weight_delta_pct row = zero))
             t
  | Raise e => e = KeyError /\ df = []
  end.
Proof using set_iter_perm.
  destruct (compare_pcf_data set_iter df df) as [t|e] eqn:Ht.
  - apply Forall_forall. intros row Hrow.
    apply (compare_pcf_data_rows set_iter set_iter_perm _ _ _ _ Ht)
      in Hrow as (c & _ & Hrow).
    destruct (compare_code_name_and_weight _ _ _ _ Hrow) as [_ Hwd].
    apply compare_code_inv
      in Hrow as (_ & Hs & Hw & Hps & Hpw & sc & Hsc & Hd).
    rewrite shares_change_of_same in Hsc. injection Hsc as <-.
    rewrite display_of_same in Hd. injection Hd as Hpct Hdelta.
    rewrite Hwd, Hpct, Hdelta, Hs, Hw, Hps, Hpw.
    split_and!; try done. intros Hfin. by rewrite sub_diag_finite.
  - apply (compare_pcf_data_error set_iter set_iter_perm) in Ht
      as [(-> & -> & _)|(_ & c & _ & Hc)]; [done|].
    by rewrite shares_change_of_same in Hc.
Qed.

End DeltaEngineMore.

(** *** The order of the input rows and of the set *)

Lemma compare_pcf_data_other_order (set_iter set_iter' : gset str -> list str)
    cur prev t :
  (forall s, set_iter s ≡ₚ elements s) ->
  (forall s, set_iter' s ≡ₚ elements s) ->
  compare_pcf_data set_iter cur prev = OK t ->
  exists t', compare_pcf_data set_iter' cur prev = OK t' /\ t ≡ₚ t'.
Proof.
  intros Hp Hp' Ht.
  destruct (compare_pcf_data set_iter' cur prev) as [t'|e'] eqn:Ht'.
  - exists t'. split; [done|]. apply NoDup_Permutation.
    + eapply NoDup_fmap_1, (compare_pcf_data_NoDup set_iter Hp), Ht.
    + eapply NoDup_fmap_1, (compare_pcf_data_NoDup set_iter' Hp'), Ht'.
    + intros row.
      rewrite (compare_pcf_data_rows set_iter Hp cur prev t row Ht).
      by rewrite (compare_pcf_data_rows set_iter' Hp' cur prev t' row Ht').
  - exfalso.
    apply (compare_pcf_data_error set_iter' Hp') in Ht'
      as [(_ & -> & ->)|(_ & c & Hc & Hraise)].
    + apply compare_pcf_data_inv in Ht as (rows & Hrows & Hne & _).
      apply comparison_data_codes in Hrows.
      destruct rows as [|row rows]; [done|].
      assert (r_code row ∈ set_iter (all_stock_codes [] [])) as Hin
        by (rewrite <- Hrows; apply elem_of_cons; by left).
      apply (elem_of_set_iter set_iter Hp) in Hin.
      by rewrite all_stock_codes_union in Hin.
    + destruct (compare_pcf_data_row set_iter Hp cur prev t c Ht Hc)
        as (row & sc & _ & _ & Hsc & _).
      congruence.
Qed.

Section RowOrder.

Variable set_iter set_iter' : gset str -> list str.
Hypothesis set_iter_perm : forall s, set_iter s ≡ₚ elements s.
Hypothesis set_iter_perm' : forall s, set_iter' s ≡ₚ elements s.

(** X14. The comparison depends neither on the order of the rows of the
    two tables, when no table lists a code twice, nor on the order in
    which the set of codes is iterated: two runs raise the same
    exception, or return the same rows, up to the order of the rows. *)
Theorem comparison_ignores_row_order cur cur' prev prev' :
  NoDup (h_code <$> cur) -> NoDup (h_code <$> prev) ->
  cur ≡ₚ cur' -> prev ≡ₚ prev' ->
  match compare_pcf_data set_iter cur prev,
        compare_pcf_data set_iter' cur' prev' with
  | OK t, OK t' => t ≡ₚ t'
  | Raise e, Raise e' => e = e'
  | _, _ => False
  end.
Proof using set_iter_perm set_iter_perm'.
  intros Hnc Hnp Hc Hp.
  assert (compare_pcf_data set_iter' cur' prev'
          = compare_pcf_data set_iter' cur prev) as ->.
  { unfold compare_pcf_data, comparison_data, all_stock_codes.
    by rewrite (build_dict_perm cur cur' Hnc Hc),
      (build_dict_perm prev prev' Hnp Hp). }
  destruct (compare_pcf_data set_iter cur prev) as [t|e] eqn:Ht.
  - destruct (compare_pcf_data_other_order set_iter set_iter' cur prev t
                set_iter_perm set_iter_perm' Ht) as (t' & -> & Hperm).
    exact Hperm.
  - destruct (compare_pcf_data set_iter' cur prev) as [t'|e'] eqn:Ht'.
    + destruct (compare_pcf_data_other_order set_iter' set_iter cur prev t'
                  set_iter_perm' set_iter_perm Ht') as (t & Ht2 & _).
      congruence.
    + apply (compare_pcf_data_error set_iter set_iter_perm) in Ht
        as [(-> & Hcur & Hprev)|(-> & c & Hin & _)].
      * apply (compare_pcf_data_error set_iter' set_iter_perm') in Ht'
          as [(-> & _)|(-> & c' & Hin' & _)]; [done|].
        subst. by rewrite all_stock_codes_union in Hin'.
      * apply (compare_pcf_data_error set_iter' set_iter_perm') in Ht'
          as [(-> & Hcur & Hprev)|(-> & _)]; [|done].
        subst. by rewrite all_stock_codes_union in Hin.
Qed.

End RowOrder.

(** *** The comparison on the example tables *)

Lemma elements_backwards_is_an_order (s : gset str) :
  elements_backwards s ≡ₚ elements s.
Proof. apply reverse_Permutation. Qed.

Lemma comparison_row_fields_witness :
  Forall (fun row =>
            r_name row = name_in (build_dict example_current)
                                 (build_dict example_previous) (r_code row) /\
            r_weight_delta_pct row
            = round2 (sub (r_weight row) (r_prev_weight row)) /\
            ((r_shares_delta_pct row = DStr label_new /\
              r_shares_delta row = r_shares row) \/
             (exists x, r_shares_delta_pct row = DFloat x /\
                r_shares_delta row = r_shares row - r_prev_shares row)))
         example_frame.
Proof.
  apply Forall_forall. intros row Hrow.
  exact (comparison_row_fields elements elements_is_an_order example_current
           example_previous example_frame row compare_example Hrow).
Defined.

Lemma duplicate_code_last_row_wins_witness :
  exists row,
    row ∈ doubled_frame /\ r_code row = code_2330 /\
    r_shares row = 2000 /\ r_weight row = decimal 60 10 /\
    r_name row = py "TSMC-2" /\
    forall row', row' ∈ doubled_frame -> r_code row' = code_2330 ->
      row' = row.
Proof.
  apply (duplicate_code_last_row_wins elements elements_is_an_order
           example_current later_2330 [] example_previous doubled_frame).
  - vm_compute. reflexivity.
  - apply not_elem_of_nil.
Defined.

Lemma self_comparison_witness :
  Forall (fun row =>
            r_prev_shares row = r_shares row /\
            r_prev_weight row = r_weight row /\
            r_shares_delta row = 0 /\
            r_shares_delta_pct row
            = DFloat (S754_zero (r_shares row <? 0)) /\
            (is_finite (r_weight row) = true ->
             r_weight_delta_pct row = zero))
         steady_frame.
Proof.
  pose proof (self_comparison_reports_no_change elements
                elements_is_an_order example_table) as W.
  assert (compare_pcf_data elements example_table example_table
          = OK steady_frame) as E by (vm_compute; reflexivity).
  rewrite E in W. exact W.
Defined.

Lemma comparison_ignores_row_order_witness :
  match compare_pcf_data elements example_current example_previous,
        compare_pcf_data elements_backwards (reverse example_current)
          (reverse example_previous) with
  | OK t, OK t' => t ≡ₚ t'
  | Raise e, Raise e' => e = e'
  | _, _ => False
  end.
Proof.
  apply (comparison_ignores_row_order elements elements_backwards
           elements_is_an_order elements_backwards_is_an_order).
  - apply (bool_decide_unpack _). vm_compute. exact I.
  - apply (bool_decide_unpack _). vm_compute. exact I.
  - symmetry. apply reverse_Permutation.
  - symmetry. apply reverse_Permutation.
Defined.

(** ** More on the extractor *)

Lemma values_of_width df df' row :
  df_width df' = df_width df -> values_of df' row = values_of df row.
Proof. unfold values_of. by intros ->. Qed.

Section TableExtractorMore.

Variable re_digit : char -> bool.
Variable isdigit_char : char -> bool.
Variable py_int : str -> result Z.
Variable py_float : str -> result float.

Local Abbreviation terminal_text := (terminal_text re_digit).
Local Abbreviation terminal_row := (terminal_row re_digit).
Local Abbreviation run_end := (run_end re_digit).
Local Abbreviation shares_of := (shares_of isdigit_char py_int).
Local Abbreviation weight_of := (weight_of py_float).
Local Abbreviation parse_row := (parse_row isdigit_char py_int py_float).
Local Abbreviation holdings_of := (holdings_of isdigit_char py_int py_float).
Local Abbreviation parse_pcf_excel :=
  (parse_pcf_excel re_digit isdigit_char py_int py_float).

Lemma holdings_of_width df df' rows :
  df_width df' = df_width df -> holdings_of df' rows = holdings_of df rows.
Proof.
  intros Hw. induction rows as [|row rows IH]; [done|].
  by rewrite !holdings_of_cons, IH, (values_of_width df df' row Hw).
Qed.

Lemma holdings_of_Raise df rows e :
  holdings_of df rows = Raise e ->
  exists row, row ∈ rows /\ parse_row (values_of df row) = Raise e.
Proof.
  unfold Sheet.holdings_of.
  destruct (for_each _ rows) as [hs|e'] eqn:Hfor; [discriminate|].
  intros [= ->]. by apply for_each_Raise in Hfor.
Qed.

Lemma parse_row_Raise rv e :
  parse_row rv = Raise e ->
  exists s c1 c2 c3 tl,
    rv = Some s :: c1 :: c2 :: c3 :: tl /\
    ((isdigit isdigit_char (remove_char comma (text_or text_0 c2)) = true /\
      py_int (remove_char comma (text_or text_0 c2)) = Raise e) \/
     (endswith_char percent (text_or text_0_percent c3) = true /\
      py_float (remove_char percent (text_or text_0_percent c3)) = Raise e)).
Proof.
  intros Hrow.
  destruct (classic_gate rv) as [Hgate|Hgate].
  2:{ by rewrite (parse_row_skip isdigit_char py_int py_float rv Hgate)
        in Hrow. }
  apply passes_gate_shape in Hgate as (s & c1 & c2 & c3 & tl & ->).
  exists s, c1, c2, c3, tl. split; [done|].
  rewrite parse_row_gate in Hrow.
  unfold Sheet.shares_of, Sheet.weight_of in Hrow.
  destruct (isdigit isdigit_char (remove_char comma (text_or text_0 c2)))
    eqn:Hdigit.
  - destruct (py_int (remove_char comma (text_or text_0 c2)))
      as [shares|e1] eqn:Hint; cbn in Hrow.
    + right.
      destruct (endswith_char percent (text_or text_0_percent c3));
        [|discriminate].
      destruct (py_float (remove_char percent (text_or text_0_percent c3)))
        as [w|e2]; cbn in Hrow; [discriminate|].
      by injection Hrow as ->.
    + left. by injection Hrow as ->.
  - cbn in Hrow. right.
    destruct (endswith_char percent (text_or text_0_percent c3));
      [|discriminate].
    destruct (py_float (remove_char percent (text_or text_0_percent c3)))
      as [w|e2]; cbn in Hrow; [discriminate|].
    by injection Hrow as ->.
Qed.

(** X15. The extractor raises in two cases only: [ValueError] when no row
    holds the header marker, and what [int] or [float] raises on the
    shares or the weight cell of a row of the run, [int] being called on
    the text without commas when it is all digits and [float] on the text
    without percent signs when it ends with one. It never raises
    [IndexError]. *)
Theorem extractor_errors df e :
  parse_pcf_excel df = Raise e ->
  ((forall i, ~ header_row df i) /\ e = ValueError) \/
  (exists h t i row s c1 c2 c3 tl,
     first_header df h /\ run_end df h t /\ (h < i < t)%nat /\
     df_rows df !! i = Some row /\
     values_of df row = Some s :: c1 :: c2 :: c3 :: tl /\
     ((isdigit isdigit_char (remove_char comma (text_or text_0 c2)) = true /\
       py_int (remove_char comma (text_or text_0 c2)) = Raise e) \/
      (endswith_char percent (text_or text_0_percent c3) = true /\
       py_float (remove_char percent (text_or text_0_percent c3))
       = Raise e))).
Proof.
  intros Hparse.
  destruct (parse_pcf_excel_cases re_digit isdigit_char py_int py_float df)
    as [[Hno Hraise]|(h & t & Hh & Hrun & Hrows)].
  - left. split; [done|]. congruence.
  - right. rewrite Hrows in Hparse.
    apply holdings_of_Raise in Hparse as (row & Hin & Hrow).
    apply rows_between_lookup in Hin as (i & Hi & Hlook).
    apply parse_row_Raise in Hrow as (s & c1 & c2 & c3 & tl & Hrv & Hconv).
    exists h, t, i, row, s, c1, c2, c3, tl. split_and!; try done; lia.
Qed.

(** X16. On a frame of fewer than four columns no row passes the gate:
    the extractor returns the empty table when a row holds the header
    marker, and raises [ValueError] when none does. *)
Theorem narrow_frame_gives_empty_table df :
  (df_width df < 4)%nat ->
  ((exists h, first_header df h) /\ parse_pcf_excel df = OK []) \/
  ((forall i, ~ header_row df i) /\ parse_pcf_excel df = Raise ValueError).
Proof.
  intros Hw.
  destruct (parse_pcf_excel_cases re_digit isdigit_char py_int py_float df)
    as [[Hno Hraise]|(h & t & Hh & Hrun & ->)]; [by right|].
  left. split; [by exists h|].
  induction (rows_between df (S h) t) as [|row rows IH]; [done|].
  rewrite holdings_of_skip; [done|].
  apply parse_row_skip. intros [Hlen _].
  rewrite length_values_of in Hlen. lia.
Qed.

(** X17. Rows after the row that ends the table are never read: two
    frames of the same width that agree up to and including that row
    give the same table, or raise the same exception. *)
Theorem rows_after_the_end_are_ignored df df' h t :
  first_header df h -> run_end df h t -> (t < length (df_rows df))%nat ->
  df_width df' = df_width df ->
  take (S t) (df_rows df') = take (S t) (df_rows df) ->
  parse_pcf_excel df' = parse_pcf_excel df.
Proof.
  intros Hh Hrun Ht Hw Htake.
  assert (forall i, (i <= t)%nat -> df_rows df' !! i = df_rows df !! i)
    as Hsame.
  { intros i Hi.
    rewrite <- (lookup_take_lt (df_rows df') (S t) i) by lia.
    rewrite <- (lookup_take_lt (df_rows df) (S t) i) by lia.
    by rewrite Htake. }
  assert (S t <= length (df_rows df'))%nat as Ht'.
  { apply (f_equal length) in Htake. rewrite !length_take in Htake. lia. }
  assert (forall i, (i <= t)%nat -> header_row df' i <-> header_row df i)
    as Hhead.
  { intros i Hi. unfold header_row. rewrite (Hsame i Hi).
    split; intros (row & Hrow & Hm); exists row;
      (split; [done|]);
      [rewrite <- (values_of_width df df' row Hw)
      |rewrite (values_of_width df df' row Hw)]; done. }
  assert (forall i, (i <= t)%nat -> terminal_row df' i <-> terminal_row df i)
    as Hterm.
  { intros i Hi. unfold Sheet.terminal_row, first_col.
    rewrite (Hsame i Hi). destruct (df_rows df !! i) as [row|]; [|done].
    by rewrite (values_of_width df df' row Hw). }
  destruct Hrun as (Hb & Hin & Hend). destruct Hh as [Hh Hfirst].
  assert (first_header df' h) as Hh'.
  { split; [apply Hhead; [lia|done]|].
    intros i Hi Hhi. apply (Hfirst i Hi). apply Hhead; [lia|done]. }
  assert (run_end df' h t) as Hrun'.
  { split; [lia|]. split.
    - intros i Hi Hti. apply (Hin i Hi). apply Hterm; [lia|done].
    - intros _. apply Hterm; [lia|]. by apply Hend. }
  rewrite (parse_pcf_excel_at re_digit isdigit_char py_int py_float df' h t
             Hh' Hrun').
  rewrite (parse_pcf_excel_at re_digit isdigit_char py_int py_float df h t);
    [|done|done].
  rewrite (holdings_of_width df df' _ Hw). f_equal.
  unfold rows_between. apply list_eq. intros j.
  destruct (decide (j < t - S h)%nat) as [Hj|Hj].
  - rewrite !lookup_take_lt, !lookup_drop by done. apply Hsame. lia.
  - by rewrite !lookup_take_ge by lia.
Qed.

End TableExtractorMore.

(** *** The extractor on the example sheets *)

Lemma example_sheet_run : run_end ascii_digit example_sheet 3 10.
Proof.
  split; [cbn; lia|]. split.
  - intros i Hi. rewrite terminal_rowb_iff.
    do 4 (destruct i as [|i]; [lia|]).
    do 6 (destruct i as [|i]; [by vm_compute|]). lia.
  - intros _. by apply terminal_rowb_iff.
Qed.

Lemma extractor_errors_witness :
  ((forall i, ~ header_row bad_weight_sheet i) /\ ValueError = ValueError) \/
  (exists h t i row s c1 c2 c3 tl,
     first_header bad_weight_sheet h /\
     run_end ascii_digit bad_weight_sheet h t /\ (h < i < t)%nat /\
     df_rows bad_weight_sheet !! i = Some row /\
     values_of bad_weight_sheet row = Some s :: c1 :: c2 :: c3 :: tl /\
     ((isdigit ascii_digit (remove_char comma (text_or text_0 c2)) = true /\
       ascii_int (remove_char comma (text_or text_0 c2)) = Raise ValueError) \/
      (endswith_char percent (text_or text_0_percent c3) = true /\
       ascii_float (remove_char percent (text_or text_0_percent c3))
       = Raise ValueError))).
Proof.
  apply (extractor_errors ascii_digit ascii_digit ascii_int ascii_float
           bad_weight_sheet ValueError).
  vm_compute. reflexivity.
Defined.

Lemma narrow_frame_witness :
  ((exists h, first_header narrow_sheet h) /\
   parse_pcf_excel ascii_digit ascii_digit ascii_int ascii_float narrow_sheet
   = OK []) \/
  ((forall i, ~ header_row narrow_sheet i) /\
   parse_pcf_excel ascii_digit ascii_digit ascii_int ascii_float narrow_sheet
   = Raise ValueError).
Proof.
  apply (narrow_frame_gives_empty_table ascii_digit ascii_digit ascii_int
           ascii_float narrow_sheet).
  cbn. lia.
Defined.

Lemma rows_after_the_end_witness :
  parse_pcf_excel ascii_digit ascii_digit ascii_int ascii_float cut_sheet
  = parse_pcf_excel ascii_digit ascii_digit ascii_int ascii_float
      example_sheet.
Proof.
  apply (rows_after_the_end_are_ignored ascii_digit ascii_digit ascii_int
           ascii_float example_sheet cut_sheet 3 10).
  - exact example_sheet_header.
  - exact example_sheet_run.
  - cbn. lia.
  - reflexivity.
  - reflexivity.
Defined.

(** ** The report of a comparison *)

(** Rounding keeps the sign it is given. *)
Lemma binary_round_aux_sign s m e l :
  match binary_round_aux prec emax s m e l with
  | S754_zero s' | S754_infinity s' | S754_finite s' _ _ => s' = s
  | S754_nan => True
  end.
Proof.
  unfold binary_round_aux.
  destruct (shr_fexp prec emax m e l) as [mrs e'].
  destruct (shr_fexp prec emax _ e' loc_Exact) as [mrs' e''].
  destruct (shr_m mrs') as [|p|p]; [done| |done].
  by destruct (e'' <=? emax - prec).
Qed.

Lemma negative_is_not_inf x : negative_or_nan x -> eqb x inf = false.
Proof. by destruct x as [[]|[]| |[] m e]. Qed.

Lemma shares_change_of_decrease c p sc :
  0 < p -> c < p -> shares_change_of c p = OK sc -> negative_or_nan sc.
Proof.
  intros Hp Hc. unfold shares_change_of, int_truediv.
  destruct (Z.eqb_spec p 0) as [|_]; [lia|]. cbn [negb].
  destruct p as [|p|p]; try lia.
  destruct (c - Z.pos p) as [|d|d] eqn:Hd; try lia.
  cbn [exact_int]. unfold SFdiv.
  destruct (SFdiv_core_binary prec emax (Z.pos d) 0 (Z.pos p) 0)
    as [[mz ez] lz].
  pose proof (binary_round_aux_sign (xorb true false) mz ez lz) as Hq.
  destruct (binary_round_aux prec emax (xorb true false) mz ez lz)
    as [sq|sq| |sq mq eq]; cbn; try discriminate; intros [= <-].
  - by subst sq.
  - done.
  - subst sq. unfold mul, hundred, SFmul.
    match goal with
    | |- negative_or_nan (binary_round_aux _ _ ?s ?m ?e ?l) =>
        pose proof (binary_round_aux_sign s m e l) as Hm;
        destruct (binary_round_aux prec emax s m e l) as [?|?| |? ? ?]
    end; done.
Qed.

Section FillsOfTheReport.

Variable store_text : str -> result xl_value.

Local Abbreviation sheet_row := (sheet_row store_text).
Local Abbreviation save_comparison_result :=
  (save_comparison_result store_text).

(** X18. Every fill of a saved sheet is justified by its row: a cell has
    a fill only in a data row and in one of the nine columns of the
    header, and the fill is the one the rules choose on the cells of
    that row as the workbook holds them. A yellow row shows the
    new-position label in its percentage cell, which is then a text of
    the frame; a green row has an absolute change below 0 in the frame
    and no label; a pink row has a number above 30 in its percentage
    cell, no label, and an absolute change of at least 0 in the
    frame. *)
Theorem fills_are_justified df ws row col f :
  save_comparison_result df = OK ws ->
  ws_fills ws !! (row, col) = Some f ->
  exists i r cells pct delta,
    row = (i + 2)%nat /\ df !! i = Some r /\ (1 <= col <= 9)%nat /\
    sheet_row r = OK cells /\
    ws_values ws !! (i + 1)%nat = Some cells /\
    cells !! 7%nat = Some pct /\ cells !! 6%nat = Some delta /\
    chosen_fill pct delta (Some f) /\
    match f with
    | new_stock_fill =>
        shows_new pct /\
        exists s, r_shares_delta_pct r = DStr s /\ store_text s = OK pct
    | negative_change_fill => ~ shows_new pct /\ r_shares_delta r < 0
    | high_change_fill =>
        ~ shows_new pct /\ 0 <= r_shares_delta r /\ number_above_30 pct
    end.
Proof.
  intros Hws Hf.
  assert ((2 <= row < length df + 2)%nat /\ (1 <= col <= 9)%nat)
    as [Hrow Hcol].
  { destruct (save_fills store_text df ws Hws) as (ws0 & _ & _ & Hfills).
    rewrite Hfills in Hf. by destruct (decide _). }
  destruct (lookup_lt_is_Some_2 df (row - 2)) as [r Hr]; [lia|].
  destruct (saved_row store_text df ws (row - 2) r Hws Hr)
    as (cells & pct & delta & fill & Hc & Hcells & Hp & Hd & Hpct & Hdelta
        & Hch & Hfill).
  assert (fill = Some f) as ->.
  { rewrite <- (Hfill col Hcol), <- Hf. do 2 f_equal. lia. }
  exists (row - 2)%nat, r, cells, pct, delta.
  split_and!; try done; try lia.
  pose proof (xl_of_int_below_zero _ _ Hdelta) as Hsign.
  inversion Hch as [Hnew|Hnew Hneg|Hnew Hneg Hhigh|]; subst.
  - split; [done|].
    destruct (r_shares_delta_pct r) as [x|s]; [|by exists s].
    injection Hpct as <-. by destruct (xl_of_float_not_new x).
  - split; [done|]. by apply Hsign.
  - split_and!; try done.
    destruct (Z.lt_ge_cases (r_shares_delta r) 0) as [Hlt|]; [|done].
    by destruct Hneg; apply Hsign.
Qed.

End FillsOfTheReport.

Section ReportOfComparison.

Variable set_iter : gset str -> list str.
Hypothesis set_iter_perm : forall s, set_iter s ≡ₚ elements s.
Variable store_text : str -> result xl_value.

Local Abbreviation save_comparison_result :=
  (save_comparison_result store_text).

Lemma compare_pcf_data_display cur prev t row :
  compare_pcf_data set_iter cur prev = OK t ->
  row ∈ t ->
  exists sc,
    shares_change_of (r_shares row) (r_prev_shares row) = OK sc /\
    (r_shares_delta_pct row, r_shares_delta row)
    = display_of sc (r_shares row) (r_prev_shares row).
Proof using set_iter_perm.
  intros Ht Hrow.
  apply (compare_pcf_data_rows set_iter set_iter_perm cur prev t row Ht)
    in Hrow as (c & _ & Hrow).
  apply compare_code_inv in Hrow as (_ & -> & _ & -> & _ & sc & Hsc & Hd).
  by exists sc.
Qed.

(** X19. The colours of the report follow the shares. In the sheet the
    writer returns for a comparison, a row with no previous shares and
    some shares today is yellow when the workbook keeps the text of the
    new-position label, a row with fewer shares today than the positive
    number of the day before is light green, a closed position
    included, and a row with the same shares on both days has no fill;
    the fill is on all nine cells of the row. *)
Theorem report_colours_follow_the_shares cur prev t ws i row col :
  compare_pcf_data set_iter cur prev = OK t ->
  save_comparison_result t = OK ws ->
  t !! i = Some row ->
  (1 <= col <= 9)%nat ->
  (r_prev_shares row = 0 -> 0 < r_shares row ->
   store_text label_new = OK (XStr label_new) ->
   ws_fills ws !! ((i + 2)%nat, col) = Some new_stock_fill) /\
  (0 < r_prev_shares row -> r_shares row < r_prev_shares row ->
   ws_fills ws !! ((i + 2)%nat, col) = Some negative_change_fill) /\
  (r_shares row = r_prev_shares row ->
   ws_fills ws !! ((i + 2)%nat, col) = None).
Proof using set_iter_perm.
  intros Ht Hws Hrow Hcol.
  destruct (compare_pcf_data_display cur prev t row Ht
              (list_elem_of_lookup_2 _ _ _ Hrow)) as (sc & Hsc & Hd).
  destruct (saved_row store_text t ws i row Hws Hrow)
    as (cells & pct & delta & fill & _ & _ & _ & _ & Hpct & Hdelta & Hch
        & Hfill).
  rewrite (Hfill col Hcol). split_and!.
  - intros Hp Hc Hlabel. rewrite Hp in Hsc, Hd.
    rewrite (shares_change_of_opened _ Hc) in Hsc. injection Hsc as <-.
    rewrite display_of_inf in Hd. injection Hd as Hpd _.
    rewrite Hpd in Hpct. cbn in Hpct. rewrite Hlabel in Hpct.
    injection Hpct as <-.
    apply (chosen_fill_unique _ _ _ _ Hch). by apply choose_new.
  - intros Hp Hc.
    pose proof (negative_is_not_inf sc
                  (shares_change_of_decrease _ _ _ Hp Hc Hsc)) as Hinf.
    rewrite (display_of_numeric _ _ _ Hsc Hinf) in Hd.
    injection Hd as Hpd Hdd. rewrite Hpd in Hpct. cbn in Hpct.
    injection Hpct as <-.
    apply (chosen_fill_unique _ _ _ _ Hch). apply choose_negative.
    + apply xl_of_float_not_new.
    + apply (xl_of_int_below_zero _ _ Hdelta). lia.
  - intros Hsame. rewrite Hsame in Hsc, Hd.
    rewrite shares_change_of_same in Hsc. injection Hsc as <-.
    rewrite display_of_same in Hd. injection Hd as Hpd Hdd.
    rewrite Hpd in Hpct. rewrite Hdd in Hdelta. cbn in Hpct, Hdelta.
    injection Hpct as <-. injection Hdelta as <-.
    apply (chosen_fill_unique _ _ _ _ Hch).
    apply choose_none; [done|cbn; lia|cbn; lia].
Qed.

End ReportOfComparison.

Lemma fills_are_justified_witness :
  exists i r cells pct delta,
    2%nat = (i + 2)%nat /\ example_frame !! i = Some r /\
    (1 <= 3 <= 9)%nat /\
    sheet_row plain_text r = OK cells /\
    ws_values example_report !! (i + 1)%nat = Some cells /\
    cells !! 7%nat = Some pct /\ cells !! 6%nat = Some delta /\
    chosen_fill pct delta (Some new_stock_fill) /\
    (shows_new pct /\
     exists s, r_shares_delta_pct r = DStr s /\ plain_text s = OK pct).
Proof.
  apply (fills_are_justified plain_text example_frame example_report 2 3
           new_stock_fill); vm_compute; reflexivity.
Defined.

Lemma report_colours_witness :
  (ws_fills example_report !! (2%nat, 1%nat) = Some new_stock_fill) /\
  (ws_fills example_report !! (5%nat, 9%nat) = Some negative_change_fill) /\
  (ws_fills example_report !! (4%nat, 5%nat) = None).
Proof.
  assert (save_comparison_result plain_text example_frame
          = OK example_report) as Hsaved by (vm_compute; reflexivity).
  split_and!.
  - apply (report_colours_follow_the_shares elements elements_is_an_order
             plain_text example_current example_previous example_frame
             example_report 0
             (mkRow code_2330 [84; 83; 77; 67]%N 1000 (decimal 55 10) 0 zero
                    1000 (DStr label_new) (decimal 55 10)) 1
             compare_example Hsaved eq_refl); cbn; (lia || reflexivity).
  - apply (report_colours_follow_the_shares elements elements_is_an_order
             plain_text example_current example_previous example_frame
             example_report 3
             (mkRow code_2412 [67; 72; 84]%N 0 zero 500 (decimal 15 10)
                    (-500) (DFloat minus_hundred) (SFopp (decimal 15 10))) 9
             compare_example Hsaved eq_refl); cbn; lia.
  - apply (report_colours_follow_the_shares elements elements_is_an_order
             plain_text example_current example_previous example_frame
             example_report 2
             (mkRow code_2303 [85; 77; 67]%N 300 (decimal 20 10) 300
                    (decimal 20 10) 0 (DFloat zero) zero) 5
             compare_example Hsaved eq_refl); cbn; lia.
Defined.

(** ** The percentage is a number *)

Lemma shr_1_nonneg mrs : 0 <= shr_m mrs -> 0 <= shr_m (shr_1 mrs).
Proof. destruct mrs as [[|[p|p|]|[p|p|]] r s]; cbn; lia. Qed.

Lemma iter_pos_shr_1_nonneg p mrs :
  0 <= shr_m mrs -> 0 <= shr_m (SpecFloat.iter_pos shr_1 p mrs).
Proof.
  revert mrs. induction p as [p IH|p IH|]; intros mrs Hm; cbn.
  - apply IH, IH. by apply shr_1_nonneg.
  - by apply IH, IH.
  - by apply shr_1_nonneg.
Qed.

Lemma shr_fexp_nonneg m e l :
  0 <= m -> 0 <= shr_m (fst (shr_fexp prec emax m e l)).
Proof.
  intros Hm. unfold shr_fexp, shr.
  assert (0 <= shr_m (shr_record_of_loc m l)) as Hrec
    by by destruct l as [|[]].
  destruct (fexp prec emax (Zdigits2 m + e) - e) as [|p|p]; cbn [fst];
    [done| |done].
  by apply iter_pos_shr_1_nonneg.
Qed.

Lemma round_nearest_even_nonneg m l :
  0 <= m -> 0 <= round_nearest_even m l.
Proof.
  intros Hm. destruct l as [|[]]; cbn; [done| |done|lia].
  destruct (Z.even m); lia.
Qed.

Lemma binary_round_aux_not_nan s m e l :
  0 <= m -> is_nan (binary_round_aux prec emax s m e l) = false.
Proof.
  intros Hm. unfold binary_round_aux.
  pose proof (shr_fexp_nonneg m e l Hm) as H1.
  destruct (shr_fexp prec emax m e l) as [mrs e']. cbn [fst] in H1.
  pose proof (shr_fexp_nonneg _ e' loc_Exact
                (round_nearest_even_nonneg (shr_m mrs)
                   (loc_of_shr_record mrs) H1)) as H2.
  destruct (shr_fexp prec emax _ e' loc_Exact) as [mrs' e''].
  cbn [fst] in H2.
  destruct (shr_m mrs') as [|p|p]; [done| |lia].
  by destruct (e'' <=? emax - prec).
Qed.

Lemma SFdiv_finite_not_nan sx mx ex sy my ey :
  is_nan (SFdiv prec emax (S754_finite sx mx ex) (S754_finite sy my ey))
  = false.
Proof.
  unfold SFdiv, SFdiv_core_binary. cbv zeta.
  match goal with
  | |- context [Z.div_eucl ?a (Z.pos my)] =>
      assert (0 <= a) as Ha
        by (match goal with
            | |- 0 <= match ?s with _ => _ end =>
                destruct s; [lia|by apply Z.shiftl_nonneg|lia]
            end);
      pose proof (Z.div_pos a (Z.pos my) Ha eq_refl) as Hq;
      unfold Z.div in Hq;
      destruct (Z.div_eucl a (Z.pos my)) as [q r]
  end.
  by apply binary_round_aux_not_nan.
Qed.

Lemma int_truediv_finite a b q :
  int_truediv a b = OK q -> is_finite q = true.
Proof.
  unfold int_truediv. destruct (Z.eqb_spec b 0) as [|Hb]; [discriminate|].
  destruct (is_inf _) eqn:Hinf; [discriminate|]. intros [= <-].
  destruct a as [|a|a], b as [|b|b]; try done; cbn [exact_int] in *;
    match goal with
    | |- is_finite (SFdiv _ _ (S754_finite ?sx ?mx ?ex)
                      (S754_finite ?sy ?my ?ey)) = true =>
        pose proof (SFdiv_finite_not_nan sx mx ex sy my ey) as Hnan;
        destruct (SFdiv prec emax (S754_finite sx mx ex)
                    (S754_finite sy my ey)); done
    end.
Qed.

Lemma mul_hundred_not_nan q :
  is_finite q = true -> is_nan (mul q hundred) = false.
Proof.
  destruct q as [s|s| |s m e]; try done. intros _.
  unfold mul, hundred, SFmul. by apply binary_round_aux_not_nan.
Qed.

Lemma round2_not_nan x : is_nan x = false -> is_nan (round2 x) = false.
Proof.
  destruct x as [s|s| |s m e]; try done. intros _. unfold round2.
  match goal with
  | |- is_nan (match ?n with _ => _ end) = false =>
      destruct n as [|p|p]; [done| |done]
  end.
  apply SFdiv_finite_not_nan.
Qed.

Lemma shares_change_of_not_nan c p sc :
  shares_change_of c p = OK sc -> is_nan sc = false.
Proof.
  unfold shares_change_of. destruct (negb (p =? 0)).
  - destruct (int_truediv (c - p) p) as [q|e] eqn:Hq; cbn; [|discriminate].
    intros [= <-]. apply mul_hundred_not_nan.
    by apply (int_truediv_finite (c - p) p).
  - intros [= <-]. by destruct (0 <? c).
Qed.

Lemma display_of_label_or_number c p sc :
  shares_change_of c p = OK sc -> label_or_number (fst (display_of sc c p)).
Proof.
  intros Hsc. destruct (eqb sc inf) eqn:Hinf.
  - apply eqb_inf_iff in Hinf as ->. by rewrite display_of_inf.
  - rewrite (display_of_numeric _ _ _ Hsc Hinf). cbn.
    apply round2_not_nan. by apply (shares_change_of_not_nan c p).
Qed.

(** ** The counters of the summary *)

Lemma sign_partition xs :
  Forall (fun x => is_nan x = false) xs ->
  (length (List.filter (fun x => ltb zero x) xs)
   + length (List.filter (fun x => ltb x zero) xs)
   + length (List.filter (fun x => eqb x zero) xs))%nat
  = length xs.
Proof.
  induction 1 as [|x xs Hx _ IH]; [done|].
  cbn [List.filter length].
  destruct x as [s|[]| |[] m e]; try done; cbn; lia.
Qed.

Section SummaryFacts.

Variable to_numeric_text : str -> result float.

Local Abbreviation to_numeric := (to_numeric to_numeric_text).
Local Abbreviation count_where := (count_where to_numeric_text).
Local Abbreviation summary_counters := (summary_counters to_numeric_text).

Lemma numeric_changes_of_frame df :
  Forall (fun r => label_or_number (r_shares_delta_pct r)) df ->
  rows_labelled label_liquidated df = [] /\
  exists xs,
    for_each (fun r => to_numeric (r_shares_delta_pct r))
             (numeric_changes df) = OK xs /\
    Forall (fun x => is_nan x = false) xs /\
    length (numeric_changes df) = length xs /\
    (length (rows_labelled label_new df) + length xs)%nat = length df.
Proof.
  induction 1 as [|r df Hr _ (Hsold & xs & Hfor & Hnan & Hlen & Hsum)].
  - split; [done|]. by exists [].
  - unfold rows_labelled, numeric_changes in *. cbn [List.filter].
    destruct (r_shares_delta_pct r) as [x|s] eqn:Hpct; cbn in Hr.
    + cbn [is_label negb andb]. split; [done|]. exists (x :: xs).
      cbn [for_each]. rewrite Hpct. cbn [Summary.to_numeric].
      cbn. rewrite Hfor. cbn.
      split_and!; [done|by constructor|lia|lia].
    + subst s. cbn [is_label].
      change (str_eqb label_new label_new) with true.
      change (str_eqb label_new label_liquidated) with false.
      cbn [negb andb]. split; [done|]. exists xs.
      split_and!; try done. cbn. lia.
Qed.

Lemma summary_counters_of_frame df :
  df <> [] ->
  Forall (fun r => label_or_number (r_shares_delta_pct r)) df ->
  exists c,
    summary_counters df = OK c /\
    total_stocks c = length df /\
    sold_stocks c = 0%nat /\
    (new_stocks c + increased_stocks c + decreased_stocks c
     + unchanged_stocks c)%nat = total_stocks c.
Proof.
  intros Hne Hdf.
  destruct (numeric_changes_of_frame df Hdf)
    as (Hsold & xs & Hfor & Hnan & Hlen & Hsum).
  pose proof (sign_partition xs Hnan) as Hpart.
  unfold Summary.summary_counters. destruct df as [|r df']; [done|].
  remember (r :: df') as df eqn:Edf. clear Edf. cbv zeta. rewrite Hsold.
  destruct (Nat.ltb_spec 0 (length (numeric_changes df))) as [Hpos|Hzero].
  - unfold Summary.count_where. rewrite Hfor. cbn.
    eexists. split; [reflexivity|]. cbn. split_and!; [done|done|lia].
  - eexists. split; [reflexivity|]. cbn. split_and!; [done|done|lia].
Qed.

End SummaryFacts.

Section SummaryOfComparison.

Variable set_iter : gset str -> list str.
Hypothesis set_iter_perm : forall s, set_iter s ≡ₚ elements s.
Variable to_numeric_text : str -> result float.

(** X20. On the frame of a comparison the counters of the summary are
    computed without an exception; the count of closed positions is 0
    whatever the tables, and the counts of new, increased, decreased and
    unchanged positions add up to the number of rows. *)
Theorem summary_counters_of_comparison cur prev t :
  compare_pcf_data set_iter cur prev = OK t ->
  exists c,
    summary_counters to_numeric_text t = OK c /\
    total_stocks c = length t /\
    sold_stocks c = 0%nat /\
    (new_stocks c + increased_stocks c + decreased_stocks c
     + unchanged_stocks c)%nat = total_stocks c.
Proof using set_iter_perm.
  intros Ht. apply summary_counters_of_frame.
  - apply compare_pcf_data_inv in Ht as (rows & _ & Hne & ->).
    intros Hnil. apply Hne. apply Permutation_nil_r.
    by rewrite <- (stable_sort_perm rows), Hnil.
  - apply Forall_forall. intros row Hrow.
    apply (compare_pcf_data_rows set_iter set_iter_perm cur prev t row Ht)
      in Hrow as (c & _ & Hrow).
    apply compare_code_inv in Hrow as (_ & _ & _ & _ & _ & sc & Hsc & Hd).
    pose proof (display_of_label_or_number _ _ _ Hsc) as Hl.
    by rewrite <- Hd in Hl.
Qed.

End SummaryOfComparison.

Lemma summary_counters_witness :
  exists c,
    summary_counters no_numeric_text example_frame = OK c /\
    total_stocks c = length example_frame /\
    sold_stocks c = 0%nat /\
    (new_stocks c + increased_stocks c + decreased_stocks c
     + unchanged_stocks c)%nat = total_stocks c.
Proof.
  exact (summary_counters_of_comparison elements elements_is_an_order
           no_numeric_text example_current example_previous example_frame
           compare_example).
Defined.

(** ** Tables without holdings *)

Section EmptyTables.

Variable re_digit : char -> bool.
Variable isdigit_char : char -> bool.
Variable py_int : str -> result Z.
Variable py_float : str -> result float.

Local Abbreviation terminal_row := (terminal_row re_digit).
Local Abbreviation run_end := (run_end re_digit).
Local Abbreviation parse_pcf_excel :=
  (parse_pcf_excel re_digit isdigit_char py_int py_float).

(** X21. When the header row is the last row of the sheet, or the row
    after it does not start with a four-digit code, the extractor
    returns the empty table without an error, whatever the later rows
    hold. *)
Theorem empty_run_gives_empty_table df h :
  first_header df h ->
  ((S h < length (df_rows df))%nat -> terminal_row df (S h)) ->
  parse_pcf_excel df = OK [].
Proof.
  intros Hh Hend.
  pose proof (header_row_bounds df h (proj1 Hh)) as [Hlen _].
  assert (run_end df h (S h)) as Hrun.
  { split; [lia|]. split; [intros i Hi; lia|done]. }
  rewrite (parse_pcf_excel_at re_digit isdigit_char py_int py_float df h
             (S h) Hh Hrun).
  unfold rows_between. by rewrite Nat.sub_diag, take_0.
Qed.

End EmptyTables.

Lemma empty_run_witness :
  parse_pcf_excel ascii_digit ascii_digit ascii_int ascii_float
    five_digit_sheet = OK [].
Proof.
  apply (empty_run_gives_empty_table ascii_digit ascii_digit ascii_int
           ascii_float five_digit_sheet 0).
  - split; [by apply header_rowb_iff|]. intros i Hi. lia.
  - intros _. by apply terminal_rowb_iff.
Defined.

Lemma compare_pcf_data_empty (set_iter : gset str -> list str) :
  (forall s, set_iter s ≡ₚ elements s) ->
  compare_pcf_data set_iter [] [] = Raise KeyError.
Proof.
  intros Hperm. unfold compare_pcf_data, comparison_data.
  assert (set_iter (all_stock_codes [] []) = []) as ->; [|done].
  apply Permutation_nil_r. rewrite (Hperm _).
  rewrite all_stock_codes_union. cbn. by rewrite (left_id_L ∅ (∪)).
Qed.

Section EmptyReport.

Variable strptime : str -> result Z.
Variable strftime : Z -> str.
Variable roc_text : Z -> str.
Variable session_get : str -> http_outcome.
Variable read_excel : bytes -> result DataFrame.
Variable re_digit : char -> bool.
Variable isdigit_char : char -> bool.
Variable py_int : str -> result Z.
Variable py_float : str -> result float.
Variable set_iter : gset str -> list str.
Hypothesis set_iter_perm : forall s, set_iter s ≡ₚ elements s.
Variable store_text : str -> result xl_value.
Variable print_comparison_summary : list ComparisonRow -> result unit.

Local Abbreviation date_to_roc_format := (date_to_roc_format strptime roc_text).
Local Abbreviation download_pcf_excel := (download_pcf_excel session_get).
Local Abbreviation find_and_download_previous_day :=
  (find_and_download_previous_day strptime strftime roc_text session_get).
Local Abbreviation parse_file :=
  (parse_file read_excel re_digit isdigit_char py_int py_float).
Local Abbreviation main :=
  (main strptime strftime roc_text session_get read_excel re_digit
        isdigit_char py_int py_float set_iter store_text
        print_comparison_summary).

(** X22. When both files are retrieved and neither yields a holding, the
    comparison raises [KeyError] on its empty frame and [process] catches
    it: [main] prints the failure, writes no report, says that no result
    file was produced and ends with exit code 0. *)
Theorem empty_tables_give_no_report date fund_code roc_date current prev
    slog :
  date_to_roc_format date = OK roc_date ->
  download_pcf_excel fund_code roc_date = Some current ->
  find_and_download_previous_day fund_code date = (OK (Some prev), slog) ->
  parse_file current = OK [] ->
  parse_file prev = OK [] ->
  fst (main date fund_code) = 0 /\
  writes (snd (main date fund_code)) = [] /\
  Print (L_failed KeyError) ∈ snd (main date fund_code) /\
  last (snd (main date fund_code)) = Some (Print L_result_none).
Proof using set_iter_perm.
  intros Hroc Hdown Hfind Hcur Hprev.
  destruct (main_retrieved strptime strftime roc_text session_get read_excel
              re_digit isdigit_char py_int py_float set_iter store_text
              print_comparison_summary _ _ _ _ _ _ Hroc Hdown Hfind)
    as [Hw ->].
  rewrite analyse_cases, Hcur, Hprev,
    (compare_pcf_data_empty set_iter set_iter_perm).
  cbn [fst snd closing_lines]. split_and!; [done| | |].
  - rewrite !writes_app, Hw. reflexivity.
  - rewrite !elem_of_app. do 4 right. apply elem_of_cons. by left.
  - rewrite !last_app. reflexivity.
Qed.

End EmptyReport.

Lemma empty_tables_witness :
  fst (main toy_strptime toy_strftime toy_strftime server_up
         five_digit_reader ascii_digit ascii_digit ascii_int ascii_float
         elements plain_text no_summary day_738959 fund_49YTW) = 0 /\
  writes (snd (main toy_strptime toy_strftime toy_strftime server_up
                 five_digit_reader ascii_digit ascii_digit ascii_int
                 ascii_float elements plain_text no_summary day_738959
                 fund_49YTW))
  = [] /\
  Print (L_failed KeyError)
  ∈ snd (main toy_strptime toy_strftime toy_strftime server_up
           five_digit_reader ascii_digit ascii_digit ascii_int ascii_float
           elements plain_text no_summary day_738959 fund_49YTW) /\
  last (snd (main toy_strptime toy_strftime toy_strftime server_up
               five_digit_reader ascii_digit ascii_digit ascii_int
               ascii_float elements plain_text no_summary day_738959
               fund_49YTW))
  = Some (Print L_result_none).
Proof.
  apply (empty_tables_give_no_report toy_strptime toy_strftime toy_strftime
           server_up five_digit_reader ascii_digit ascii_digit ascii_int
           ascii_float elements elements_is_an_order plain_text no_summary
           day_738959 fund_49YTW day_738959 big_body big_body
           [Print (L_attempt 1 [738958%N] [738958%N])]);
    vm_compute; reflexivity.
Defined.

(** ** From the sheets to the frame *)

Section SheetsToFrame.

Variable re_digit : char -> bool.
Variable isdigit_char : char -> bool.
Variable py_int : str -> result Z.
Variable py_float : str -> result float.
Variable set_iter : gset str -> list str.
Hypothesis set_iter_perm : forall s, set_iter s ≡ₚ elements s.

Local Abbreviation parse_pcf_excel :=
  (parse_pcf_excel re_digit isdigit_char py_int py_float).

Lemma extracted_code_shape df tbl hd :
  parse_pcf_excel df = OK tbl -> hd ∈ tbl ->
  length (h_code hd) = 4%nat /\ forallb re_digit (h_code hd) = true.
Proof.
  intros Hparse Hhd.
  destruct (parse_pcf_excel_cases re_digit isdigit_char py_int py_float df)
    as [[_ Hraise]|(h & t & [Hh _] & Hrun & Heq)]; [congruence|].
  apply header_row_bounds in Hh as [_ Hw]. rewrite Heq in Hparse.
  destruct (holdings_of_elem isdigit_char py_int py_float df _ tbl hd
              Hparse Hhd) as (row & Hrow & Hp).
  apply rows_between_lookup in Hrow as (i & Hi & Hrow).
  destruct (run_row_first_cell re_digit df h t i row Hw Hrun)
    as (s & Hs & Hnt); [lia|done|].
  apply parse_row_Some in Hp as (s' & c1 & c2 & c3 & tl & Hshape & Hc & _).
  rewrite Hshape in Hs. injection Hs as ->. rewrite Hc.
  apply not_terminal_text in Hnt as (_ & _ & _ & Hmatch).
  by apply re_match_code_strip.
Qed.

(** X23. Every row of a frame compared from two extracted tables stands
    for a holding of one of the two sheets: its code is the code of a
    holding of today's or of the previous table, and it is four
    characters long, all digits. *)
Theorem frame_codes_come_from_the_sheets df_current df_previous cur prev t :
  parse_pcf_excel df_current = OK cur ->
  parse_pcf_excel df_previous = OK prev ->
  compare_pcf_data set_iter cur prev = OK t ->
  Forall (fun row =>
            (exists hd, (hd ∈ cur \/ hd ∈ prev) /\ h_code hd = r_code row) /\
            length (r_code row) = 4%nat /\
            forallb re_digit (r_code row) = true)
         t.
Proof using set_iter_perm.
  intros Hcur Hprev Ht. apply Forall_forall. intros row Hrow.
  apply (compare_pcf_data_rows set_iter set_iter_perm cur prev t row Ht)
    in Hrow as (c & Hc & Hrow).
  apply compare_code_inv in Hrow as (-> & _).
  rewrite all_stock_codes_union in Hc.
  assert (exists hd, (hd ∈ cur \/ hd ∈ prev) /\ h_code hd = c)
    as (hd & Hin & <-).
  { apply elem_of_union in Hc as [Hc|Hc];
      apply elem_of_list_to_set, list_elem_of_fmap in Hc as (hd & -> & Hin);
      exists hd; by auto. }
  split; [by exists hd|].
  destruct Hin as [Hin|Hin];
    [by apply (extracted_code_shape df_current cur)
    |by apply (extracted_code_shape df_previous prev)].
Qed.

End SheetsToFrame.

Lemma frame_codes_witness :
  Forall (fun row =>
            (exists hd,
               (hd ∈ example_table \/ hd ∈ example_table) /\
               h_code hd = r_code row) /\
            length (r_code row) = 4%nat /\
            forallb ascii_digit (r_code row) = true)
         steady_frame.
Proof.
  apply (frame_codes_come_from_the_sheets ascii_digit ascii_digit ascii_int
           ascii_float elements elements_is_an_order example_sheet
           example_sheet example_table example_table steady_frame);
    vm_compute; reflexivity.
Defined.

(** ** The candidates of the backward search *)

Lemma nearest_weekday_before_pos d : 1 < d -> 1 <= nearest_weekday_before d.
Proof.
  intros Hd. unfold nearest_weekday_before, weekday. weekday_facts d.
  destruct (Z.eqb_spec ((d + 6) mod 7) 0) as [Hmon|_]; [lia|].
  destruct (Z.eqb_spec ((d + 6) mod 7) 6) as [Hsun|_]; lia.
Qed.

Section Candidates.

Variable strptime : str -> result Z.
Variable strftime : Z -> str.

(** The calendar reads back the dates it writes in the years 1000 to
    9999. *)
Hypothesis read_back :
  forall d, day_1000_01_01 <= d <= day_9999_12_31 ->
            strptime (strftime d) = OK d.

(** X24. On a calendar that reads back the dates it writes in the years
    1000 to 9999, and from a requested date far enough into that range,
    the backward search reaches its [k]-th candidate, and it is a day of
    the calendar that is neither a Saturday nor a Sunday, at least [k]
    and at most [3 k] days before the requested date. *)
Theorem candidates_are_earlier_weekdays k date d :
  strptime date = OK d ->
  day_1000_01_01 + 3 * Z.of_nat k <= d <= day_9999_12_31 ->
  exists p,
    business_days_back strptime strftime (S k) date = OK (strftime p) /\
    1 <= p /\ weekday p < 5 /\
    d - 3 * Z.of_nat (S k) <= p <= d - Z.of_nat (S k).
Proof using read_back.
  unfold day_1000_01_01, day_9999_12_31 in *.
  revert date d. induction k as [|k IH]; intros date d Hd Hrange.
  - cbn [Backward.business_days_back].
    rewrite get_previous_business_day_eq, Hd.
    destruct (Z.leb_spec d 1) as [|Hlt]; [lia|].
    pose proof (nearest_weekday_before_spec d) as (Hw & Hr & _).
    pose proof (nearest_weekday_before_pos d Hlt).
    exists (nearest_weekday_before d). split_and!; try done; lia.
  - change (business_days_back strptime strftime (S (S k)) date)
      with (get_previous_business_day strptime strftime date
            ≫= business_days_back strptime strftime (S k)).
    rewrite get_previous_business_day_eq, Hd.
    destruct (Z.leb_spec d 1) as [|Hlt]; [lia|].
    cbn [mbind result_bind].
    pose proof (nearest_weekday_before_spec d) as (_ & Hr & _).
    assert (364878 <= nearest_weekday_before d <= 3652059) as Hin by lia.
    destruct (IH _ (nearest_weekday_before d) (read_back _ Hin))
      as (p & -> & Hp & Hw & Hback); [lia|].
    exists p. split_and!; try done; lia.
Qed.

End Candidates.

Lemma candidates_witness :
  exists p,
    business_days_back toy_strptime toy_strftime 3 day_738959
    = OK (toy_strftime p) /\
    1 <= p /\ weekday p < 5 /\
    738959 - 3 * Z.of_nat 3 <= p <= 738959 - Z.of_nat 3.
Proof.
  apply (candidates_are_earlier_weekdays toy_strptime toy_strftime
           (fun d Hd =>
              f_equal OK (Z2N.id d ltac:(unfold day_1000_01_01 in Hd; lia)))
           2 day_738959 738959).
  - reflexivity.
  - vm_compute. split; discriminate.
Defined.
